(** * AI Study Buddy: chunker, vector store and RAG engine

A shallow embedding of [document_processor.py], [vector_store.py] and
[rag_engine.py], followed by the properties of the specification that
were checked against it.

Conventions of the embedding.
- A Python [str] is a [string]; a character is an 8-bit code point
  (the Latin-1 range of Unicode), classified as Python classifies it.
- A Python [int] is a [Z] where the code compares or subtracts it
  ([chunk_size], [chunk_overlap], [n_results],
  [max_conversation_history]); page numbers, which come out of
  [int(digits)], are [N]; positions produced by [range]/[enumerate]
  are [nat].
- A [dict] used as a map is a [gmap].
- Methods that mutate [self], call the Ollama backend or raise are
  computations in the monad [M]: state passing, a log of the backend
  calls made, and a result that is either a value or an exception.
  The state reached when an exception is raised is kept, as in Python. *)

From Stdlib Require Import ZArith NArith String Ascii DecimalString DecimalNat.
From Stdlib Require DecimalN.
From stdpp Require Import gmap strings list sorting.

(* ===================================================================== *)
(** * Python primitives used by the sources *)
(* ===================================================================== *)

Module Py.

(** [len(s)], as a Python integer. *)
Definition len (s : string) : Z := Z.of_nat (String.length s).

(** Truthiness of a string: [if s:]. *)
Definition truthy (s : string) : bool :=
  match s with "" => false | _ => true end.

(** [c.isspace()], which is also the class [\s] of [re] on [str]
    patterns, for code points below 256: TAB..CR, FS..US, space,
    NEL (0x85) and NBSP (0xA0). *)
Definition isspace (c : ascii) : bool :=
  let n := N_of_ascii c in
  ((9 <=? n) && (n <=? 13) || (28 <=? n) && (n <=? 32)
   || (n =? 133) || (n =? 160))%N.

(** The class [\d] of [re] for code points below 256. *)
Definition isdecimal (c : ascii) : bool :=
  let n := N_of_ascii c in ((48 <=? n) && (n <=? 57))%N.

Definition digit_value (c : ascii) : N := (N_of_ascii c - 48)%N.

Definition is_newline (c : ascii) : bool := (N_of_ascii c =? 10)%N.

(** The one-character string ["\n"]. *)
Definition NL : string := String (ascii_of_N 10) "".

(** [s.lstrip()], [s.rstrip()], [s.strip()]. *)
Fixpoint lstrip (s : string) : string :=
  match s with
  | "" => ""
  | String c s' => if isspace c then lstrip s' else s
  end.

Fixpoint rstrip (s : string) : string :=
  match s with
  | "" => ""
  | String c s' =>
      match rstrip s' with
      | "" => if isspace c then "" else String c ""
      | r => String c r
      end
  end.

Definition strip (s : string) : string := rstrip (lstrip s).

(** [s[n:]] for [0 <= n]. *)
Fixpoint drop (n : nat) (s : string) : string :=
  match n, s with
  | O, _ => s
  | S _, "" => ""
  | S k, String _ s' => drop k s'
  end.

(** [s[:n]] for [0 <= n]. *)
Fixpoint take (n : nat) (s : string) : string :=
  match n, s with
  | O, _ => ""
  | S _, "" => ""
  | S k, String c s' => String c (take k s')
  end.

(** [s[i:]] for any integer [i]: a negative index counts from the end
    and is clamped at the start of the string. *)
Definition slice_from (i : Z) (s : string) : string :=
  let start := if (i <? 0)%Z then Z.max 0 (i + len s) else i in
  drop (Z.to_nat start) s.

(** [s.find(' ')]: index of the first space, [-1] when there is none. *)
Fixpoint find_space (s : string) : Z :=
  match s with
  | "" => (-1)%Z
  | String c s' =>
      if Ascii.eqb c " "%char then 0%Z
      else let r := find_space s' in
           if (r <? 0)%Z then (-1)%Z else (r + 1)%Z
  end.

(** [needle in s]. *)
Fixpoint contains (needle s : string) : bool :=
  String.prefix needle s
  || match s with
     | "" => false
     | String _ s' => contains needle s'
     end.

(** [c.lower()] on one code point below 256: A..Z and the accented
    capitals 0xC0..0xDE (0xD7, the multiplication sign, excepted). *)
Definition lower_char (c : ascii) : ascii :=
  let n := N_of_ascii c in
  if ((65 <=? n) && (n <=? 90)
      || (192 <=? n) && (n <=? 222) && negb (n =? 215))%N
  then ascii_of_N (n + 32) else c.

Fixpoint lower (s : string) : string :=
  match s with
  | "" => ""
  | String c s' => String (lower_char c) (lower s')
  end.

(** [int(digits)] for a run of decimal digits, most significant first. *)
Fixpoint int_of_digits (acc : N) (s : string) : N :=
  match s with
  | "" => acc
  | String c s' => int_of_digits (10 * acc + digit_value c)%N s'
  end.

(** [str(n)] for a natural number: its decimal numeral. *)
Definition str_nat (n : nat) : string :=
  NilEmpty.string_of_uint (Nat.to_uint n).

Definition str_N (n : N) : string :=
  NilEmpty.string_of_uint (N.to_uint n).

(** [sep.join(parts)]. *)
Fixpoint join (sep : string) (parts : list string) : string :=
  match parts with
  | [] => ""
  | [p] => p
  | p :: ps => p +:+ sep +:+ join sep ps
  end.

(** A piece list under construction: put [c] in front of its first
    piece. *)
Definition cons_hd (c : ascii) (pieces : list string) : list string :=
  match pieces with
  | [] => [String c ""]
  | p :: ps => String c p :: ps
  end.

(** [re.split(r'\n\n+', s)]: the pieces between maximal runs of two or
    more newlines. [skipping] holds while the scan is inside such a
    run. *)
Fixpoint re_split_blank_lines (skipping : bool) (s : string) : list string :=
  match s with
  | "" => [""]
  | String c s' =>
      if is_newline c then
        if skipping then re_split_blank_lines true s'
        else
          match s' with
          | String c' _ =>
              if is_newline c' then "" :: re_split_blank_lines true s'
              else cons_hd c (re_split_blank_lines false s')
          | "" => cons_hd c (re_split_blank_lines false s')
          end
      else cons_hd c (re_split_blank_lines false s')
  end.

(** The sentence enders of the look-behind [(?<=[.!?])]. *)
Definition is_sentence_end (c : ascii) : bool :=
  Ascii.eqb c "."%char || Ascii.eqb c "!"%char || Ascii.eqb c "?"%char.

(** [re.split(r'(?<=[.!?])\s+', s)]: the pieces between maximal runs
    of whitespace that directly follow a sentence ender. [after_end]
    holds when the previous character is one of [.!?]; [skipping]
    while the scan is inside a separator. *)
Fixpoint re_split_sentences (after_end skipping : bool) (s : string)
  : list string :=
  match s with
  | "" => [""]
  | String c s' =>
      if isspace c then
        if skipping then re_split_sentences false true s'
        else if after_end then "" :: re_split_sentences false true s'
        else cons_hd c (re_split_sentences false false s')
      else cons_hd c (re_split_sentences (is_sentence_end c) false s')
  end.

(** The longest prefix of decimal digits, and what follows it. *)
Fixpoint span_digits (s : string) : string * string :=
  match s with
  | "" => ("", "")
  | String c s' =>
      if isdecimal c then
        let '(ds, rest) := span_digits s' in (String c ds, rest)
      else ("", s)
  end.

(** Number of leading whitespace characters. *)
Fixpoint count_leading_space (s : string) : nat :=
  match s with
  | "" => O
  | String c s' => if isspace c then S (count_leading_space s') else O
  end.

(** A match of [\[Page (\d+)\]] at the start of [s]: the digits of
    group 1, and the text after the closing bracket. *)
Definition match_page_marker (s : string) : option (string * string) :=
  if String.prefix "[Page " s then
    let '(ds, rest) := span_digits (drop 6 s) in
    match ds, rest with
    | String _ _, String c rest' =>
        if Ascii.eqb c "]"%char then Some (ds, rest') else None
    | _, _ => None
    end
  else None.

(** Length of a match of [\[Page \d+\]\s*] at the start of [s]. *)
Definition page_marker_span (s : string) : option nat :=
  match match_page_marker s with
  | Some (ds, rest) =>
      Some (6 + String.length ds + 1 + count_leading_space rest)%nat
  | None => None
  end.

(** [re.sub(r'\[Page \d+\]\s*', '', s)]: every match is deleted, left
    to right. [skip] counts the characters of the current match that
    are still to be dropped. *)
Fixpoint re_sub_page_markers (skip : nat) (s : string) : string :=
  match s with
  | "" => ""
  | String c s' =>
      match skip with
      | S k => re_sub_page_markers k s'
      | O =>
          match page_marker_span s with
          | Some (S k) => re_sub_page_markers k s'
          | _ => String c (re_sub_page_markers 0 s')
          end
      end
  end.

(** The characters deleted by
    [re.sub(r'[\x00-\x08\x0b\x0c\x0e-\x1f]', '', s)]. *)
Definition is_control (c : ascii) : bool :=
  let n := N_of_ascii c in
  ((n <=? 8) || (n =? 11) || (n =? 12) || (14 <=? n) && (n <=? 31))%N.

(** [re.sub(r'[\x00-\x08\x0b\x0c\x0e-\x1f]', '', s)]. *)
Fixpoint re_sub_control (s : string) : string :=
  match s with
  | "" => ""
  | String c s' =>
      if is_control c then re_sub_control s'
      else String c (re_sub_control s')
  end.

(** [re.sub(r'\n{3,}', '\n\n', s)]: a run of three or more newlines
    becomes two. [run] counts the newlines of the current run that
    were kept. *)
Fixpoint re_sub_newline_runs (run : nat) (s : string) : string :=
  match s with
  | "" => ""
  | String c s' =>
      if is_newline c then
        match run with
        | S (S _) => re_sub_newline_runs run s'
        | _ => String c (re_sub_newline_runs (S run) s')
        end
      else String c (re_sub_newline_runs 0 s')
  end.

(** [re.sub(r' {2,}', ' ', s)]: a run of two or more spaces becomes
    one. [after_space] holds when the previous character is a space. *)
Fixpoint re_sub_space_runs (after_space : bool) (s : string) : string :=
  match s with
  | "" => ""
  | String c s' =>
      if Ascii.eqb c " "%char then
        if after_space then re_sub_space_runs true s'
        else String c (re_sub_space_runs true s')
      else String c (re_sub_space_runs false s')
  end.

(** The text after the last dot of [s], when [s] has a dot. *)
Fixpoint after_last_dot (s : string) : option string :=
  match s with
  | "" => None
  | String c s' =>
      match after_last_dot s' with
      | Some r => Some r
      | None => if Ascii.eqb c "."%char then Some s' else None
      end
  end.

(** [s.split('.')[-1]]. *)
Definition last_dot_piece (s : string) : string :=
  match after_last_dot s with
  | Some r => r
  | None => s
  end.

End Py.

(* ===================================================================== *)
(** * document_processor.py *)
(* ===================================================================== *)

(** A chunk record: [{'text': ..., 'page': ..., 'document': ...}]. *)
Record Chunk : Type := mkChunk {
  chunk_text : string;
  chunk_page : N;
  chunk_document : string
}.

(** Which [append] of [smart_chunk_text] produced a chunk: a flush of
    the paragraph buffer, or the sentence splitter. The tag is never
    inspected by the code below; [smart_chunk_text] erases it. *)
Inductive Origin : Type := ParagraphBuffer | SentenceSplit.

Module DocumentProcessor.

(** [_get_overlap_text(text, overlap_chars)]. *)
Definition _get_overlap_text (text : string) (overlap_chars : Z) : string :=
  if (Py.len text <=? overlap_chars)%Z then text
  else
    let overlap_text := Py.slice_from (- overlap_chars) text in
    let space_idx := Py.find_space overlap_text in
    if (space_idx >? 0)%Z
    then Py.slice_from (space_idx + 1) overlap_text
    else overlap_text.

(** The flush [if current.strip(): chunks.append({...})]. *)
Definition flush (current : string) (page : N) (document : string)
  : list Chunk :=
  if Py.truthy (Py.strip current)
  then [mkChunk (Py.strip current) page document]
  else [].

(** One iteration of the loop of [_split_long_paragraph]; the state is
    [(chunks, current)]. *)
Definition split_step (page : N) (document : string)
    (chunk_size overlap : Z)
    (st : list Chunk * string) (sentence : string) : list Chunk * string :=
  let '(chunks, current) := st in
  if (Py.len current + Py.len sentence + 1 <=? chunk_size)%Z then
    (chunks,
     if Py.truthy current then current +:+ " " +:+ sentence else sentence)
  else
    (chunks ++ flush current page document,
     if Py.truthy current && (overlap >? 0)%Z
     then _get_overlap_text current overlap +:+ " " +:+ sentence
     else sentence).

(** [_split_long_paragraph(paragraph, page, document, chunk_size, overlap)]. *)
Definition _split_long_paragraph (paragraph : string) (page : N)
    (document : string) (chunk_size overlap : Z) : list Chunk :=
  let sentences := Py.re_split_sentences false false paragraph in
  let '(chunks, current) :=
    fold_left (split_step page document chunk_size overlap)
              sentences ([], "") in
  chunks ++ flush current page document.

(** The loop state of [smart_chunk_text]. *)
Record Loop : Type := mkLoop {
  chunks : list (Origin * Chunk);
  current_page : N;
  current_chunk : string;
  current_chunk_page : N
}.

(** One iteration of [for para in paragraphs]. *)
Definition chunk_step (document_name : string) (chunk_size chunk_overlap : Z)
    (st : Loop) (para : string) : Loop :=
  let '(current_page, para) :=
    match Py.match_page_marker para with
    | Some (digits, _) =>
        (Py.int_of_digits 0 digits, Py.re_sub_page_markers 0 para)
    | None => (current_page st, para)
    end in
  let para := Py.strip para in
  if negb (Py.truthy para) then
    mkLoop (chunks st) current_page (current_chunk st) (current_chunk_page st)
  else if (Py.len (current_chunk st) + Py.len para + 1 <=? chunk_size)%Z then
    if Py.truthy (current_chunk st) then
      mkLoop (chunks st) current_page
             (current_chunk st +:+ Py.NL +:+ Py.NL +:+ para)
             (current_chunk_page st)
    else
      mkLoop (chunks st) current_page para current_page
  else
    let flushed :=
      chunks st ++
      (pair ParagraphBuffer
         <$> flush (current_chunk st) (current_chunk_page st) document_name) in
    if (Py.len para >? chunk_size)%Z then
      mkLoop (flushed ++
              (pair SentenceSplit
                 <$> _split_long_paragraph para current_page document_name
                                           chunk_size chunk_overlap))
             current_page "" (current_chunk_page st)
    else
      mkLoop flushed current_page
             (if Py.truthy (current_chunk st) && (chunk_overlap >? 0)%Z
              then _get_overlap_text (current_chunk st) chunk_overlap
                   +:+ Py.NL +:+ Py.NL +:+ para
              else para)
             current_page.

(** [smart_chunk_text] with the origin of every chunk recorded. The
    page map is accepted and, as in the source, not consulted. *)
Definition smart_chunk_trace (text : string) (page_map : gmap N string)
    (document_name : string) (chunk_size chunk_overlap : Z)
  : list (Origin * Chunk) :=
  if negb (Py.truthy text) || negb (Py.truthy (Py.strip text)) then []
  else
    let paragraphs := Py.re_split_blank_lines false text in
    let st := fold_left (chunk_step document_name chunk_size chunk_overlap)
                        paragraphs (mkLoop [] 1 "" 1) in
    chunks st ++
    (pair ParagraphBuffer
       <$> flush (current_chunk st) (current_chunk_page st) document_name).

(** [smart_chunk_text(text, page_map, document_name, chunk_size,
    chunk_overlap)]. *)
Definition smart_chunk_text (text : string) (page_map : gmap N string)
    (document_name : string) (chunk_size chunk_overlap : Z) : list Chunk :=
  snd <$> smart_chunk_trace text page_map document_name
                            chunk_size chunk_overlap.

(** [chunk_text_with_metadata]: the alias of [smart_chunk_text]. *)
Definition chunk_text_with_metadata (text : string) (page_map : gmap N string)
    (document_name : string) (chunk_size chunk_overlap : Z) : list Chunk :=
  smart_chunk_text text page_map document_name chunk_size chunk_overlap.

(** [clean_text(text)]. *)
Definition clean_text (text : string) : string :=
  let text := Py.re_sub_newline_runs 0 text in
  let text := Py.re_sub_space_runs false text in
  let text := Py.re_sub_control text in
  Py.strip text.

(** [SUPPORTED_FORMATS], in the order of the dict. *)
Definition SUPPORTED_FORMATS : list (string * string) :=
  [("pdf", "PDF Document"); ("txt", "Text File");
   ("docx", "Word Document"); ("md", "Markdown File")].

(** [get_supported_formats()]. *)
Definition get_supported_formats : list (string * string) :=
  SUPPORTED_FORMATS.

End DocumentProcessor.


(* ===================================================================== *)
(** * Exceptions, backend replies and the effect monad *)
(* ===================================================================== *)

(** The exceptions of [requests] that the sources tell apart.
    [ConnectTimeout] inherits from both [ConnectionError] and [Timeout];
    [ReadTimeout] from [Timeout] only. *)
Inductive RequestsError : Type :=
  | ReqConnectionError | ReqConnectTimeout | ReqReadTimeout | ReqOther.

Definition is_ConnectionError (k : RequestsError) : bool :=
  match k with ReqConnectionError | ReqConnectTimeout => true | _ => false end.

Definition is_Timeout (k : RequestsError) : bool :=
  match k with ReqConnectTimeout | ReqReadTimeout => true | _ => false end.

Inductive ExnClass : Type :=
  | RuntimeError | ConnectionError | ValueError
  | Requests (k : RequestsError) | OtherException.

(** A raised exception: its class and [str(e)]. *)
Record Exn : Type := mkExn { exn_class : ExnClass; exn_str : string }.

(** What [requests.post] does: it raises, or returns a response with a
    status code, a body text, and what [response.json()[key]] evaluates
    to (a value, or the exception that decoding raises). *)
Inductive Reply (A : Type) : Type :=
  | Response (status_code : Z) (text : string) (decoded : Exn + A)
  | Raises (kind : RequestsError) (message : string).
Arguments Response {A} _ _ _.
Arguments Raises {A} _ _.

(** A backend call, as it is logged: base URL, model and prompt. *)
Inductive Call : Type :=
  | PostEmbeddings (base_url model prompt : string)
  | PostGenerate (base_url model prompt : string).

Definition is_generate (c : Call) : bool :=
  match c with PostGenerate _ _ _ => true | PostEmbeddings _ _ _ => false end.

(** The collaborators outside the repository: the Ollama endpoints, the
    distance of the embedding space with its order, and the float
    expression [round((1 - distance) * 100, 1)]. *)
Record Env (Vec Dist : Type) : Type := mkEnv {
  api_embeddings : string -> string -> string -> Reply Vec;
  api_generate : string -> string -> string -> Reply string;
  distance_of : Vec -> Vec -> Dist;
  dist_leb : Dist -> Dist -> bool;
  relevance_of : Dist -> Dist
}.
Arguments api_embeddings {Vec Dist} _ _ _ _.
Arguments api_generate {Vec Dist} _ _ _ _.
Arguments distance_of {Vec Dist} _ _ _.
Arguments dist_leb {Vec Dist} _ _ _.
Arguments relevance_of {Vec Dist} _ _.

(** The outcome of running a method: result or exception, the state it
    leaves, and the backend calls it made, in order. *)
Record Outcome (S A : Type) : Type := mkOutcome {
  result : Exn + A;
  final : S;
  calls : list Call
}.
Arguments mkOutcome {S A} _ _ _.
Arguments result {S A} _.
Arguments final {S A} _.
Arguments calls {S A} _.

Definition M (S A : Type) : Type := S -> Outcome S A.

Definition ret {S A} (a : A) : M S A := fun s => mkOutcome (inr a) s [].

Definition bind {S A B} (m : M S A) (f : A -> M S B) : M S B :=
  fun s =>
    let r := m s in
    match result r with
    | inl e => mkOutcome (inl e) (final r) (calls r)
    | inr a =>
        let r' := f a (final r) in
        mkOutcome (result r') (final r') (calls r ++ calls r')
    end.

Declare Scope eff_scope.
Delimit Scope eff_scope with eff.
Notation "x <- m ;; k" := (bind m (fun x => k))
  (at level 100, m at next level, right associativity) : eff_scope.
Notation "m ;;; k" := (bind m (fun _ => k))
  (at level 100, right associativity) : eff_scope.

(** [raise e]. *)
Definition raise {S A} (e : Exn) : M S A := fun s => mkOutcome (inl e) s [].

(** [try: m  except Exception as e: handler e]. *)
Definition catch {S A} (m : M S A) (handler : Exn -> M S A) : M S A :=
  fun s =>
    let r := m s in
    match result r with
    | inl e =>
        let r' := handler e (final r) in
        mkOutcome (result r') (final r') (calls r ++ calls r')
    | inr a => r
    end.

Definition get {S} : M S S := fun s => mkOutcome (inr s) s [].
Definition put {S} (s : S) : M S unit := fun _ => mkOutcome (inr tt) s [].
Definition modify {S} (f : S -> S) : M S unit :=
  fun s => mkOutcome (inr tt) (f s) [].

(** Record one backend call in the log. *)
Definition log {S} (c : Call) : M S unit :=
  fun s => mkOutcome (inr tt) s [c].

(** Run a method of an attribute: [inner] acts on the part of the state
    read by [proj] and written back by [upd]. *)
Definition zoom {S T A} (proj : S -> T) (upd : T -> S -> S) (inner : M T A)
  : M S A :=
  fun s =>
    let r := inner (proj s) in
    mkOutcome (result r) (upd (final r) s) (calls r).

(** [[f(x) for x in xs]] for an effectful [f], left to right. *)
Fixpoint for_each {S A B} (f : A -> M S B) (xs : list A) : M S (list B) :=
  match xs with
  | [] => ret []
  | x :: xs' => (y <- f x ;; ys <- for_each f xs' ;; ret (y :: ys))%eff
  end.

(* ===================================================================== *)
(** * document_processor.py: Word documents *)
(* ===================================================================== *)

(** What [python-docx] makes of the uploaded bytes: the package is not
    installed, reading fails, or the texts of the paragraphs of the
    document, in order. *)
Inductive DocxParse : Type :=
  | DocxNotInstalled
  | DocxUnreadable (e : Exn)
  | DocxParagraphs (texts : list string).

Module Docx.

(** The loop state of the page estimate of
    [extract_text_from_docx_file]. *)
Record Loop : Type := mkLoop {
  page_map : gmap N string;
  text_parts : list string;
  current_page : N;
  current_chars : Z;
  current_page_text : list string
}.

(** The two-newline separator of [join]. *)
Definition BLANK_LINE : string := Py.NL +:+ Py.NL.

(** The three statements that close a page: the page text is joined,
    stored in the page map and appended, with its marker, to the text
    parts. *)
Definition close_page (st : Loop) : Loop :=
  let page_text := Py.join BLANK_LINE (current_page_text st) in
  mkLoop (<[current_page st := page_text]> (page_map st))
         (text_parts st ++
          [Py.NL +:+ "[Page " +:+ Py.str_N (current_page st) +:+ "]"
           +:+ Py.NL +:+ page_text])
         (current_page st) (current_chars st) (current_page_text st).

(** One iteration of [for para in paragraphs]. *)
Definition page_step (st : Loop) (para : string) : Loop :=
  let st :=
    mkLoop (page_map st) (text_parts st) (current_page st)
           (current_chars st + Py.len para)
           (current_page_text st ++ [para]) in
  if (current_chars st >=? 3000)%Z then
    let closed := close_page st in
    mkLoop (page_map closed) (text_parts closed) (current_page st + 1) 0 []
  else st.

(** The paragraphs kept: [para.text.strip()] for every paragraph whose
    stripped text is not empty. *)
Definition kept_paragraphs (texts : list string) : list string :=
  filter (fun t => Py.truthy t = true) (Py.strip <$> texts).

(** The page estimate, from the kept paragraphs to the text with page
    markers and the page map. *)
Definition paginate (paragraphs : list string) : string * gmap N string :=
  let st := fold_left page_step paragraphs (mkLoop ∅ [] 1 0 []) in
  let st :=
    match current_page_text st with
    | [] => st
    | _ :: _ => close_page st
    end in
  (Py.join Py.NL (text_parts st), page_map st).

(** [extract_text_from_docx_file(uploaded_file)], from what
    [python-docx] read. Every exception raised inside the [try],
    the one for a document without text included, is wrapped by the
    last handler. *)
Definition extract_text_from_docx_file (parsed : DocxParse)
  : Exn + (string * gmap N string) :=
  match parsed with
  | DocxNotInstalled =>
      inl (mkExn ValueError
                 "python-docx not installed. Run: pip install python-docx")
  | DocxUnreadable e =>
      inl (mkExn ValueError ("Failed to read Word document: " +:+ exn_str e))
  | DocxParagraphs texts =>
      match kept_paragraphs texts with
      | [] =>
          inl (mkExn ValueError
                     ("Failed to read Word document: "
                      +:+ "Word document contains no text"))
      | paragraphs => inr (paginate paragraphs)
      end
  end.

End Docx.

(* ===================================================================== *)
(** * The ChromaDB collection *)
(* ===================================================================== *)

(** The metadata stored with a chunk by [add_document]. *)
Record Metadata : Type := mkMetadata {
  md_document : string;
  md_page : N;
  md_chunk_index : nat
}.

(** One record of the collection. *)
Record Entry (Vec : Type) : Type := mkEntry {
  embedding : Vec;
  entry_text : string;
  metadata : Metadata
}.
Arguments mkEntry {Vec} _ _ _.
Arguments embedding {Vec} _.
Arguments entry_text {Vec} _.
Arguments metadata {Vec} _.

(** The collection is a library object; it is modelled as a finite map
    from ids to records, with the operations the sources call.
    - [add] stores the records whose id is new and leaves a record whose
      id is already present as it is.
    - [delete] removes the listed ids and ignores ids that are absent.
    - [query] is an exact search: the records that pass the [where]
      filter, by ascending distance to the query vector, at most
      [n_results] of them; it rejects [n_results <= 0]. *)
Module Chroma.
Section Collection.
Context {Vec Dist : Type}.

(** [len(collection.get()['ids'])]. *)
Definition count (c : gmap string (Entry Vec)) : Z := Z.of_nat (size c).

(** [zip(ids, embeddings, documents, metadatas)]. *)
Fixpoint records (ids : list string) (embeddings : list Vec)
    (documents : list string) (metadatas : list Metadata)
  : list (string * Entry Vec) :=
  match ids, embeddings, documents, metadatas with
  | i :: ids', v :: embeddings', d :: documents', m :: metadatas' =>
      (i, mkEntry v d m) :: records ids' embeddings' documents' metadatas'
  | _, _, _, _ => []
  end.

(** [collection.add(ids=..., embeddings=..., documents=..., metadatas=...)]. *)
Definition add (ids : list string) (embeddings : list Vec)
    (documents : list string) (metadatas : list Metadata)
    (c : gmap string (Entry Vec)) : gmap string (Entry Vec) :=
  c ∪ list_to_map (records ids embeddings documents metadatas).

(** [collection.delete(ids=...)]. *)
Definition delete (ids : list string) (c : gmap string (Entry Vec))
  : gmap string (Entry Vec) :=
  foldr base.delete c ids.

(** The order of the results: by the distance that comes with each. *)
Definition by_distance (env : Env Vec Dist) : relation (Entry Vec * Dist) :=
  fun a b => Is_true (dist_leb env a.2 b.2).

#[global] Instance by_distance_dec (env : Env Vec Dist)
  : RelDecision (by_distance env).
Proof. intros a b. unfold by_distance. apply _. Defined.

Definition passes (where_filter : option string) (e : Entry Vec) : bool :=
  match where_filter with
  | None => true
  | Some d => bool_decide (md_document (metadata e) = d)
  end.

(** [collection.query(query_embeddings=[q], n_results=n, where=w)]:
    the records found, each with its distance, best match first. *)
Definition query (env : Env Vec Dist) (c : gmap string (Entry Vec))
    (q : Vec) (n_results : Z) (where_filter : option string)
  : Exn + list (Entry Vec * Dist) :=
  if (n_results <=? 0)%Z then
    inl (mkExn ValueError
               "Number of requested results cannot be negative, or zero.")
  else
    let candidates :=
      filter (fun e => passes where_filter e = true)
             (snd <$> map_to_list c) in
    let scored := (fun e => (e, distance_of env q (embedding e)))
                    <$> candidates in
    inr (take (Z.to_nat n_results)
              (merge_sort (by_distance env) scored)).
End Collection.
End Chroma.

(* ===================================================================== *)
(** * vector_store.py *)
(* ===================================================================== *)

(** A registry entry: [{"chunk_count": ..., "chunk_ids": [...]}]. *)
Record DocInfo : Type := mkDocInfo {
  chunk_count : nat;
  chunk_ids : list string
}.

(** A formatted query result: the dict built by [VectorStore.query]. *)
Record Hit (Dist : Type) : Type := mkHit {
  hit_content : string;
  hit_metadata : Metadata;
  hit_distance : Dist;
  hit_page : N;
  hit_document : string
}.
Arguments mkHit {Dist} _ _ _ _ _.
Arguments hit_content {Dist} _.
Arguments hit_metadata {Dist} _.
Arguments hit_distance {Dist} _.
Arguments hit_page {Dist} _.
Arguments hit_document {Dist} _.

Module VectorStore.

(** The attributes of a [VectorStore] instance. [collection] is the
    persistent index and [_documents] the registry that
    [_save_document_registry] writes to disk after every change. *)
Record t (Vec : Type) : Type := mk {
  collection_name : string;
  embedding_model : string;
  ollama_base_url : string;
  persist_directory : string;
  collection : gmap string (Entry Vec);
  _documents : gmap string DocInfo
}.
Arguments mk {Vec} _ _ _ _ _ _.
Arguments collection_name {Vec} _.
Arguments embedding_model {Vec} _.
Arguments ollama_base_url {Vec} _.
Arguments persist_directory {Vec} _.
Arguments collection {Vec} _.
Arguments _documents {Vec} _.

Definition set_collection {Vec} (c : gmap string (Entry Vec)) (self : t Vec)
  : t Vec :=
  mk (collection_name self) (embedding_model self) (ollama_base_url self)
     (persist_directory self) c (_documents self).

Definition set_documents {Vec} (d : gmap string DocInfo) (self : t Vec)
  : t Vec :=
  mk (collection_name self) (embedding_model self) (ollama_base_url self)
     (persist_directory self) (collection self) d.

(** The id [f"doc_{document_name}_{i}"]. *)
Definition chunk_id (document_name : string) (i : nat) : string :=
  "doc_" +:+ document_name +:+ "_" +:+ Py.str_nat i.

Section Methods.
Context {Vec Dist : Type} (env : Env Vec Dist).

(** [_get_embedding(text)]. *)
Definition _get_embedding (text : string) : M (t Vec) Vec :=
  (self <- get ;;
   log (PostEmbeddings (ollama_base_url self) (embedding_model self) text) ;;;
   match api_embeddings env (ollama_base_url self)
                        (embedding_model self) text with
   | Raises kind message => raise (mkExn (Requests kind) message)
   | Response status_code body decoded =>
       if negb (status_code =? 200)%Z then
         raise (mkExn RuntimeError ("Ollama embedding failed: " +:+ body))
       else
         match decoded with
         | inl e => raise e
         | inr v => ret v
         end
   end)%eff.

(** [_get_embeddings_batch(texts)]. *)
Definition _get_embeddings_batch (texts : list string)
  : M (t Vec) (list Vec) :=
  for_each _get_embedding texts.

(** [remove_document(document_name)]. *)
Definition remove_document (document_name : string) : M (t Vec) bool :=
  (self <- get ;;
   match _documents self !! document_name with
   | None => ret false
   | Some info =>
       modify (fun self =>
         set_collection (Chroma.delete (chunk_ids info) (collection self))
                        self) ;;;
       modify (fun self =>
         set_documents (base.delete document_name (_documents self))
                       self) ;;;
       ret true
   end)%eff.

(** [add_document(document_name, chunks)]. *)
Definition add_document (document_name : string) (chunks : list Chunk)
  : M (t Vec) nat :=
  match chunks with
  | [] => ret O
  | _ :: _ =>
      (self <- get ;;
       (if bool_decide (is_Some (_documents self !! document_name))
        then remove_document document_name
        else ret false) ;;;
       let texts := chunk_text <$> chunks in
       embeddings <- _get_embeddings_batch texts ;;
       let ids := chunk_id document_name <$> seq 0 (length chunks) in
       let metadatas :=
         imap (fun i chunk =>
                 mkMetadata (chunk_document chunk) (chunk_page chunk) i)
              chunks in
       modify (fun self =>
         set_collection
           (Chroma.add ids embeddings texts metadatas (collection self))
           self) ;;;
       modify (fun self =>
         set_documents
           (<[document_name :=
                mkDocInfo (length chunks) ids]> (_documents self))
           self) ;;;
       ret (length chunks))%eff
  end.

(** [query(question, n_results, document_filter)]. Every record of the
    collection carries the metadata that [add_document] wrote, so the
    defaults ['Unknown'] of [metadata.get] are never taken. *)
Definition query (question : string) (n_results : Z)
    (document_filter : option string) : M (t Vec) (list (Hit Dist)) :=
  (question_embedding <- _get_embedding question ;;
   let where_filter :=
     match document_filter with
     | Some d => if Py.truthy d then Some d else None
     | None => None
     end in
   self <- get ;;
   let total_docs := Chroma.count (collection self) in
   match Chroma.query env (collection self) question_embedding
           (if (total_docs >? 0)%Z then Z.min n_results total_docs
            else 1%Z)
           where_filter with
   | inl e => raise e
   | inr results =>
       ret ((fun '(e, d) =>
               mkHit (entry_text e) (metadata e) d
                     (md_page (metadata e)) (md_document (metadata e)))
              <$> results)
   end)%eff.

(** [get_documents()]: the registered names (the insertion order of
    the dict is not tracked). *)
Definition get_documents (self : t Vec) : list string :=
  (map_to_list (_documents self)).*1.

(** [get_document_info(document_name)]. *)
Definition get_document_info (self : t Vec) (document_name : string)
  : option DocInfo :=
  _documents self !! document_name.

(** [clear()]. *)
Definition clear : M (t Vec) unit :=
  (modify (set_collection ∅) ;;; modify (set_documents ∅))%eff.

(** The properties [document_count] and [chunk_count]. *)
Definition document_count (self : t Vec) : Z :=
  Z.of_nat (size (_documents self)).

Definition chunk_count (self : t Vec) : Z :=
  Chroma.count (collection self).
End Methods.
End VectorStore.

(* ===================================================================== *)
(** * config.py *)
(* ===================================================================== *)

Module Config.

(** The dataclass [Config]. *)
Record t : Type := mk {
  ollama_base_url : string;
  llm_model : string;
  embedding_model : string;
  chunk_size : Z;
  chunk_overlap : Z;
  top_k_results : Z;
  collection_name : string;
  persist_directory : string;
  max_documents : Z;
  max_conversation_history : Z;
  include_conversation_context : bool
}.

(** [Config()]: the defaults of the dataclass. *)
Definition default : t :=
  mk "http://localhost:11434" "llama3.2" "nomic-embed-text"
     400 100 5 "study_documents" "./chroma_db" 20 5 true.

End Config.

(* ===================================================================== *)
(** * rag_engine.py *)
(* ===================================================================== *)

(** An entry of the conversation history. *)
Record Exchange : Type := mkExchange {
  question : string;
  answer : string;
  timestamp : string
}.

(** [self._session_stats]. *)
Record SessionStats : Type := mkStats {
  documents_processed : nat;
  questions_asked : nat;
  chunks_retrieved : nat;
  session_start : string
}.

(** A source card of an answer. *)
Record Source (Dist : Type) : Type := mkSource {
  src_document : string;
  src_page : N;
  src_content : string;
  src_relevance : Dist
}.
Arguments mkSource {Dist} _ _ _ _.
Arguments src_document {Dist} _.
Arguments src_page {Dist} _.
Arguments src_content {Dist} _.
Arguments src_relevance {Dist} _.

(** The dict returned by [ask_question]; [error = None] is [None]. *)
Record Answer (Dist : Type) : Type := mkAnswer {
  ans_answer : string;
  ans_sources : list (Source Dist);
  ans_documents_searched : list string;
  ans_error : option string
}.
Arguments mkAnswer {Dist} _ _ _ _.
Arguments ans_answer {Dist} _.
Arguments ans_sources {Dist} _.
Arguments ans_documents_searched {Dist} _.
Arguments ans_error {Dist} _.

(** An uploaded file: its name, and what [extract_text_from_file] makes
    of its bytes with the PDF and DOCX parsers (text, page map and file
    type, or the exception it raises). *)
Record UploadedFile : Type := mkUpload {
  upload_name : string;
  upload_extracted : Exn + (string * gmap N string * string)
}.

(** The dict returned by [process_document]. *)
Record Processed : Type := mkProcessed {
  pr_success : bool;
  pr_document_name : string;
  pr_file_type : string;
  pr_total_characters : Z;
  pr_num_chunks : nat;
  pr_num_pages : nat;
  pr_total_documents : Z
}.

(** The dict returned by [get_session_stats]. *)
Record SessionReport : Type := mkReport {
  sr_stats : SessionStats;
  sr_conversation_length : Z;
  sr_documents_loaded : Z;
  sr_total_chunks : Z
}.

Module RAGEngine.

(** The fixed answers of [ask_question] and [_generate_answer]. The
    pictograph that opens four of them in the source lies outside the
    8-bit character model and is left out. *)
Definition MSG_UPLOAD_FIRST : string :=
  "Please upload a document first before asking questions.".
Definition MSG_NOTHING_FOUND : string :=
  "I couldn't find any relevant information in the documents. Try rephrasing or uploading more content.".
Definition MSG_CANNOT_CONNECT : string :=
  "Cannot connect to Ollama. Please run: `ollama serve`".
Definition MSG_ERROR_PREFIX : string := "An error occurred: ".
Definition MSG_TIMED_OUT : string :=
  "Response timed out. Try a shorter question.".

(** The attributes of a [RAGEngine] instance. *)
Record t (Vec : Type) : Type := mk {
  config : Config.t;
  vector_store : VectorStore.t Vec;
  _conversation_history : list Exchange;
  _session_stats : SessionStats
}.
Arguments mk {Vec} _ _ _ _.
Arguments config {Vec} _.
Arguments vector_store {Vec} _.
Arguments _conversation_history {Vec} _.
Arguments _session_stats {Vec} _.

Definition set_vector_store {Vec} (vs : VectorStore.t Vec) (self : t Vec)
  : t Vec :=
  mk (config self) vs (_conversation_history self) (_session_stats self).

Definition set_history {Vec} (h : list Exchange) (self : t Vec) : t Vec :=
  mk (config self) (vector_store self) h (_session_stats self).

Definition set_stats {Vec} (st : SessionStats) (self : t Vec) : t Vec :=
  mk (config self) (vector_store self) (_conversation_history self) st.

(** [l[i:]] on a list, for any integer [i]. *)
Definition slice_from {A} (i : Z) (l : list A) : list A :=
  let start := if (i <? 0)%Z then Z.max 0 (i + Z.of_nat (length l)) else i in
  drop (Z.to_nat start) l.

(** The window of the history that goes into a prompt:
    [self._conversation_history[-self.config.max_conversation_history:]]. *)
Definition recent_window (max_conversation_history : Z)
    (history : list Exchange) : list Exchange :=
  slice_from (- max_conversation_history) history.

(** The two lines that [_build_conversation_context] writes for one
    exchange. *)
Definition exchange_lines (exchange : Exchange) : list string :=
  [ "User: " +:+ question exchange;
    "Assistant: " +:+
      (if (Py.len (answer exchange) >? 200)%Z
       then Py.take 200 (answer exchange) +:+ "..."
       else answer exchange) ].

(** The statistics of a fresh session. *)
Definition fresh_stats (now : string) : SessionStats := mkStats 0 0 0 now.

Section Methods.
Context {Vec Dist : Type} (env : Env Vec Dist).

(** Run a method of [self.vector_store]. *)
Definition on_store {A} (m : M (VectorStore.t Vec) A) : M (t Vec) A :=
  zoom vector_store set_vector_store m.

(** [_build_conversation_context()]. *)
Definition _build_conversation_context (self : t Vec) : string :=
  match _conversation_history self with
  | [] => ""
  | _ :: _ =>
      let recent :=
        recent_window (Config.max_conversation_history (config self))
                      (_conversation_history self) in
      Py.join Py.NL
        ("PREVIOUS CONVERSATION:" :: concat (exchange_lines <$> recent))
  end.

(** [_add_to_history(question, answer)]; [now] is the reading of the
    clock. *)
Definition _add_to_history (now : string) (question answer : string)
  : M (t Vec) unit :=
  (modify (fun self =>
     set_history (_conversation_history self
                  ++ [mkExchange question answer now]) self) ;;;
   self <- get ;;
   let max_history := (Config.max_conversation_history (config self) * 2)%Z in
   if (Z.of_nat (length (_conversation_history self)) >? max_history)%Z
   then modify (fun self =>
          set_history (slice_from (- max_history) (_conversation_history self))
                      self)
   else ret tt)%eff.

(** The prompt assembled by [_generate_answer]. *)
Definition build_prompt (question context conv_context : string) : string :=
  Py.join Py.NL
    ([ "You are a helpful, friendly study assistant. Answer questions based on the provided study materials.";
       "";
       "STUDY MATERIALS:";
       context ]
     ++ (if Py.truthy conv_context then [""; conv_context] else [])
     ++ [ "";
          "CURRENT QUESTION: " +:+ question;
          "";
          "INSTRUCTIONS:";
          "- Answer based ONLY on the study materials above";
          "- If the answer isn't in the materials, say so honestly";
          "- Reference the source document and page when relevant";
          "- Be clear, educational, and helpful";
          "";
          "YOUR ANSWER:" ]).

(** [_generate_answer(question, context, conv_context)]. The handlers
    are tried in the order of the source: [ConnectionError], then
    [Timeout], then every other exception. *)
Definition _generate_answer (question context conv_context : string)
  : M (t Vec) string :=
  (self <- get ;;
   let prompt := build_prompt question context conv_context in
   let base_url := Config.ollama_base_url (config self) in
   let model := Config.llm_model (config self) in
   log (PostGenerate base_url model prompt) ;;;
   match api_generate env base_url model prompt with
   | Raises kind message =>
       if is_ConnectionError kind then
         raise (mkExn ConnectionError "Cannot connect to Ollama")
       else if is_Timeout kind then
         ret MSG_TIMED_OUT
       else
         raise (mkExn RuntimeError ("LLM error: " +:+ message))
   | Response status_code body decoded =>
       if negb (status_code =? 200)%Z then
         ret ("Error from Ollama: " +:+ body)
       else
         match decoded with
         | inl e => raise (mkExn RuntimeError ("LLM error: " +:+ exn_str e))
         | inr response => ret (Py.strip response)
         end
   end)%eff.

(** [get_documents()]. *)
Definition get_documents (self : t Vec) : list string :=
  VectorStore.get_documents (vector_store self).

(** [remove_document(document_name)]. *)
Definition remove_document (document_name : string) : M (t Vec) bool :=
  on_store (VectorStore.remove_document document_name).

(** The context block: [f"[Source {i+1}] [{document}, Page {page}]\n{content}"]
    for each retrieved chunk, joined by the separator. *)
Definition build_context (relevant_chunks : list (Hit Dist)) : string :=
  Py.join (Py.NL +:+ Py.NL +:+ "---" +:+ Py.NL +:+ Py.NL)
    (imap (fun i chunk =>
             "[Source " +:+ Py.str_nat (i + 1) +:+ "] "
             +:+ "[" +:+ hit_document chunk +:+ ", Page "
             +:+ Py.str_N (hit_page chunk) +:+ "]"
             +:+ Py.NL +:+ hit_content chunk)
          relevant_chunks).

(** The source cards of an answer. *)
Definition format_sources (relevant_chunks : list (Hit Dist))
  : list (Source Dist) :=
  (fun chunk =>
     mkSource (hit_document chunk) (hit_page chunk)
              (if (Py.len (hit_content chunk) >? 250)%Z
               then Py.take 250 (hit_content chunk) +:+ "..."
               else hit_content chunk)
              (relevance_of env (hit_distance chunk)))
    <$> relevant_chunks.

(** [list(set(s["document"] for s in sources))]: the names without
    repetition, in the order of the set. *)
Definition distinct_documents (sources : list (Source Dist)) : list string :=
  elements (list_to_set (src_document <$> sources) : gset string).

(** The handler [except Exception as e] of [ask_question]. *)
Definition ask_failed (e : Exn) : Answer Dist :=
  let error_msg := exn_str e in
  if Py.contains "connection" (Py.lower error_msg) then
    mkAnswer MSG_CANNOT_CONNECT [] [] (Some "connection_error")
  else
    mkAnswer (MSG_ERROR_PREFIX +:+ error_msg) [] [] (Some "unknown_error").

(** [ask_question(question, document_filter, use_conversation_memory)];
    [now] is the reading of the clock taken when the exchange is
    recorded. *)
Definition ask_question (now : string) (question : string)
    (document_filter : option string) (use_conversation_memory : bool)
  : M (t Vec) (Answer Dist) :=
  (self <- get ;;
   if (VectorStore.document_count (vector_store self) =? 0)%Z then
     ret (mkAnswer MSG_UPLOAD_FIRST [] [] None)
   else
     catch
       (relevant_chunks <-
          on_store (VectorStore.query env question
                      (Config.top_k_results (config self)) document_filter) ;;
        modify (fun self =>
          let st := _session_stats self in
          set_stats (mkStats (documents_processed st)
                             (questions_asked st + 1)
                             (chunks_retrieved st + length relevant_chunks)
                             (session_start st)) self) ;;;
        match relevant_chunks with
        | [] =>
            self <- get ;;
            ret (mkAnswer MSG_NOTHING_FOUND [] (get_documents self) None)
        | _ :: _ =>
            let context := build_context relevant_chunks in
            self <- get ;;
            let conv_context :=
              if use_conversation_memory
                 && Config.include_conversation_context (config self)
              then _build_conversation_context self
              else "" in
            answer <- _generate_answer question context conv_context ;;
            _add_to_history now question answer ;;;
            let sources := format_sources relevant_chunks in
            ret (mkAnswer answer sources (distinct_documents sources) None)
        end)
       (fun e => ret (ask_failed e)))%eff.

(** [clear_conversation()]. *)
Definition clear_conversation : M (t Vec) unit :=
  modify (set_history []).

(** [clear_all()]; [now] is the reading of the clock. *)
Definition clear_all (now : string) : M (t Vec) unit :=
  (on_store VectorStore.clear ;;;
   clear_conversation ;;;
   modify (set_stats (fresh_stats now)))%eff.

Definition is_ValueError (e : Exn) : bool :=
  match exn_class e with ValueError => true | _ => false end.

(** [process_document(uploaded_file)]. *)
Definition process_document (uploaded_file : UploadedFile)
  : M (t Vec) Processed :=
  let document_name := upload_name uploaded_file in
  (catch
    (match upload_extracted uploaded_file with
     | inl e => raise e
     | inr (text, page_map, file_type) =>
         self <- get ;;
         let chunks :=
           DocumentProcessor.smart_chunk_text text page_map document_name
             (Config.chunk_size (config self))
             (Config.chunk_overlap (config self)) in
         match chunks with
         | [] =>
             raise (mkExn ValueError
                          "No text could be extracted from the file")
         | _ :: _ =>
             on_store (VectorStore.add_document env document_name chunks) ;;;
             modify (fun self =>
               let st := _session_stats self in
               set_stats (mkStats (documents_processed st + 1)
                                  (questions_asked st)
                                  (chunks_retrieved st)
                                  (session_start st)) self) ;;;
             self <- get ;;
             ret (mkProcessed true document_name file_type (Py.len text)
                    (length chunks) (size page_map)
                    (VectorStore.document_count (vector_store self)))
         end
     end)
    (fun e =>
       if is_ValueError e then raise e
       else raise (mkExn ValueError
                         ("Failed to process '" +:+ document_name +:+ "': "
                          +:+ exn_str e))))%eff.

(** The dict returned by [get_session_stats]: the statistics and three
    readings of the engine. *)
Definition get_session_stats (self : t Vec) : SessionReport :=
  mkReport (_session_stats self)
           (Z.of_nat (length (_conversation_history self)))
           (VectorStore.document_count (vector_store self))
           (VectorStore.chunk_count (vector_store self)).

(** [get_document_info(document_name)]. *)
Definition get_document_info (self : t Vec) (document_name : string)
  : option DocInfo :=
  VectorStore.get_document_info (vector_store self) document_name.

(** The properties [is_ready], [document_count], [chunk_count] and
    [conversation_length]. *)
Definition is_ready (self : t Vec) : bool :=
  (VectorStore.document_count (vector_store self) >? 0)%Z.

Definition document_count (self : t Vec) : Z :=
  VectorStore.document_count (vector_store self).

Definition chunk_count (self : t Vec) : Z :=
  VectorStore.chunk_count (vector_store self).

Definition conversation_length (self : t Vec) : Z :=
  Z.of_nat (length (_conversation_history self)).

(** The eight lines that [export_conversation] writes for the exchange
    at position [i] of the history, counted from 0. *)
Definition export_exchange (i : nat) (exchange : Exchange) : list string :=
  [ "## Question " +:+ Py.str_nat (i + 1);
    "";
    "**Q:** " +:+ question exchange;
    "";
    "**A:** " +:+ answer exchange;
    "";
    "---";
    "" ].

(** The lines of the Markdown export; [now_minute] is
    [datetime.now().strftime('%Y-%m-%d %H:%M')]. *)
Definition export_lines (now_minute : string) (self : t Vec) : list string :=
  [ "# AI Study Buddy - Conversation Export";
    "";
    "**Exported:** " +:+ now_minute;
    "**Documents:** " +:+
      (let names := Py.join ", " (get_documents self) in
       if Py.truthy names then names else "None");
    "**Questions asked:** " +:+
      Py.str_nat (questions_asked (_session_stats self));
    "";
    "---";
    "" ]
  ++ concat (imap export_exchange (_conversation_history self)).

(** [export_conversation(format)]. [json_dumps] stands for
    [json.dumps(..., indent=2)] on the time of export ([now_iso]), the
    documents, the conversation and the statistics. The time of day
    that the loop works out for each exchange is not used by it. *)
Definition export_conversation
    (json_dumps : string -> list string -> list Exchange -> SessionStats
                  -> string)
    (now_iso now_minute : string) (format : string) (self : t Vec) : string :=
  if String.eqb format "json" then
    json_dumps now_iso (get_documents self) (_conversation_history self)
               (_session_stats self)
  else Py.join Py.NL (export_lines now_minute self).

(** The public operations that change an engine. *)
Inductive Op : Type :=
  | ProcessDocument (uploaded_file : UploadedFile)
  | RemoveDocument (document_name : string)
  | AskQuestion (now question : string) (document_filter : option string)
                (use_conversation_memory : bool)
  | ClearConversation
  | ClearAll (now : string).

(** The engine after one operation, whether it returned or raised. *)
Definition after (op : Op) (self : t Vec) : t Vec :=
  match op with
  | ProcessDocument f => final (process_document f self)
  | RemoveDocument n => final (remove_document n self)
  | AskQuestion now q f m => final (ask_question now q f m self)
  | ClearConversation => final (clear_conversation self)
  | ClearAll now => final (clear_all now self)
  end.

End Methods.
End RAGEngine.

(* ===================================================================== *)
(** * api.py *)
(* ===================================================================== *)

(** What an endpoint answers: its return value, or the [HTTPException]
    that it raises. *)
Inductive HttpResult (A : Type) : Type :=
  | HttpOk (a : A)
  | HTTPException (status_code : Z) (detail : string).
Arguments HttpOk {A} _.
Arguments HTTPException {A} _ _.

Module Api.
Section Endpoints.
Context {Vec Dist : Type} (env : Env Vec Dist).

(** The extension that [upload_document] checks:
    [file.filename.split('.')[-1].lower() if file.filename else '']. *)
Definition extension (filename : string) : string :=
  if Py.truthy filename then Py.lower (Py.last_dot_piece filename) else "".

(** [upload_document(file)], once the content of the file is read; the
    state is the global [rag_engine]. *)
Definition upload_document (file : UploadedFile)
  : M (RAGEngine.t Vec) (HttpResult Processed) :=
  let supported := DocumentProcessor.get_supported_formats in
  let ext := extension (upload_name file) in
  if negb (bool_decide (ext ∈ supported.*1)) then
    ret (HTTPException 400
           ("Unsupported file type: " +:+ ext +:+ ". Supported: "
            +:+ Py.join ", " supported.*1))
  else
    (catch
       (result <- RAGEngine.process_document env file ;;
        ret (HttpOk result))
       (fun e =>
          if RAGEngine.is_ValueError e then
            ret (HTTPException 400 (exn_str e))
          else
            ret (HTTPException 500 ("Processing failed: " +:+ exn_str e))))%eff.

(** [remove_document(document_name)]. *)
Definition remove_document (document_name : string)
  : M (RAGEngine.t Vec) (HttpResult string) :=
  (success <- RAGEngine.remove_document document_name ;;
   if negb success then ret (HTTPException 404 "Document not found")
   else ret (HttpOk ("Removed " +:+ document_name)))%eff.

(** [ask_question(request)]: the [AskResponse]; [now] is the reading of
    the clock taken by the engine. *)
Definition ask_question (now : string) (question : string)
    (document_filter : option string) : M (RAGEngine.t Vec) (Answer Dist) :=
  (self <- get ;;
   if negb (RAGEngine.is_ready self) then
     ret (mkAnswer "Please upload a document first." [] []
                   (Some "no_documents"))
   else
     result <- RAGEngine.ask_question env now question document_filter true ;;
     ret (mkAnswer (ans_answer result) (ans_sources result)
                   (ans_documents_searched result) (ans_error result)))%eff.

End Endpoints.
End Api.

(* ===================================================================== *)
(** * Sample collaborators and states *)
(* ===================================================================== *)

Module Sample.

(** Embeddings are integers (the length of the text) at distance
    [|a - b|]; a text that mentions [unreachable] finds the backend
    down. The generation backend answers. *)
Definition env : Env Z Z :=
  mkEnv Z Z
    (fun _ _ prompt =>
       if Py.contains "unreachable" prompt
       then Raises ReqConnectionError
                   "HTTPConnectionPool(host='localhost', port=11434): Max retries exceeded"
       else Response 200 "" (inr (Py.len prompt)))
    (fun _ _ _ => Response 200 "" (inr " It is on page 1. "))
    (fun a b => Z.abs (a - b))
    Z.leb
    (fun d => ((1 - d) * 100)%Z).

(** The same, with a generation backend that never answers in time. *)
Definition slow_env : Env Z Z :=
  mkEnv Z Z (api_embeddings env)
    (fun _ _ _ => Raises ReqReadTimeout "Read timed out. (read timeout=180)")
    (distance_of env) (dist_leb env) (relevance_of env).

Definition empty_store : VectorStore.t Z :=
  VectorStore.mk "study_documents" "nomic-embed-text"
                 "http://localhost:11434" "./chroma_db" ∅ ∅.

Definition notes : list Chunk :=
  [mkChunk "alpha" 1 "a.txt"; mkChunk "beta beta" 2 "a.txt"].

Definition notes_v2 : list Chunk := [mkChunk "gamma" 1 "a.txt"].

Definition notes_bad : list Chunk :=
  [mkChunk "gamma" 1 "a.txt"; mkChunk "delta unreachable" 1 "a.txt"].

Definition book : list Chunk := [mkChunk "chapter one" 1 "b.txt"].

(** A store that holds [a.txt]; a store that holds [a.txt] and [b.txt]. *)
Definition store_a : VectorStore.t Z :=
  final (VectorStore.add_document env "a.txt" notes empty_store).

Definition store_ab : VectorStore.t Z :=
  final (VectorStore.add_document env "b.txt" book store_a).

(** A fresh engine over a store. *)
Definition engine_of (cfg : Config.t) (vs : VectorStore.t Z) : RAGEngine.t Z :=
  RAGEngine.mk cfg vs [] (mkStats 0 0 0 "2024-01-01T09:00:00").

(** [Config(max_conversation_history=0)]. *)
Definition no_memory_config : Config.t :=
  Config.mk "http://localhost:11434" "llama3.2" "nomic-embed-text"
            400 100 5 "study_documents" "./chroma_db" 20 0 true.

(** Two paragraphs of eight characters, separated by a blank line. *)
Definition two_paragraphs : string :=
  "aaaaaaaa" +:+ Py.NL +:+ Py.NL +:+ "bbbbbbbb".

(** Two paragraphs of ten characters. *)
Definition two_full_paragraphs : string :=
  "aaaaaaaaaa" +:+ Py.NL +:+ Py.NL +:+ "bbbbbbbbbb".

(** Paragraphs of four and five characters. *)
Definition short_paragraphs : string :=
  "aaaa" +:+ Py.NL +:+ Py.NL +:+ "bbbbb".

(** The second chunk cut from [two_paragraphs] with [chunk_size = 10]
    and [chunk_overlap = 3]: three characters of overlap, the separator,
    and the second paragraph. *)
Definition overlapped_chunk : Chunk :=
  mkChunk ("aaa" +:+ Py.NL +:+ Py.NL +:+ "bbbbbbbb") 1 "notes.txt".

(** The same as [env], with a generation backend that refuses the
    connection. *)
Definition offline_env : Env Z Z :=
  mkEnv Z Z (api_embeddings env)
    (fun _ _ _ => Raises ReqConnectionError "Connection refused")
    (distance_of env) (dist_leb env) (relevance_of env).

End Sample.

(* ===================================================================== *)
(** * Vocabulary of the properties *)
(* ===================================================================== *)

(** [c] does not occur in [s]. *)
Fixpoint char_free (c : ascii) (s : string) : Prop :=
  match s with
  | "" => True
  | String c' s' => c' ≠ c ∧ char_free c s'
  end.

(** The loop invariant of [smart_chunk_text] behind the length bound:
    the buffer and every chunk flushed from it hold at most
    [S + O + 2] characters, and a chunk tagged [SentenceSplit] comes out
    of [_split_long_paragraph] on a paragraph longer than [S]. *)
Record chunk_inv (document_name : string) (S O : Z)
    (st : DocumentProcessor.Loop) : Prop := {
  inv_buffer : (Py.len (DocumentProcessor.current_chunk st) <= S + O + 2)%Z;
  inv_flushed : ∀ c, (ParagraphBuffer, c) ∈ DocumentProcessor.chunks st →
                     (Py.len (chunk_text c) <= S + O + 2)%Z;
  inv_split : ∀ c, (SentenceSplit, c) ∈ DocumentProcessor.chunks st →
                   ∃ p pg, (S < Py.len p)%Z ∧
                     c ∈ DocumentProcessor._split_long_paragraph
                           p pg document_name S O
}.

(** The ids of a document of [n] chunks. *)
Definition ids_for (name : string) (n : nat) : list string :=
  VectorStore.chunk_id name <$> seq 0 n.

Section StoreVocabulary.
Context {Vec : Type}.

(** The store once [remove_document name] has run. *)
Definition removed (name : string) (vs : VectorStore.t Vec)
  : VectorStore.t Vec :=
  match VectorStore._documents vs !! name with
  | None => vs
  | Some info =>
      VectorStore.set_documents (delete name (VectorStore._documents vs))
        (VectorStore.set_collection
           (Chroma.delete (chunk_ids info) (VectorStore.collection vs)) vs)
  end.

(** The records that [add_document] hands to the collection. *)
Definition new_records (name : string) (chunks : list Chunk)
    (embeddings : list Vec) : list (string * Entry Vec) :=
  Chroma.records (ids_for name (length chunks)) embeddings
    (chunk_text <$> chunks)
    (imap (fun i chunk =>
             mkMetadata (chunk_document chunk) (chunk_page chunk) i) chunks).

(** The store once the chunks and their embeddings have been written. *)
Definition stored (name : string) (chunks : list Chunk) (embeddings : list Vec)
    (vs : VectorStore.t Vec) : VectorStore.t Vec :=
  VectorStore.set_documents
    (<[name := mkDocInfo (length chunks) (ids_for name (length chunks))]>
       (VectorStore._documents vs))
    (VectorStore.set_collection
       (Chroma.add (ids_for name (length chunks)) embeddings
                   (chunk_text <$> chunks)
                   (imap (fun i chunk =>
                            mkMetadata (chunk_document chunk)
                                       (chunk_page chunk) i) chunks)
                   (VectorStore.collection vs)) vs).

(** The invariant of the store. Registry and index agree: a registered
    document of [n] chunks owns the ids [doc_<name>_0 .. doc_<name>_(n-1)],
    all of them are in the index, and every record of the index is one
    of these, tagged with the name of its document. *)
Record wf (vs : VectorStore.t Vec) : Prop := {
  wf_ids : ∀ name info,
    VectorStore._documents vs !! name = Some info →
    chunk_ids info = ids_for name (chunk_count info);
  wf_indexed : ∀ name info id,
    VectorStore._documents vs !! name = Some info →
    id ∈ chunk_ids info → is_Some (VectorStore.collection vs !! id);
  wf_owned : ∀ id e,
    VectorStore.collection vs !! id = Some e →
    ∃ info i,
      VectorStore._documents vs !! md_document (metadata e) = Some info
      ∧ i < chunk_count info
      ∧ id = VectorStore.chunk_id (md_document (metadata e)) i
}.

(** The engine once a question with [n] retrieved chunks is counted. *)
Definition counted (n : nat) (self : RAGEngine.t Vec) : RAGEngine.t Vec :=
  let st := RAGEngine._session_stats self in
  RAGEngine.set_stats
    (mkStats (documents_processed st) (questions_asked st + 1)
             (chunks_retrieved st + n) (session_start st)) self.

(** The engine after a sequence of appends to the history; an append
    is given by the reading of the clock, the question and the answer. *)
Fixpoint appended (xs : list (string * string * string))
    (self : RAGEngine.t Vec) : RAGEngine.t Vec :=
  match xs with
  | [] => self
  | (now, q, a) :: xs' =>
      appended xs' (final (RAGEngine._add_to_history now q a self))
  end.

End StoreVocabulary.

(** Hits in ascending order of distance: best match first. *)
Definition ascending {Vec Dist : Type} (env : Env Vec Dist)
    (hits : list (Hit Dist)) : Prop :=
  Sorted (fun a b => dist_leb env (hit_distance a) (hit_distance b) = true)
         hits.

(** The history that [_add_to_history] leaves when [exchange] is
    appended. *)
Definition history_with (max_conversation_history : Z)
    (history : list Exchange) (exchange : Exchange) : list Exchange :=
  let h := history ++ [exchange] in
  if (Z.of_nat (length h) >? max_conversation_history * 2)%Z
  then RAGEngine.slice_from (- (max_conversation_history * 2)) h
  else h.

(** No counter went down and the session start is the same. *)
Definition not_reset (before after : SessionStats) : Prop :=
  documents_processed before <= documents_processed after
  ∧ questions_asked before <= questions_asked after
  ∧ chunks_retrieved before <= chunks_retrieved after
  ∧ session_start after = session_start before.

(** [m] keeps [P]: from a state that satisfies [P] it ends, by return
    or by exception, in a state that satisfies [P]. *)
Definition keeps {S A} (P : S → Prop) (m : M S A) : Prop :=
  ∀ s, P s → P (final (m s)).

(** A page number that a chunk can carry: the first page, or the
    number written in the page marker that opens one of the paragraphs. *)
Definition announced_page (paragraphs : list string) (page : N) : Prop :=
  page = 1%N
  ∨ ∃ para digits rest,
      para ∈ paragraphs
      ∧ Py.match_page_marker para = Some (digits, rest)
      ∧ page = Py.int_of_digits 0 digits.

(** The loop invariant of [smart_chunk_text] behind the shape of the
    chunks: both page counters are announced pages, and every chunk was
    flushed from some buffer under an announced page. *)
Record page_inv (document : string) (paragraphs : list string) (st : DocumentProcessor.Loop)
  : Prop := {
  pinv_page : announced_page paragraphs (DocumentProcessor.current_page st);
  pinv_chunk_page : announced_page paragraphs (DocumentProcessor.current_chunk_page st);
  pinv_chunks : ∀ o c, (o, c) ∈ DocumentProcessor.chunks st →
    ∃ current page, announced_page paragraphs page
                    ∧ c ∈ DocumentProcessor.flush current page document
}.

(** The length of the longest of the pieces. *)
Definition longest (pieces : list string) : Z :=
  foldr (fun p m => Z.max (Py.len p) m) 0%Z pieces.

(** The number of characters of a list of paragraphs, as the page
    estimate of [extract_text_from_docx_file] counts them. *)
Definition chars (paragraphs : list string) : Z :=
  foldr (fun p total => Py.len p + total)%Z 0%Z paragraphs.

(** The text of a page made of the paragraphs [run], the part of the
    full text written for the page at position [i] (counted from 0), and
    the page map of the pages [runs]: page [k] is the run at position
    [k - 1]. *)
Definition page_text (run : list string) : string :=
  Py.join Docx.BLANK_LINE run.

Definition page_part (i : nat) (run : list string) : string :=
  Py.NL +:+ "[Page " +:+ Py.str_N (N.of_nat (S i)) +:+ "]"
  +:+ Py.NL +:+ page_text run.

Definition pages_of (runs : list (list string)) (k : N) : option string :=
  if (k =? 0)%N then None else page_text <$> runs !! (N.to_nat k - 1).

(** The loop invariant of the page estimate: the paragraphs read so far
    are the closed pages [runs] followed by the open page; a closed page
    reached 3000 characters with its last paragraph and not before. *)
Record paged (st : Docx.Loop) (done : list string) (runs : list (list string))
  : Prop := {
  paged_done : concat runs ++ Docx.current_page_text st = done;
  paged_runs : Forall (fun run =>
                 run ≠ [] ∧ (3000 <= chars run)%Z
                 ∧ ∀ front last, run = front ++ [last] →
                                 (chars front < 3000)%Z) runs;
  paged_page : Docx.current_page st = N.of_nat (S (length runs));
  paged_chars : Docx.current_chars st = chars (Docx.current_page_text st);
  paged_open : (chars (Docx.current_page_text st) < 3000)%Z;
  paged_map : ∀ k, Docx.page_map st !! k = pages_of runs k;
  paged_parts : Docx.text_parts st = imap page_part runs
}.

(** The number of chunks that the registry accounts for. *)
Definition registered_chunks {Vec} (vs : VectorStore.t Vec) : nat :=
  map_fold (fun _ info total => chunk_count info + total) 0
           (VectorStore._documents vs).

(** Every registered document has at least one chunk. *)
Definition populated {Vec} (vs : VectorStore.t Vec) : Prop :=
  ∀ name info, VectorStore._documents vs !! name = Some info →
               0 < chunk_count info.

(** The exception that leaves [process_document] when [e] is raised
    inside its [try]: a [ValueError] as it is, anything else wrapped. *)
Definition as_ValueError (document_name : string) (e : Exn) : Exn :=
  if RAGEngine.is_ValueError e then e
  else mkExn ValueError
         ("Failed to process '" +:+ document_name +:+ "': " +:+ exn_str e).

(** The engine once a processed document is counted. *)
Definition processed {Vec} (self : RAGEngine.t Vec) : RAGEngine.t Vec :=
  let st := RAGEngine._session_stats self in
  RAGEngine.set_stats
    (mkStats (documents_processed st + 1) (questions_asked st)
             (chunks_retrieved st) (session_start st)) self.

(** The engine after a sequence of operations, first to last. *)
Definition run_ops {Vec Dist} (env : Env Vec Dist) (ops : list RAGEngine.Op)
    (self : RAGEngine.t Vec) : RAGEngine.t Vec :=
  foldl (fun s op => RAGEngine.after env op s) self ops.

(* ===================================================================== *)
(** * Properties of the chunker *)
(* ===================================================================== *)

Section Chunker.
Import DocumentProcessor.

(** ** Lengths of strings *)

Lemma length_app_string (a b : string) :
  String.length (a +:+ b) = String.length a + String.length b.
Proof. induction a as [|c a IH]; simpl; [done | by rewrite IH]. Qed.

Lemma len_app (a b : string) : Py.len (a +:+ b) = (Py.len a + Py.len b)%Z.
Proof. unfold Py.len. rewrite length_app_string. lia. Qed.

Lemma len_nonneg (s : string) : (0 <= Py.len s)%Z.
Proof. unfold Py.len. lia. Qed.

Lemma len_NL : Py.len Py.NL = 1%Z.
Proof. reflexivity. Qed.

Lemma length_lstrip (s : string) :
  String.length (Py.lstrip s) <= String.length s.
Proof.
  induction s as [|c s IH]; simpl; [done|].
  destruct (Py.isspace c); simpl; lia.
Qed.

Lemma length_rstrip (s : string) :
  String.length (Py.rstrip s) <= String.length s.
Proof.
  induction s as [|c s IH]; simpl; [done|].
  destruct (Py.rstrip s); [destruct (Py.isspace c)|]; simpl in *; lia.
Qed.

Lemma len_strip (s : string) : (Py.len (Py.strip s) <= Py.len s)%Z.
Proof.
  unfold Py.len, Py.strip.
  pose proof (length_rstrip (Py.lstrip s)). pose proof (length_lstrip s). lia.
Qed.

Lemma length_drop_string (n : nat) (s : string) :
  String.length (Py.drop n s) = String.length s - n.
Proof.
  revert s; induction n as [|n IH]; intros [|c s]; simpl; auto with lia.
Qed.

Lemma len_slice_from_le (i : Z) (s : string) :
  (Py.len (Py.slice_from i s) <= Py.len s)%Z.
Proof. unfold Py.slice_from, Py.len. rewrite length_drop_string. lia. Qed.

(** [s[-n:]] is the last [n] characters of a longer string. *)
Lemma len_slice_from_tail (n : Z) (s : string) :
  (0 < n)%Z → (n < Py.len s)%Z → Py.len (Py.slice_from (- n) s) = n.
Proof.
  intros Hn Hlt. unfold Py.slice_from.
  destruct (Z.ltb_spec (- n) 0); [|lia].
  unfold Py.len in *. rewrite length_drop_string. lia.
Qed.

(** The overlap never exceeds [overlap_chars], and it is the whole text
    when the text is not longer than that. *)
Lemma len_get_overlap_text (text : string) (overlap_chars : Z) :
  (0 < overlap_chars)%Z →
  (Py.len (_get_overlap_text text overlap_chars) <= overlap_chars)%Z.
Proof.
  intros Hpos. unfold _get_overlap_text.
  destruct (Z.leb_spec (Py.len text) overlap_chars) as [Hle|Hgt]; [done|].
  pose proof (len_slice_from_tail overlap_chars text Hpos Hgt) as Htail.
  destruct (_ >? _)%Z; [|lia].
  etrans; [apply len_slice_from_le|lia].
Qed.

Lemma get_overlap_text_short (text : string) (overlap_chars : Z) :
  (Py.len text <= overlap_chars)%Z →
  _get_overlap_text text overlap_chars = text.
Proof.
  intros Hle. unfold _get_overlap_text.
  by destruct (Z.leb_spec (Py.len text) overlap_chars); [|lia].
Qed.

(** ** The length bound *)

Lemma flush_text (current : string) (page : N) (document : string) (c : Chunk) :
  c ∈ flush current page document →
  (Py.len (chunk_text c) <= Py.len current)%Z.
Proof.
  unfold flush. destruct (Py.truthy _); [|by intros ?%elem_of_nil].
  intros ->%list_elem_of_singleton. apply len_strip.
Qed.

Lemma tagged_elem_of (o o' : Origin) (c : Chunk) (l : list Chunk) :
  (o, c) ∈ pair o' <$> l ↔ o = o' ∧ c ∈ l.
Proof.
  rewrite list_elem_of_fmap. split.
  - intros (x & [= -> ->] & Hin). done.
  - intros [-> Hin]. eauto.
Qed.

Lemma chunk_step_inv (document_name : string) (S O : Z) (st : Loop)
    (para : string) :
  (0 <= O < S)%Z →
  chunk_inv document_name S O st →
  chunk_inv document_name S O (chunk_step document_name S O st para).
Proof.
  intros HO [Hbuf Hfl Hsp]. unfold chunk_step.
  destruct (match Py.match_page_marker para with
            | Some (digits, _) => _ | None => _ end) as [pg para'].
  set (p := Py.strip para').
  destruct (negb (Py.truthy p)); [by split|].
  destruct (Z.leb_spec (Py.len (current_chunk st) + Py.len p + 1) S)
    as [Hfit|Hover].
  - pose proof (len_nonneg (current_chunk st)).
    destruct (Py.truthy (current_chunk st)); split; simpl; try done.
    + rewrite !len_app, len_NL. lia.
    + lia.
  - assert (Hflushed : ∀ c,
      (ParagraphBuffer, c) ∈ chunks st ++
        (pair ParagraphBuffer
           <$> flush (current_chunk st) (current_chunk_page st) document_name) →
      (Py.len (chunk_text c) <= S + O + 2)%Z).
    { intros c [Hin|Hin]%elem_of_app; [by apply Hfl|].
      apply tagged_elem_of in Hin as [_ Hin]. apply flush_text in Hin. lia. }
    assert (Hsplit : ∀ c,
      (SentenceSplit, c) ∈ chunks st ++
        (pair ParagraphBuffer
           <$> flush (current_chunk st) (current_chunk_page st) document_name) →
      ∃ p pg, (S < Py.len p)%Z ∧
              c ∈ _split_long_paragraph p pg document_name S O).
    { intros c [Hin|Hin]%elem_of_app; [by apply Hsp|].
      by apply tagged_elem_of in Hin as [? _]. }
    destruct (Z.gtb_spec (Py.len p) S) as [Hlong|Hshort]; split; simpl.
    + change (Py.len "") with 0%Z. lia.
    + intros c [Hin|Hin]%elem_of_app; [by apply Hflushed|].
      by apply tagged_elem_of in Hin as [? _].
    + intros c [Hin|Hin]%elem_of_app; [by apply Hsplit|].
      apply tagged_elem_of in Hin as [_ Hin]. eauto.
    + destruct (Py.truthy (current_chunk st)); simpl; [|lia].
      destruct (Z.gtb_spec O 0) as [Hpos|]; [|lia].
      rewrite !len_app, len_NL.
      pose proof (len_get_overlap_text (current_chunk st) O Hpos). lia.
    + done.
    + done.
Qed.

Lemma chunk_loop_inv (document_name : string) (S O : Z)
    (paragraphs : list string) (st : Loop) :
  (0 <= O < S)%Z →
  chunk_inv document_name S O st →
  chunk_inv document_name S O
    (fold_left (chunk_step document_name S O) paragraphs st).
Proof.
  intros HO. revert st.
  induction paragraphs as [|para paragraphs IH]; intros st Hst; simpl; [done|].
  apply IH. by apply chunk_step_inv.
Qed.

(** C1 (amended). For every text, page map, document name, chunk_size
    [S] and overlap [O] with [0 <= O < S], every chunk that
    [smart_chunk_text] produces was either flushed from the paragraph
    buffer, and then its text has at most [S + O + 2] characters (a
    paragraph of at most [S], the separator, and an overlap of at most
    [O]), or it was produced by sentence-splitting a paragraph that is
    itself longer than [S]. *)
Theorem smart_chunk_text_length_bound (text : string)
    (page_map : gmap N string) (document_name : string) (S O : Z) :
  (0 <= O < S)%Z →
  ∀ c, c ∈ smart_chunk_text text page_map document_name S O →
    ∃ o, (o, c) ∈ smart_chunk_trace text page_map document_name S O ∧
      ((o = ParagraphBuffer ∧ (Py.len (chunk_text c) <= S + O + 2)%Z)
       ∨ (o = SentenceSplit ∧
          ∃ p pg, (S < Py.len p)%Z ∧
                  c ∈ _split_long_paragraph p pg document_name S O)).
Proof.
  intros HO c. unfold smart_chunk_text.
  rewrite list_elem_of_fmap. intros ([o c'] & -> & Hin). exists o.
  split; [done|]. simpl. revert Hin. unfold smart_chunk_trace.
  destruct (_ || _); [by intros ?%elem_of_nil|].
  set (st := fold_left _ _ _).
  assert (Hinv : chunk_inv document_name S O st).
  { apply chunk_loop_inv; [done|]. split; simpl.
    - change (Py.len "") with 0%Z. lia.
    - by intros ? ?%elem_of_nil.
    - by intros ? ?%elem_of_nil. }
  destruct Hinv as [Hbuf Hfl Hsp].
  intros [Hin|Hin]%elem_of_app.
  - destruct o; [left|right]; split; auto.
  - apply tagged_elem_of in Hin as [-> Hin]. left. split; [done|].
    apply flush_text in Hin. lia.
Qed.

(** ** Every chunk carries the name of its document *)

Lemma flush_document current page document c :
  c ∈ flush current page document → chunk_document c = document.
Proof.
  unfold flush. destruct (Py.truthy _); [|by intros ?%elem_of_nil].
  by intros ->%list_elem_of_singleton.
Qed.

Lemma _split_long_paragraph_document paragraph page document S O c :
  c ∈ _split_long_paragraph paragraph page document S O →
  chunk_document c = document.
Proof.
  unfold _split_long_paragraph.
  assert (∀ sentences st,
    (∀ c, c ∈ st.1 → chunk_document c = document) →
    ∀ c, c ∈ (fold_left (split_step page document S O) sentences st).1 →
         chunk_document c = document) as Hloop.
  { induction sentences as [|s sentences IH]; intros [cs cur] Hst; [done|].
    simpl. apply IH. unfold split_step.
    destruct (_ <=? _)%Z; simpl; [done|].
    intros c' [?|?%flush_document]%elem_of_app; auto. }
  specialize (Hloop (Py.re_split_sentences false false paragraph) ([], "")).
  destruct (fold_left _ _ _) as [cs cur]. simpl in Hloop.
  intros [?|?%flush_document]%elem_of_app; [|done].
  apply Hloop; [|done]. by intros ? ?%elem_of_nil.
Qed.

Lemma chunk_step_document document S O st para :
  (∀ o c, (o, c) ∈ chunks st → chunk_document c = document) →
  ∀ o c, (o, c) ∈ chunks (chunk_step document S O st para) →
         chunk_document c = document.
Proof.
  intros Hst. unfold chunk_step.
  destruct (match Py.match_page_marker para with
            | Some (digits, _) => _ | None => _ end) as [pg para'].
  destruct (negb _); [done|]. destruct (_ <=? _)%Z.
  { by destruct (Py.truthy _). }
  assert (∀ o c, (o, c) ∈ chunks st ++
      (pair ParagraphBuffer
         <$> flush (current_chunk st) (current_chunk_page st) document) →
      chunk_document c = document) as Hflushed.
  { intros o c [Hin|Hin]%elem_of_app; [by eapply Hst|].
    apply list_elem_of_fmap in Hin as (c' & [= -> ->] & Hin).
    by eapply flush_document. }
  destruct (_ >? _)%Z; simpl; [|done].
  intros o c [Hin|Hin]%elem_of_app; [by eapply Hflushed|].
  apply list_elem_of_fmap in Hin as (c' & [= -> ->] & Hin).
  by eapply _split_long_paragraph_document.
Qed.

Lemma smart_chunk_text_document text page_map document S O c :
  c ∈ smart_chunk_text text page_map document S O →
  chunk_document c = document.
Proof.
  unfold smart_chunk_text, smart_chunk_trace.
  intros ([o c'] & -> & Hin)%list_elem_of_fmap. simpl. revert Hin.
  destruct (_ || _); [by intros ?%elem_of_nil|].
  assert (∀ paragraphs st,
    (∀ o c, (o, c) ∈ chunks st → chunk_document c = document) →
    ∀ o c, (o, c) ∈ chunks (fold_left (chunk_step document S O) paragraphs st)
           → chunk_document c = document) as Hloop.
  { induction paragraphs as [|p paragraphs IH]; intros st Hst; [done|].
    simpl. apply IH. by apply chunk_step_document. }
  intros [Hin|Hin]%elem_of_app.
  - eapply Hloop; [|done]. by intros ? ? ?%elem_of_nil.
  - apply list_elem_of_fmap in Hin as (c'' & [= -> ->] & Hin).
    by eapply flush_document.
Qed.

End Chunker.


(* ===================================================================== *)
(** * Properties of the vector store *)
(* ===================================================================== *)

(** ** Chunk ids *)

Lemma string_of_uint_char_free (d : Decimal.uint) :
  char_free "_"%char (NilEmpty.string_of_uint d).
Proof. induction d; simpl; auto. Qed.

Lemma str_nat_inj (i j : nat) : Py.str_nat i = Py.str_nat j → i = j.
Proof.
  unfold Py.str_nat. intros Heq.
  apply Unsigned.to_uint_inj.
  assert (Some (Nat.to_uint i) = Some (Nat.to_uint j)) as [= ->]; [|done].
  by rewrite <- !NilEmpty.usu, Heq.
Qed.

(** A name, a separator and a suffix without the separator: the last
    separator of the whole determines the parts. *)
Lemma app_sep_inj (c : ascii) (a b x y : string) :
  char_free c x → char_free c y →
  a +:+ String c x = b +:+ String c y → a = b ∧ x = y.
Proof.
  intros Hx Hy. revert b.
  induction a as [|ca a IH]; intros [|cb b]; simpl; intros Heq.
  - by injection Heq as ->.
  - injection Heq as -> ->. exfalso. clear -Hx.
    induction b as [|c' b IHb]; simpl in Hx; [by destruct Hx|].
    destruct Hx as [_ Hx]. auto.
  - injection Heq as -> <-. exfalso. clear -Hy.
    induction a as [|c' a IHa]; simpl in Hy; [by destruct Hy|].
    destruct Hy as [_ Hy]. auto.
  - injection Heq as -> Heq. destruct (IH _ Heq) as [-> ->]. done.
Qed.

Lemma chunk_id_inj (n n' : string) (i j : nat) :
  VectorStore.chunk_id n i = VectorStore.chunk_id n' j → n = n' ∧ i = j.
Proof.
  unfold VectorStore.chunk_id. intros Heq.
  apply (inj (String.app "doc_")) in Heq.
  apply app_sep_inj in Heq as [-> Heq];
    [|apply string_of_uint_char_free..].
  split; [done|]. by apply str_nat_inj.
Qed.


(** ** Runs of the store methods *)

Section StoreRuns.
Context {Vec Dist : Type} (env : Env Vec Dist).
Implicit Types (vs : VectorStore.t Vec) (name : string) (chunks : list Chunk).

Lemma remove_document_run name vs :
  VectorStore.remove_document name vs =
  mkOutcome (inr (bool_decide (is_Some (VectorStore._documents vs !! name))))
            (removed name vs) [].
Proof.
  unfold VectorStore.remove_document, removed, bind, get. simpl.
  by destruct (VectorStore._documents vs !! name) as [info|].
Qed.

Lemma _get_embedding_final text vs :
  final (VectorStore._get_embedding env text vs) = vs.
Proof.
  unfold VectorStore._get_embedding, bind, get, log. simpl.
  destruct (api_embeddings _ _ _ _) as [status body [e|v]|kind msg]; simpl;
    [destruct (negb _); done..|done].
Qed.

Lemma _get_embeddings_batch_final texts vs :
  final (VectorStore._get_embeddings_batch env texts vs) = vs.
Proof.
  unfold VectorStore._get_embeddings_batch.
  induction texts as [|text texts IH]; simpl; [done|].
  unfold bind at 1.
  pose proof (_get_embedding_final text vs) as Hfin.
  destruct (VectorStore._get_embedding env text vs) as [[e|v] s cl];
    simpl in *; subst s; [done|].
  unfold bind at 1.
  destruct (for_each _ texts vs) as [[e|vs'] s cl']; simpl in *; by subst s.
Qed.

Lemma _get_embeddings_batch_length texts vs embeddings :
  result (VectorStore._get_embeddings_batch env texts vs) = inr embeddings →
  length embeddings = length texts.
Proof.
  unfold VectorStore._get_embeddings_batch. revert embeddings.
  induction texts as [|text texts IH]; simpl; intros embeddings.
  - by intros [= <-].
  - unfold bind at 1.
    pose proof (_get_embedding_final text vs) as Hfin.
    destruct (VectorStore._get_embedding env text vs) as [[e|v] s cl];
      simpl in *; subst s; [done|].
    unfold bind at 1.
    destruct (for_each _ texts vs) as [[e|vs'] s cl'] eqn:Hrest; simpl in *;
      [done|].
    intros [= <-]. simpl. f_equal. by apply IH.
Qed.

(** What [add_document] does on a non-empty chunk list: the previous
    version is removed, the chunks are embedded one by one, and only
    when every embedding came back are chunks and registry written. *)
Lemma add_document_run name chunks vs :
  chunks ≠ [] →
  let r := VectorStore.add_document env name chunks vs in
  match result (VectorStore._get_embeddings_batch env (chunk_text <$> chunks)
                  (removed name vs)) with
  | inl e => result r = inl e ∧ final r = removed name vs
  | inr embeddings =>
      result r = inr (length chunks) ∧
      final r = stored name chunks embeddings (removed name vs)
  end.
Proof.
  intros Hne. destruct chunks as [|c chunks]; [done|].
  set (cs := c :: chunks).
  unfold VectorStore.add_document. fold cs.
  change (match cs with [] => _ | _ :: _ => ?k end) with k.
  clearbody cs. clear Hne.
  assert (Hfirst : ∃ b,
    (if bool_decide (is_Some (VectorStore._documents vs !! name))
     then VectorStore.remove_document name else ret false) vs
    = mkOutcome (inr b) (removed name vs) []).
  { case_bool_decide as Hreg.
    - rewrite remove_document_run. eauto.
    - exists false. unfold removed.
      destruct (VectorStore._documents vs !! name); [|done].
      destruct Hreg; eauto. }
  destruct Hfirst as [b Hfirst].
  pose proof (_get_embeddings_batch_final (chunk_text <$> cs) (removed name vs))
    as Hfin.
  unfold bind, get. simpl. rewrite Hfirst. simpl.
  destruct (VectorStore._get_embeddings_batch env (chunk_text <$> cs)
              (removed name vs)) as [[e|embeddings] s cl];
    simpl in *; subst s.
  - done.
  - done.
Qed.

(** ** The collection operations *)

Lemma lookup_delete_ids (ids : list string) (c : gmap string (Entry Vec))
    (i : string) :
  Chroma.delete ids c !! i = if decide (i ∈ ids) then None else c !! i.
Proof.
  unfold Chroma.delete. induction ids as [|j ids IH]; cbn [foldr].
  - rewrite decide_False by apply not_elem_of_nil. done.
  - destruct (decide (j = i)) as [->|Hne].
    + rewrite lookup_delete_eq, decide_True by left. done.
    + rewrite lookup_delete_ne, IH by done.
      destruct (decide (i ∈ ids)) as [Hin|Hin].
      * rewrite decide_True by (by right). done.
      * rewrite decide_False; [done|].
        intros [->|?]%elem_of_cons; done.
Qed.

Lemma elem_of_records (ids : list string) (embeddings : list Vec)
    (documents : list string) (metadatas : list Metadata)
    (id : string) (e : Entry Vec) :
  (id, e) ∈ Chroma.records ids embeddings documents metadatas →
  ∃ k, ids !! k = Some id ∧ embeddings !! k = Some (embedding e)
       ∧ documents !! k = Some (entry_text e)
       ∧ metadatas !! k = Some (metadata e).
Proof.
  revert embeddings documents metadatas.
  induction ids as [|i ids IH]; intros [|v vs'] [|d ds] [|m ms]; simpl;
    try by intros ?%elem_of_nil.
  intros [[= -> ->]|Hin]%elem_of_cons.
  - by exists 0.
  - destruct (IH _ _ _ Hin) as (k & ? & ? & ? & ?). by exists (S k).
Qed.

Lemma lookup_records (ids : list string) (embeddings : list Vec)
    (documents : list string) (metadatas : list Metadata)
    (k : nat) (id : string) (v : Vec) (d : string) (m : Metadata) :
  ids !! k = Some id → embeddings !! k = Some v →
  documents !! k = Some d → metadatas !! k = Some m →
  (id, mkEntry v d m) ∈ Chroma.records ids embeddings documents metadatas.
Proof.
  revert k embeddings documents metadatas.
  induction ids as [|i ids IH]; intros [|k] [|v' vs'] [|d' ds] [|m' ms];
    simpl; try done.
  - intros [= ->] [= ->] [= ->] [= ->]. left.
  - intros. right. eauto.
Qed.

Lemma records_keys_NoDup (ids : list string) (embeddings : list Vec)
    (documents : list string) (metadatas : list Metadata) :
  NoDup ids → NoDup (Chroma.records ids embeddings documents metadatas).*1.
Proof.
  revert embeddings documents metadatas.
  induction ids as [|i ids IH]; intros [|v vs'] [|d ds] [|m ms] Hnd; simpl;
    try by constructor.
  apply NoDup_cons in Hnd as [Hi Hnd]. constructor; [|by apply IH].
  intros ([id e] & -> & Hin)%list_elem_of_fmap. simpl in *.
  apply elem_of_records in Hin as (k & Hk & _).
  apply Hi. by eapply list_elem_of_lookup_2.
Qed.

Lemma length_records (ids : list string) (embeddings : list Vec)
    (documents : list string) (metadatas : list Metadata) (n : nat) :
  length ids = n → length embeddings = n → length documents = n →
  length metadatas = n →
  length (Chroma.records ids embeddings documents metadatas) = n.
Proof.
  revert n embeddings documents metadatas.
  induction ids as [|i ids IH]; intros [|n] [|v vs'] [|d ds] [|m ms];
    simpl; try done.
  intros [=] [=] [=] [=]. f_equal. by apply IH.
Qed.

#[global] Instance chunk_id_inj_instance (name : string) :
  Inj (=) (=) (VectorStore.chunk_id name).
Proof. intros i j Heq. by apply chunk_id_inj in Heq as [_ ?]. Qed.

Lemma ids_for_NoDup (name : string) (n : nat) : NoDup (ids_for name n).
Proof. unfold ids_for. apply NoDup_fmap_2; [apply _|apply NoDup_seq]. Qed.

Lemma elem_of_ids_for (name : string) (n : nat) (id : string) :
  id ∈ ids_for name n ↔ ∃ i, i < n ∧ id = VectorStore.chunk_id name i.
Proof.
  unfold ids_for. rewrite list_elem_of_fmap. split.
  - intros (i & -> & Hin). apply elem_of_seq in Hin. exists i. split; [lia|done].
  - intros (i & Hi & ->). exists i. split; [done|]. apply elem_of_seq. lia.
Qed.

Lemma length_ids_for (name : string) (n : nat) : length (ids_for name n) = n.
Proof. unfold ids_for. by rewrite length_fmap, length_seq. Qed.

Lemma elem_of_new_records name chunks (embeddings : list Vec) id
    (e : Entry Vec) :
  (id, e) ∈ new_records name chunks embeddings →
  ∃ i c, chunks !! i = Some c ∧ id = VectorStore.chunk_id name i
         ∧ entry_text e = chunk_text c
         ∧ metadata e = mkMetadata (chunk_document c) (chunk_page c) i.
Proof.
  intros (k & Hid & _ & Htext & Hmeta)%elem_of_records.
  unfold ids_for in Hid.
  rewrite list_lookup_fmap in Hid. rewrite list_lookup_fmap in Htext.
  rewrite list_lookup_imap in Hmeta.
  destruct (chunks !! k) as [c|] eqn:Hc; [|done].
  simpl in *. exists k, c.
  apply fmap_Some in Hid as (k' & [-> _]%lookup_seq & ->).
  by simplify_eq.
Qed.

Lemma lookup_new_records name chunks (embeddings : list Vec) i c :
  length embeddings = length chunks → chunks !! i = Some c →
  ∃ v, embeddings !! i = Some v ∧
    (list_to_map (new_records name chunks embeddings)
       : gmap string (Entry Vec)) !! VectorStore.chunk_id name i
    = Some (mkEntry v (chunk_text c)
                    (mkMetadata (chunk_document c) (chunk_page c) i)).
Proof.
  intros Hlen Hc.
  assert (i < length chunks) as Hi by by eapply lookup_lt_Some.
  destruct (lookup_lt_is_Some_2 embeddings i) as [v Hv]; [lia|].
  exists v. split; [done|].
  apply elem_of_list_to_map.
  { apply records_keys_NoDup, ids_for_NoDup. }
  apply (lookup_records _ _ _ _ i); [|done|..].
  - unfold ids_for. by rewrite list_lookup_fmap, lookup_seq_lt.
  - by rewrite list_lookup_fmap, Hc.
  - by rewrite list_lookup_imap, Hc.
Qed.

Lemma lookup_new_records_None name chunks (embeddings : list Vec) id :
  (∀ i, i < length chunks → id ≠ VectorStore.chunk_id name i) →
  (list_to_map (new_records name chunks embeddings)
     : gmap string (Entry Vec)) !! id = None.
Proof.
  intros Hfresh. apply not_elem_of_list_to_map.
  intros ([id' e] & -> & Hin)%list_elem_of_fmap.
  apply elem_of_new_records in Hin as (i & c & Hc & -> & _).
  eapply Hfresh; [|done]. by eapply lookup_lt_Some.
Qed.

Lemma size_delete_ids (ids : list string) (c : gmap string (Entry Vec)) :
  NoDup ids → (∀ id, id ∈ ids → is_Some (c !! id)) →
  size (Chroma.delete ids c) + length ids = size c.
Proof.
  intros Hnd. induction Hnd as [|i ids Hi Hnd IH]; intros Hin; simpl.
  - lia.
  - assert (is_Some (Chroma.delete ids c !! i)) as Hstill.
    { rewrite lookup_delete_ids, decide_False by done. apply Hin. left. }
    pose proof (map_size_ne_0_lookup_2 _ _ Hstill).
    specialize (IH (fun id H => Hin id (list_elem_of_further _ _ _ H))).
    unfold Chroma.delete in *. rewrite map_size_delete_Some by done. lia.
Qed.
End StoreRuns.


(** ** The invariant of the store *)

Section StoreInvariant.
Context {Vec Dist : Type} (env : Env Vec Dist).
Implicit Types (vs : VectorStore.t Vec) (name : string) (chunks : list Chunk).

(** Ids of different documents never coincide. *)
Lemma wf_ids_disjoint vs n d info_n info_d id :
  wf vs → n ≠ d →
  VectorStore._documents vs !! n = Some info_n →
  VectorStore._documents vs !! d = Some info_d →
  id ∈ chunk_ids info_n → id ∉ chunk_ids info_d.
Proof.
  intros Hwf Hne Hn Hd Hin Hin'.
  rewrite (wf_ids _ Hwf _ _ Hn) in Hin. rewrite (wf_ids _ Hwf _ _ Hd) in Hin'.
  apply elem_of_ids_for in Hin as (i & _ & ->).
  apply elem_of_ids_for in Hin' as (j & _ & Heq).
  by apply chunk_id_inj in Heq as [? _].
Qed.

(** No id of an unregistered name is in the index. *)
Lemma wf_unregistered_fresh vs name i :
  wf vs → VectorStore._documents vs !! name = None →
  VectorStore.collection vs !! VectorStore.chunk_id name i = None.
Proof.
  intros Hwf Hnone.
  destruct (VectorStore.collection vs !! _) as [e|] eqn:He; [|done].
  destruct (wf_owned _ Hwf _ _ He) as (info & j & Hreg & _ & Heq).
  apply chunk_id_inj in Heq as [Heq _]. congruence.
Qed.

Lemma wf_empty (a b c d : string) :
  wf (VectorStore.mk a b c d ∅ ∅ : VectorStore.t Vec).
Proof. split; simpl; intros *; by rewrite lookup_empty. Qed.

Lemma removed_documents name vs :
  VectorStore._documents (removed name vs)
  = delete name (VectorStore._documents vs).
Proof.
  unfold removed.
  destruct (VectorStore._documents vs !! name) eqn:Hreg; [done|].
  by rewrite delete_id.
Qed.

Lemma removed_collection name vs id :
  VectorStore.collection (removed name vs) !! id =
  match VectorStore._documents vs !! name with
  | Some info => if decide (id ∈ chunk_ids info) then None
                 else VectorStore.collection vs !! id
  | None => VectorStore.collection vs !! id
  end.
Proof.
  unfold removed.
  destruct (VectorStore._documents vs !! name) eqn:Hreg; [|done].
  simpl. apply lookup_delete_ids.
Qed.

Lemma removed_unregistered name vs :
  VectorStore._documents vs !! name = None → removed name vs = vs.
Proof. unfold removed. by intros ->. Qed.

Lemma removed_wf name vs : wf vs → wf (removed name vs).
Proof.
  intros Hwf.
  destruct (VectorStore._documents vs !! name) as [info|] eqn:Hreg;
    [|by rewrite removed_unregistered].
  split.
  - intros d info_d. rewrite removed_documents.
    intros [_ Hd]%lookup_delete_Some. by eapply wf_ids.
  - intros d info_d id. rewrite removed_documents.
    intros [Hne Hd]%lookup_delete_Some Hin.
    rewrite removed_collection, Hreg.
    rewrite decide_False by (by eapply (wf_ids_disjoint vs d name)).
    by eapply wf_indexed.
  - intros id e. rewrite removed_collection, Hreg, removed_documents.
    case_decide as Hin; [done|]. intros He.
    destruct (wf_owned _ Hwf _ _ He) as (info_d & i & Hd & Hi & ->).
    exists info_d, i. split_and!; [|done..].
    rewrite lookup_delete_ne; [done|]. intros ->.
    apply Hin. rewrite (wf_ids _ Hwf _ _ Hreg). apply elem_of_ids_for.
    assert (info = info_d) as -> by congruence. eauto.
Qed.

Lemma stored_documents name chunks embeddings vs :
  VectorStore._documents (stored name chunks embeddings vs)
  = <[name := mkDocInfo (length chunks) (ids_for name (length chunks))]>
      (VectorStore._documents vs).
Proof. done. Qed.

Lemma stored_collection name chunks embeddings vs :
  VectorStore.collection (stored name chunks embeddings vs)
  = VectorStore.collection vs ∪ list_to_map (new_records name chunks embeddings).
Proof. done. Qed.

Lemma stored_wf name chunks embeddings vs :
  wf vs → VectorStore._documents vs !! name = None →
  length embeddings = length chunks →
  (∀ c, c ∈ chunks → chunk_document c = name) →
  wf (stored name chunks embeddings vs).
Proof.
  intros Hwf Hnone Hlen Htag. split.
  - intros d info_d. rewrite stored_documents.
    intros [[<- <-]|[_ Hd]]%lookup_insert_Some; [done|]. by eapply wf_ids.
  - intros d info_d id. rewrite stored_documents, stored_collection.
    rewrite lookup_union_is_Some.
    intros [[<- <-]|[_ Hd]]%lookup_insert_Some Hin.
    + right. simpl in Hin. apply elem_of_ids_for in Hin as (i & Hi & ->).
      destruct (lookup_lt_is_Some_2 chunks i Hi) as [c Hc].
      destruct (lookup_new_records name chunks embeddings i c Hlen Hc)
        as (v & _ & ->). eauto.
    + left. by eapply wf_indexed.
  - intros id e. rewrite stored_documents, stored_collection.
    intros [He|[_ He]]%lookup_union_Some_raw.
    + destruct (wf_owned _ Hwf _ _ He) as (info_d & i & Hd & Hi & ->).
      exists info_d, i. split_and!; [|done..].
      rewrite lookup_insert_ne; [done|]. congruence.
    + apply elem_of_list_to_map_2, elem_of_new_records in He
        as (i & c & Hc & -> & _ & ->). simpl.
      rewrite (Htag c) by by eapply list_elem_of_lookup_2.
      eexists _, i. rewrite lookup_insert_eq. split_and!; [done| |done].
      simpl. by eapply lookup_lt_Some.
Qed.

Lemma add_document_wf name chunks vs :
  wf vs → (∀ c, c ∈ chunks → chunk_document c = name) →
  wf (final (VectorStore.add_document env name chunks vs)).
Proof.
  intros Hwf Htag. destruct (decide (chunks = [])) as [->|Hne]; [done|].
  pose proof (add_document_run env name chunks vs Hne) as Hrun. simpl in Hrun.
  destruct (result (VectorStore._get_embeddings_batch _ _ _))
    as [e|embeddings] eqn:Hemb; destruct Hrun as [_ ->].
  - by apply removed_wf.
  - apply stored_wf; [by apply removed_wf| |..|done].
    + rewrite removed_documents. apply lookup_delete_eq.
    + apply _get_embeddings_batch_length in Hemb.
      by rewrite length_fmap in Hemb.
Qed.

Lemma remove_document_wf name vs :
  wf vs → wf (final (VectorStore.remove_document name vs)).
Proof. rewrite remove_document_run. apply removed_wf. Qed.

Lemma clear_wf vs : wf vs → wf (final (VectorStore.clear vs)).
Proof. intros _. destruct vs. apply wf_empty. Qed.

End StoreInvariant.


(** ** Adding and removing *)

Section StoreCounts.
Context {Vec Dist : Type} (env : Env Vec Dist).
Implicit Types (vs : VectorStore.t Vec) (name : string) (chunks : list Chunk).

Lemma removed_stored name chunks embeddings vs :
  wf vs → VectorStore._documents vs !! name = None →
  removed name (stored name chunks embeddings vs) = vs.
Proof.
  intros Hwf Hnone. unfold removed.
  rewrite stored_documents, lookup_insert_eq. simpl.
  destruct vs as [a b c d coll docs]. unfold stored. simpl in *.
  unfold VectorStore.set_documents, VectorStore.set_collection. simpl.
  f_equal.
  - apply map_eq. intros id. rewrite lookup_delete_ids.
    case_decide as Hin.
    + apply elem_of_ids_for in Hin as (i & _ & ->). symmetry.
      by apply (wf_unregistered_fresh _ _ _ Hwf).
    + unfold Chroma.add. apply lookup_union_l.
      apply lookup_new_records_None. intros i Hi ->.
      apply Hin, elem_of_ids_for. eauto.
  - by rewrite delete_insert_eq, delete_id.
Qed.

Lemma removed_counts name vs info :
  wf vs → VectorStore._documents vs !! name = Some info →
  VectorStore.document_count (removed name vs)
  = (VectorStore.document_count vs - 1)%Z
  ∧ VectorStore.chunk_count (removed name vs)
    = (VectorStore.chunk_count vs - Z.of_nat (chunk_count info))%Z.
Proof.
  intros Hwf Hreg. unfold VectorStore.document_count, VectorStore.chunk_count,
    Chroma.count.
  rewrite removed_documents. split.
  - rewrite map_size_delete_Some by eauto.
    assert (size (VectorStore._documents vs) ≠ 0)
      by (apply (map_size_ne_0_lookup_2 _ name); eauto).
    lia.
  - unfold removed. rewrite Hreg. simpl.
    assert (chunk_ids info = ids_for name (chunk_count info)) as Hids
      by by eapply wf_ids.
    assert (length (chunk_ids info) = chunk_count info) as Hlen
      by by rewrite Hids, length_ids_for.
    pose proof (size_delete_ids (chunk_ids info) (VectorStore.collection vs))
      as Hsize.
    rewrite <- Hsize, Hlen; [lia| |].
    + rewrite Hids. apply ids_for_NoDup.
    + intros id Hin. by apply (wf_indexed _ Hwf _ _ _ Hreg).
Qed.

Lemma stored_chunk_count name chunks embeddings vs :
  wf vs → VectorStore._documents vs !! name = None →
  length embeddings = length chunks →
  VectorStore.chunk_count (stored name chunks embeddings vs)
  = (VectorStore.chunk_count vs + Z.of_nat (length chunks))%Z.
Proof.
  intros Hwf Hnone Hlen. unfold VectorStore.chunk_count, Chroma.count.
  rewrite stored_collection, map_size_disj_union.
  - rewrite map_size_list_to_map
      by apply records_keys_NoDup, ids_for_NoDup.
    unfold new_records.
    rewrite (length_records _ _ _ _ (length chunks));
      rewrite ?length_ids_for, ?length_fmap, ?length_imap; [lia|done..].
  - apply map_disjoint_alt. intros id.
    destruct (list_to_map _ !! id) as [e|] eqn:He; [left|by right].
    apply elem_of_list_to_map_2, elem_of_new_records in He
      as (i & c & _ & -> & _).
    by apply wf_unregistered_fresh.
Qed.

End StoreCounts.

(** ** Upload, re-upload and removal *)

Section StoreClaims.
Context {Vec Dist : Type} (env : Env Vec Dist).
Implicit Types (vs : VectorStore.t Vec) (name : string) (chunks : list Chunk).

(** C3 (amended). If [add_document] fails, which can only happen while
    the chunks are being embedded, nothing of the new version is
    written: the store is the one that [remove_document] of the same
    name leaves. The registry is the old one without that name, the
    index holds no record that it did not hold before, and when the
    name was not registered the store is exactly as before the call.
    A version of the same name registered before the call has already
    been removed. *)
Theorem add_document_failure_state name chunks vs e :
  result (VectorStore.add_document env name chunks vs) = inl e →
  let vs' := final (VectorStore.add_document env name chunks vs) in
  vs' = final (VectorStore.remove_document name vs)
  ∧ VectorStore._documents vs' = delete name (VectorStore._documents vs)
  ∧ VectorStore.collection vs' ⊆ VectorStore.collection vs
  ∧ (VectorStore._documents vs !! name = None → vs' = vs).
Proof.
  intros Hfail. destruct (decide (chunks = [])) as [->|Hne]; [done|].
  pose proof (add_document_run env name chunks vs Hne) as Hrun. simpl in Hrun.
  destruct (result (VectorStore._get_embeddings_batch _ _ _))
    as [e'|embeddings]; destruct Hrun as [Hres Hfin]; [|congruence].
  cbv zeta. rewrite Hfin, remove_document_run. cbn [result final].
  split_and!; [done|apply removed_documents| |apply removed_unregistered].
  apply map_subseteq_spec. intros id x. rewrite removed_collection.
  destruct (VectorStore._documents vs !! name); [|done].
  by case_decide.
Qed.

(** C4 (amended). In a store that satisfies the invariant, a successful
    [add_document(name, chunks)] on a non-empty chunk list followed at
    once by [remove_document(name)] leaves the store that
    [remove_document(name)] alone would have left. When [name] was not
    registered before the add, that is the store before the add. When
    a version of [name] was registered, it is gone: the document count
    is one less than before the add and the chunk count is less by the
    chunk count of that version. *)
Theorem add_then_remove name chunks vs n :
  wf vs → chunks ≠ [] →
  result (VectorStore.add_document env name chunks vs) = inr n →
  let r := VectorStore.remove_document name
             (final (VectorStore.add_document env name chunks vs)) in
  result r = inr true
  ∧ final r = final (VectorStore.remove_document name vs)
  ∧ (VectorStore._documents vs !! name = None → final r = vs)
  ∧ (∀ info, VectorStore._documents vs !! name = Some info →
       VectorStore.document_count (final r)
       = (VectorStore.document_count vs - 1)%Z
       ∧ VectorStore.chunk_count (final r)
         = (VectorStore.chunk_count vs - Z.of_nat (chunk_count info))%Z).
Proof.
  intros Hwf Hne Hok.
  pose proof (add_document_run env name chunks vs Hne) as Hrun. simpl in Hrun.
  destruct (result (VectorStore._get_embeddings_batch _ _ _))
    as [e'|embeddings]; destruct Hrun as [Hres Hfin]; [congruence|].
  cbv zeta. rewrite Hfin, !remove_document_run. cbn [result final].
  assert (removed name (stored name chunks embeddings (removed name vs))
          = removed name vs) as ->.
  { apply removed_stored; [by apply removed_wf|].
    rewrite removed_documents. apply lookup_delete_eq. }
  split_and!.
  - rewrite stored_documents, lookup_insert_eq.
    by rewrite bool_decide_eq_true_2 by eauto.
  - done.
  - apply removed_unregistered.
  - intros info Hreg. by apply removed_counts.
Qed.

(** C5 (amended). In a store that satisfies the invariant, a successful
    [add_document] of a non-empty chunk list under a name that is
    already registered leaves one version of it: the registry entry of
    the name holds the size of the new chunk list and the ids
    [doc_<name>_0 ..], the number of documents is unchanged, the chunk
    count is the old count less the old version plus the new one, and
    under each id [doc_<name>_i] the index holds the [i]-th new chunk
    when there is one and nothing otherwise. Ids are made from the
    name and the position, so the ids of the old version at positions
    below the new size are in use again, for the new chunks. *)
Theorem readd_replaces name chunks vs info n :
  wf vs → VectorStore._documents vs !! name = Some info → chunks ≠ [] →
  result (VectorStore.add_document env name chunks vs) = inr n →
  let vs' := final (VectorStore.add_document env name chunks vs) in
  n = length chunks
  ∧ VectorStore._documents vs'
    = <[name := mkDocInfo (length chunks)
                          (VectorStore.chunk_id name <$> seq 0 (length chunks))]>
        (VectorStore._documents vs)
  ∧ VectorStore.document_count vs' = VectorStore.document_count vs
  ∧ VectorStore.chunk_count vs'
    = (VectorStore.chunk_count vs - Z.of_nat (chunk_count info)
       + Z.of_nat (length chunks))%Z
  ∧ (∀ i, match chunks !! i with
          | Some c =>
              ∃ v, VectorStore.collection vs' !! VectorStore.chunk_id name i
                   = Some (mkEntry v (chunk_text c)
                             (mkMetadata (chunk_document c) (chunk_page c) i))
          | None =>
              VectorStore.collection vs' !! VectorStore.chunk_id name i = None
          end).
Proof.
  intros Hwf Hreg Hne Hok.
  pose proof (add_document_run env name chunks vs Hne) as Hrun. simpl in Hrun.
  destruct (result (VectorStore._get_embeddings_batch _ _ _))
    as [e'|embeddings] eqn:Hemb; destruct Hrun as [Hres Hfin]; [congruence|].
  apply _get_embeddings_batch_length in Hemb. rewrite length_fmap in Hemb.
  assert (wf (removed name vs)) as Hwf' by by apply removed_wf.
  assert (VectorStore._documents (removed name vs) !! name = None) as Hnone.
  { rewrite removed_documents. apply lookup_delete_eq. }
  cbv zeta. rewrite Hfin. split_and!.
  - congruence.
  - by rewrite stored_documents, removed_documents, insert_delete_eq.
  - unfold VectorStore.document_count.
    rewrite stored_documents, removed_documents, insert_delete_eq.
    rewrite map_size_insert_Some by eauto. done.
  - rewrite stored_chunk_count by done.
    destruct (removed_counts name vs info Hwf Hreg) as [_ ->]. done.
  - intros i. rewrite stored_collection.
    destruct (chunks !! i) as [c|] eqn:Hc.
    + destruct (lookup_new_records name chunks embeddings i c Hemb Hc)
        as (v & _ & Hv).
      exists v. rewrite lookup_union_r; [done|].
      by apply wf_unregistered_fresh.
    + apply lookup_union_None. split; [by apply wf_unregistered_fresh|].
      apply lookup_new_records_None. intros j Hj Heq.
      apply (inj _) in Heq as ->. apply lookup_ge_None in Hc. lia.
Qed.

(** C10. In a store that satisfies the invariant, for registered names
    [n] and [d] with [n ≠ d], [remove_document(n)] returns [True],
    deletes the registry entry of [n] only and the ids of [n] only: the
    entry of [d] is unchanged, every id of [d] holds what it held, and
    every record tagged with [d] is still there, unchanged. *)
Theorem remove_document_frame vs n d info_n info_d :
  wf vs → n ≠ d →
  VectorStore._documents vs !! n = Some info_n →
  VectorStore._documents vs !! d = Some info_d →
  let r := VectorStore.remove_document n vs in
  result r = inr true
  ∧ VectorStore._documents (final r) = delete n (VectorStore._documents vs)
  ∧ VectorStore._documents (final r) !! d = Some info_d
  ∧ (∀ id, VectorStore.collection (final r) !! id
           = if decide (id ∈ chunk_ids info_n) then None
             else VectorStore.collection vs !! id)
  ∧ (∀ id, id ∈ chunk_ids info_d →
           VectorStore.collection (final r) !! id
           = VectorStore.collection vs !! id)
  ∧ (∀ id e, VectorStore.collection vs !! id = Some e →
             md_document (metadata e) = d →
             VectorStore.collection (final r) !! id = Some e).
Proof.
  intros Hwf Hne Hn Hd. cbv zeta. rewrite remove_document_run.
  cbn [result final].
  assert (∀ id, VectorStore.collection (removed n vs) !! id
                = if decide (id ∈ chunk_ids info_n) then None
                  else VectorStore.collection vs !! id) as Hcoll.
  { intros id. by rewrite removed_collection, Hn. }
  split_and!.
  - by rewrite bool_decide_eq_true_2 by eauto.
  - apply removed_documents.
  - by rewrite removed_documents, lookup_delete_ne.
  - done.
  - intros id Hin. rewrite Hcoll, decide_False; [done|].
    by eapply (wf_ids_disjoint vs d n).
  - intros id e He Htag. rewrite Hcoll, decide_False; [done|].
    destruct (wf_owned _ Hwf _ _ He) as (info & i & Hreg & Hi & ->).
    rewrite Htag in *. intros Hin.
    apply (wf_ids_disjoint vs n d info_n info_d _ Hwf Hne Hn Hd Hin).
    rewrite (wf_ids _ Hwf _ _ Hd). apply elem_of_ids_for.
    assert (info = info_d) as -> by congruence. eauto.
Qed.

End StoreClaims.


(** ** Querying *)

Section Query.
Context {Vec Dist : Type} (env : Env Vec Dist).
Implicit Types (vs : VectorStore.t Vec) (name : string) (chunks : list Chunk).

Lemma Sorted_take {A} (R : relation A) (n : nat) (l : list A) :
  Sorted R l → Sorted R (take n l).
Proof.
  intros Hs. revert n. induction Hs as [|x l Hs IH Hhd]; intros [|n]; simpl;
    try by constructor.
  constructor; [apply IH|].
  destruct Hhd; destruct n; simpl; by constructor.
Qed.

Lemma _get_embedding_ok question vs body v :
  api_embeddings env (VectorStore.ollama_base_url vs)
                 (VectorStore.embedding_model vs) question
  = Response 200 body (inr v) →
  VectorStore._get_embedding env question vs
  = mkOutcome (inr v) vs
      [PostEmbeddings (VectorStore.ollama_base_url vs)
                      (VectorStore.embedding_model vs) question].
Proof.
  intros Hok. unfold VectorStore._get_embedding, bind, get, log. simpl.
  by rewrite Hok.
Qed.

Lemma bind_run {S A B} (m : M S A) (f : A → M S B) (s s' : S) (a : A)
    (cl : list Call) :
  m s = mkOutcome (inr a) s' cl →
  bind m f s = mkOutcome (result (f a s')) (final (f a s'))
                         (cl ++ calls (f a s')).
Proof. intros Hrun. unfold bind. by rewrite Hrun. Qed.

(** C6 (amended). Whenever the embedding backend returns a vector for
    the question and the order of distances is total, [query] leaves
    the store as it is; on an empty index it returns the empty
    sequence, for any [k] and any filter; and for [k >= 1] it returns
    at most [min(k, number of indexed chunks)] results in ascending
    order of distance. (The question is embedded before the index is
    looked at, so a failure of the embedding call is raised by [query]
    on any index, empty or not.) *)
Theorem query_results question k document_filter vs body v :
  api_embeddings env (VectorStore.ollama_base_url vs)
                 (VectorStore.embedding_model vs) question
  = Response 200 body (inr v) →
  (∀ a b, dist_leb env a b = true ∨ dist_leb env b a = true) →
  let r := VectorStore.query env question k document_filter vs in
  final r = vs
  ∧ (VectorStore.chunk_count vs = 0%Z → result r = inr [])
  ∧ ((1 <= k)%Z →
     ∃ hits, result r = inr hits
       ∧ (Z.of_nat (length hits) <= Z.min k (VectorStore.chunk_count vs))%Z
       ∧ ascending env hits).
Proof.
  intros Hemb Htotal. cbv zeta.
  unfold VectorStore.query.
  rewrite (bind_run _ _ _ _ _ _ (_get_embedding_ok _ _ _ _ Hemb)).
  cbn [result final calls]. unfold bind, get. cbn [result final calls].
  unfold VectorStore.chunk_count, Chroma.count.
  set (where_filter := match document_filter with
                       | Some d => if Py.truthy d then Some d else None
                       | None => None end).
  set (total := Z.of_nat (size (VectorStore.collection vs))).
  unfold Chroma.query.
  set (scored := _ <$> filter _ _).
  assert (Total (Chroma.by_distance env)) as Htot.
  { intros a b. unfold Chroma.by_distance.
    destruct (Htotal a.2 b.2) as [-> | ->]; [by left|by right]. }
  split_and!.
  - by destruct (_ <=? 0)%Z.
  - intros Hzero.
    assert (VectorStore.collection vs = ∅) as Hempty.
    { apply map_size_empty_inv. subst total. lia. }
    subst scored. rewrite Hempty, map_to_list_empty.
    rewrite Hzero. done.
  - intros Hk.
    set (n := if (total >? 0)%Z then Z.min k total else 1%Z).
    assert (1 <= n)%Z as Hn.
    { subst n. destruct (Z.gtb_spec total 0); lia. }
    destruct (Z.leb_spec n 0) as [|_]; [lia|]. cbn [result].
    eexists. split; [done|]. split.
    + rewrite length_fmap, length_take.
      destruct (Z.gtb_spec total 0) as [Hpos|Hnone]; subst n.
      * lia.
      * assert (VectorStore.collection vs = ∅) as Hempty.
        { apply map_size_empty_inv. subst total. lia. }
        subst scored. rewrite Hempty, map_to_list_empty.
        simpl. subst total. lia.
    + unfold ascending.
      apply (Sorted_fmap _ (Chroma.by_distance env)).
      * intros [e1 d1] [e2 d2]. unfold Chroma.by_distance. simpl.
        by intros ?%Is_true_true.
      * apply Sorted_take, Sorted_merge_sort, _.
Qed.

End Query.

(* ===================================================================== *)
(** * Properties of the engine *)
(* ===================================================================== *)

(** ** Conversation history *)

Section History.
Context {Vec Dist : Type} (env : Env Vec Dist).
Implicit Types (self : RAGEngine.t Vec) (vs : VectorStore.t Vec).

Lemma slice_from_tail {A} (n : Z) (l : list A) :
  (0 < n)%Z →
  RAGEngine.slice_from (- n) l = drop (length l - Z.to_nat n) l.
Proof.
  intros Hn. unfold RAGEngine.slice_from.
  destruct (Z.ltb_spec (- n) 0); [|lia]. f_equal. lia.
Qed.

Lemma _add_to_history_run now q a self :
  RAGEngine._add_to_history now q a self =
  let h := RAGEngine._conversation_history self ++ [mkExchange q a now] in
  let max_history :=
    (Config.max_conversation_history (RAGEngine.config self) * 2)%Z in
  mkOutcome (inr tt)
    (RAGEngine.set_history
       (if (Z.of_nat (length h) >? max_history)%Z
        then RAGEngine.slice_from (- max_history) h else h) self)
    [].
Proof.
  unfold RAGEngine._add_to_history, bind, modify, get. cbn.
  destruct (_ >? _)%Z; cbn; by destruct self.
Qed.

(** For a positive [max_conversation_history]: one append leaves at
    most [2 * max_conversation_history] entries, the entries kept are
    the most recent ones in their order, and the new exchange is the
    last of them. *)
Lemma _add_to_history_bounded now q a self :
  (1 <= Config.max_conversation_history (RAGEngine.config self))%Z →
  let h := RAGEngine._conversation_history self ++ [mkExchange q a now] in
  let h' := RAGEngine._conversation_history
              (final (RAGEngine._add_to_history now q a self)) in
  (Z.of_nat (length h')
   <= 2 * Config.max_conversation_history (RAGEngine.config self))%Z
  ∧ h' = drop (length h - length h') h
  ∧ last h' = Some (mkExchange q a now).
Proof.
  intros Hmax. cbv zeta. rewrite _add_to_history_run. cbn.
  set (old := RAGEngine._conversation_history self).
  set (m := Config.max_conversation_history _) in *.
  assert (length (old ++ [mkExchange q a now]) = S (length old)) as Hlen.
  { rewrite length_app. simpl. lia. }
  destruct (Z.gtb_spec (Z.of_nat (length (old ++ [mkExchange q a now])))
                       (m * 2)) as [Hgt|Hle].
  - rewrite slice_from_tail by lia. rewrite length_drop.
    split_and!; [lia|f_equal; lia|].
    rewrite drop_app_le by lia. apply last_snoc.
  - split_and!; [lia| |apply last_snoc].
    by rewrite Nat.sub_diag.
Qed.

(** For a positive [max_conversation_history], the window read into a
    prompt is the last [max_conversation_history] entries (all of them
    when there are fewer), oldest first. *)
Lemma recent_window_suffix (max_conversation_history : Z)
    (history : list Exchange) :
  (1 <= max_conversation_history)%Z →
  RAGEngine.recent_window max_conversation_history history
  = drop (length history - Z.to_nat max_conversation_history) history
  ∧ (Z.of_nat (length (RAGEngine.recent_window max_conversation_history
                         history))
     <= max_conversation_history)%Z.
Proof.
  intros Hmax. unfold RAGEngine.recent_window.
  rewrite slice_from_tail by lia. split; [done|]. rewrite length_drop. lia.
Qed.

Lemma _add_to_history_config now q a self :
  RAGEngine.config (final (RAGEngine._add_to_history now q a self))
  = RAGEngine.config self.
Proof. by rewrite _add_to_history_run. Qed.

(** For a positive [max_conversation_history] the bound holds after any
    sequence of appends. *)
Lemma appended_bounded (xs : list (string * string * string)) self :
  (1 <= Config.max_conversation_history (RAGEngine.config self))%Z →
  (Z.of_nat (length (RAGEngine._conversation_history self))
   <= 2 * Config.max_conversation_history (RAGEngine.config self))%Z →
  (Z.of_nat (length (RAGEngine._conversation_history (appended xs self)))
   <= 2 * Config.max_conversation_history (RAGEngine.config self))%Z.
Proof.
  revert self. induction xs as [|[[now q] a] xs IH]; intros self Hmax Hlen;
    [done|].
  cbn [appended].
  pose proof (_add_to_history_config now q a self) as Hcfg.
  pose proof (_add_to_history_bounded now q a self Hmax) as (Hb & _ & _).
  specialize (IH (final (RAGEngine._add_to_history now q a self))).
  rewrite Hcfg in IH. by apply IH.
Qed.

(** With [max_conversation_history = 0] an append evicts nothing, and
    the window read into a prompt is the whole history. *)
Lemma _add_to_history_no_limit now q a self :
  Config.max_conversation_history (RAGEngine.config self) = 0%Z →
  RAGEngine._conversation_history
    (final (RAGEngine._add_to_history now q a self))
  = RAGEngine._conversation_history self ++ [mkExchange q a now].
Proof.
  intros Hzero. rewrite _add_to_history_run. cbv zeta.
  cbn [final RAGEngine._conversation_history RAGEngine.set_history].
  rewrite Hzero.
  change (0 * 2)%Z with 0%Z. change (- 0)%Z with 0%Z.
  by destruct (_ >? 0)%Z.
Qed.

Lemma recent_window_no_limit (history : list Exchange) :
  RAGEngine.recent_window 0 history = history.
Proof. done. Qed.

(** ** The empty state *)

(** C8. For every question and filter, when the index holds zero
    documents [ask_question] returns the fixed upload-a-document-first
    answer with empty sources, empty documents_searched and
    [error = None]; it makes no backend call and leaves the engine as
    it is. *)
Theorem ask_question_empty_index now q document_filter use_memory self :
  VectorStore.document_count (RAGEngine.vector_store self) = 0%Z →
  RAGEngine.ask_question env now q document_filter use_memory self
  = mkOutcome (inr (mkAnswer RAGEngine.MSG_UPLOAD_FIRST [] [] None)) self [].
Proof.
  intros Hzero. unfold RAGEngine.ask_question, bind, get. cbn.
  by rewrite Hzero.
Qed.

End History.


(** ** Properties kept by every step of a method *)

Section Keeps.
Context {S : Type} (P : S → Prop).

Lemma keeps_ret {A} (a : A) : keeps P (ret a).
Proof. by intros s. Qed.

Lemma keeps_raise {A} (e : Exn) : keeps P (@raise S A e).
Proof. by intros s. Qed.

Lemma keeps_get : keeps P get.
Proof. by intros s. Qed.

Lemma keeps_log (c : Call) : keeps P (log c).
Proof. by intros s. Qed.

Lemma keeps_modify (f : S → S) : (∀ s, P s → P (f s)) → keeps P (modify f).
Proof. intros Hf s. apply Hf. Qed.

Lemma keeps_bind {A B} (m : M S A) (f : A → M S B) :
  keeps P m → (∀ a, keeps P (f a)) → keeps P (bind m f).
Proof.
  intros Hm Hf s Hs. unfold bind. specialize (Hm s Hs).
  destruct (m s) as [[e|a] s' cl]; simpl in *; [done|]. by apply Hf.
Qed.

Lemma keeps_catch {A} (m : M S A) (h : Exn → M S A) :
  keeps P m → (∀ e, keeps P (h e)) → keeps P (catch m h).
Proof.
  intros Hm Hh s Hs. unfold catch. specialize (Hm s Hs).
  destruct (m s) as [[e|a] s' cl]; simpl in *; [|done]. by apply Hh.
Qed.
End Keeps.

Lemma keeps_zoom {S T A} (P : S → Prop) (Q : T → Prop) (proj : S → T)
    (upd : T → S → S) (m : M T A) :
  (∀ s, P s → Q (proj s)) → (∀ t s, P s → Q t → P (upd t s)) →
  keeps Q m → keeps P (zoom proj upd m).
Proof. intros Hproj Hupd Hm s Hs. unfold zoom. simpl. auto. Qed.

(** One step through the structure of a method. *)
Ltac keeps_step :=
  first
    [ apply keeps_ret | apply keeps_raise | apply keeps_get | apply keeps_log
    | apply keeps_bind; [|intros ?]
    | apply keeps_catch; [|intros ?] ].


(** ** Session statistics *)

Section Statistics.
Context {Vec Dist : Type} (env : Env Vec Dist).
Implicit Types (self : RAGEngine.t Vec) (vs : VectorStore.t Vec).

Lemma not_reset_refl st : not_reset st st.
Proof. by repeat split. Qed.

Lemma keeps_on_store {A} (P : RAGEngine.t Vec → Prop)
    (m : M (VectorStore.t Vec) A) :
  (∀ vs self, P self → P (RAGEngine.set_vector_store vs self)) →
  keeps P (RAGEngine.on_store m).
Proof. intros Hset self Hself. unfold RAGEngine.on_store, zoom. simpl. auto. Qed.

Lemma keeps__generate_answer (P : RAGEngine.t Vec → Prop) q context conv :
  keeps P (RAGEngine._generate_answer env q context conv).
Proof.
  unfold RAGEngine._generate_answer. repeat keeps_step.
  destruct (api_generate _ _ _ _) as [status body [e|v]|kind msg].
  - destruct (negb _); keeps_step.
  - destruct (negb _); keeps_step.
  - destruct (is_ConnectionError _); [keeps_step|].
    destruct (is_Timeout _); keeps_step.
Qed.

(** Every operation but [clear_all] leaves the statistics unreset. *)
Lemma after_not_reset (op : RAGEngine.Op) self :
  match op with
  | RAGEngine.ClearAll now =>
      RAGEngine._session_stats (RAGEngine.after env op self)
      = RAGEngine.fresh_stats now
  | _ =>
      not_reset (RAGEngine._session_stats self)
                (RAGEngine._session_stats (RAGEngine.after env op self))
  end.
Proof.
  set (P := fun s : RAGEngine.t Vec =>
              not_reset (RAGEngine._session_stats self)
                        (RAGEngine._session_stats s)).
  assert (P self) as Hself by apply not_reset_refl.
  assert (∀ vs s, P s → P (RAGEngine.set_vector_store vs s)) as Hvs by done.
  assert (∀ h s, P s → P (RAGEngine.set_history h s)) as Hh by done.
  destruct op as [f|name|now q flt mem| |now]; simpl.
  - (* process_document *)
    cut (keeps P (RAGEngine.process_document env f));
      [by intros Hk; apply (Hk self)|].
    unfold RAGEngine.process_document. keeps_step.
    + destruct (upload_extracted f) as [e|[[text pm] ft]]; [keeps_step|].
      keeps_step; [keeps_step|].
      destruct (DocumentProcessor.smart_chunk_text _ _ _ _ _); [keeps_step|].
      keeps_step; [by apply keeps_on_store|].
      keeps_step; [|repeat keeps_step].
      apply keeps_modify. intros s (? & ? & ? & ?). unfold P, not_reset. simpl.
      split_and!; [lia|done..].
    + destruct (RAGEngine.is_ValueError _); keeps_step.
  - (* remove_document *)
    cut (keeps P (RAGEngine.remove_document name));
      [by intros Hk; apply (Hk self)|].
    by apply keeps_on_store.
  - (* ask_question *)
    cut (keeps P (RAGEngine.ask_question env now q flt mem));
      [by intros Hk; apply (Hk self)|].
    unfold RAGEngine.ask_question. keeps_step; [keeps_step|].
    destruct (_ =? _)%Z; [keeps_step|].
    keeps_step; [|keeps_step].
    apply keeps_bind; [by apply keeps_on_store|intros relevant_chunks].
    keeps_step.
    { apply keeps_modify. intros s (? & ? & ? & ?). unfold P, not_reset. simpl.
      split_and!; [done|lia|lia|done]. }
    destruct relevant_chunks as [|hit hits]; [repeat keeps_step|].
    keeps_step; [keeps_step|].
    keeps_step; [apply keeps__generate_answer|].
    keeps_step; [|keeps_step].
    intros s Hs. rewrite _add_to_history_run. simpl. by apply Hh.
  - (* clear_conversation *)
    apply not_reset_refl.
  - done.
Qed.

(** C9. [clear_conversation] empties the history and leaves every
    session statistic (documents processed, questions asked, chunks
    retrieved, session start) as it was; and of the operations on an
    engine only [clear_all] resets the statistics: after every other
    one no counter is lower and the session start is the same. *)
Theorem clear_conversation_keeps_statistics (op : RAGEngine.Op) self :
  let cleared := final (RAGEngine.clear_conversation self) in
  RAGEngine._conversation_history cleared = []
  ∧ RAGEngine._session_stats cleared = RAGEngine._session_stats self
  ∧ match op with
    | RAGEngine.ClearAll now =>
        RAGEngine._session_stats (RAGEngine.after env op self)
        = RAGEngine.fresh_stats now
    | _ =>
        not_reset (RAGEngine._session_stats self)
                  (RAGEngine._session_stats (RAGEngine.after env op self))
    end.
Proof. split_and!; [done..|apply after_not_reset]. Qed.

End Statistics.


(** ** Asking a question *)

Section Asking.
Context {Vec Dist : Type} (env : Env Vec Dist).
Implicit Types (self : RAGEngine.t Vec) (vs : VectorStore.t Vec).

(** [query] embeds the question, once, and leaves the store as it is. *)
Lemma query_run question k document_filter vs :
  VectorStore.query env question k document_filter vs
  = mkOutcome (result (VectorStore.query env question k document_filter vs))
      vs
      [PostEmbeddings (VectorStore.ollama_base_url vs)
                      (VectorStore.embedding_model vs) question].
Proof.
  unfold VectorStore.query, VectorStore._get_embedding, bind, get, log,
    ret, raise.
  cbn [result final calls app].
  destruct (api_embeddings _ _ _ _) as [status body [e|v]|kind msg];
    cbn [result final calls app]; [destruct (negb _); done| |done].
  destruct (negb _); cbn [result final calls app]; [done|].
  by destruct (Chroma.query env _ v _ _).
Qed.

(** The invariant of the store holds in every engine state reached
    through the public operations. *)
Lemma after_wf (op : RAGEngine.Op) self :
  wf (RAGEngine.vector_store self) →
  wf (RAGEngine.vector_store (RAGEngine.after env op self)).
Proof.
  set (P := fun s : RAGEngine.t Vec => wf (RAGEngine.vector_store s)).
  intros Hself. change (P self) in Hself.
  assert (∀ {A} (m : M (VectorStore.t Vec) A),
    keeps wf m → keeps P (RAGEngine.on_store m)) as Hstore.
  { intros A m Hm s Hs. apply Hm, Hs. }
  destruct op as [f|name|now q flt mem| |now]; simpl.
  - cut (keeps P (RAGEngine.process_document env f));
      [by intros Hk; apply (Hk self)|].
    unfold RAGEngine.process_document.
    apply keeps_catch; [|intros e; destruct (RAGEngine.is_ValueError _);
                         apply keeps_raise].
    destruct (upload_extracted f) as [e|[[text pm] ft]]; [apply keeps_raise|].
    apply keeps_bind; [apply keeps_get|intros s0].
    destruct (DocumentProcessor.smart_chunk_text _ _ _ _ _) as [|c cs] eqn:Hcs;
      [apply keeps_raise|].
    apply keeps_bind; [|intros _].
    + apply Hstore. intros vs Hvs. apply add_document_wf; [done|].
      intros c' Hc'. rewrite <- Hcs in Hc'.
      by eapply smart_chunk_text_document.
    + apply keeps_bind; [by apply keeps_modify|intros _].
      apply keeps_bind; [apply keeps_get|intros ?; apply keeps_ret].
  - apply (remove_document_wf name _ Hself).
  - cut (keeps P (RAGEngine.ask_question env now q flt mem));
      [by intros Hk; apply (Hk self)|].
    unfold RAGEngine.ask_question.
    apply keeps_bind; [apply keeps_get|intros s0].
    destruct (_ =? _)%Z; [apply keeps_ret|].
    apply keeps_catch; [|intros e; apply keeps_ret].
    apply keeps_bind; [|intros relevant_chunks].
    { apply Hstore. intros vs Hvs. by rewrite query_run. }
    apply keeps_bind; [by apply keeps_modify|intros _].
    destruct relevant_chunks as [|h hs].
    { apply keeps_bind; [apply keeps_get|intros ?; apply keeps_ret]. }
    apply keeps_bind; [apply keeps_get|intros s1].
    apply keeps_bind; [apply keeps__generate_answer|intros answer].
    apply keeps_bind; [|intros _; apply keeps_ret].
    intros s Hs. by rewrite _add_to_history_run.
  - done.
  - unfold P. simpl. destruct (RAGEngine.vector_store self). apply wf_empty.
Qed.

(** ** Runs of [bind] and [catch] *)

Lemma bind_raise {S A B} (m : M S A) (f : A → M S B) (s s' : S) (e : Exn)
    (cl : list Call) :
  m s = mkOutcome (inl e) s' cl → bind m f s = mkOutcome (inl e) s' cl.
Proof. intros Hrun. unfold bind. by rewrite Hrun. Qed.

Lemma catch_ok {S A} (m : M S A) (h : Exn → M S A) (s s' : S) (a : A)
    (cl : list Call) :
  m s = mkOutcome (inr a) s' cl → catch m h s = mkOutcome (inr a) s' cl.
Proof. intros Hrun. unfold catch. by rewrite Hrun. Qed.

Lemma catch_raise {S A} (m : M S A) (h : Exn → M S A) (s s' : S) (e : Exn)
    (cl : list Call) :
  m s = mkOutcome (inl e) s' cl →
  catch m h s = mkOutcome (result (h e s')) (final (h e s'))
                          (cl ++ calls (h e s')).
Proof. intros Hrun. unfold catch. by rewrite Hrun. Qed.

(** ** The runs of [ask_question] *)

Lemma _generate_answer_run q context conv self :
  RAGEngine._generate_answer env q context conv self
  = mkOutcome (result (RAGEngine._generate_answer env q context conv self))
      self
      [PostGenerate (Config.ollama_base_url (RAGEngine.config self))
                    (Config.llm_model (RAGEngine.config self))
                    (RAGEngine.build_prompt q context conv)].
Proof.
  unfold RAGEngine._generate_answer, bind, get, log, ret, raise.
  cbn [result final calls app].
  destruct (api_generate _ _ _ _) as [status body [e|v]|kind msg];
    cbn [result final calls app].
  - by destruct (negb _).
  - by destruct (negb _).
  - destruct (is_ConnectionError _); [done|]. by destruct (is_Timeout _).
Qed.

Lemma _generate_answer_timeout q context conv self kind msg :
  api_generate env (Config.ollama_base_url (RAGEngine.config self))
               (Config.llm_model (RAGEngine.config self))
               (RAGEngine.build_prompt q context conv)
  = Raises kind msg →
  is_ConnectionError kind = false → is_Timeout kind = true →
  result (RAGEngine._generate_answer env q context conv self)
  = inr RAGEngine.MSG_TIMED_OUT.
Proof.
  intros Hreply Hconn Htime.
  unfold RAGEngine._generate_answer, bind, get, log. cbn [result final calls].
  by rewrite Hreply, Hconn, Htime.
Qed.

(** What [ask_question] does on an engine that holds documents, by the
    outcome of the retrieval and of the generation. *)
Lemma ask_question_run now q document_filter use_memory self :
  VectorStore.document_count (RAGEngine.vector_store self) ≠ 0%Z →
  let emb := PostEmbeddings
               (VectorStore.ollama_base_url (RAGEngine.vector_store self))
               (VectorStore.embedding_model (RAGEngine.vector_store self)) q in
  RAGEngine.ask_question env now q document_filter use_memory self =
  match result (VectorStore.query env q
                  (Config.top_k_results (RAGEngine.config self))
                  document_filter (RAGEngine.vector_store self)) with
  | inl e => mkOutcome (inr (RAGEngine.ask_failed e)) self [emb]
  | inr [] =>
      mkOutcome
        (inr (mkAnswer RAGEngine.MSG_NOTHING_FOUND []
                       (RAGEngine.get_documents self) None))
        (counted 0 self) [emb]
  | inr (hit :: hits) =>
      let relevant_chunks := hit :: hits in
      let self1 := counted (length relevant_chunks) self in
      let conv :=
        if use_memory
           && Config.include_conversation_context (RAGEngine.config self)
        then RAGEngine._build_conversation_context self1 else "" in
      let context := RAGEngine.build_context relevant_chunks in
      let gen := PostGenerate
                   (Config.ollama_base_url (RAGEngine.config self))
                   (Config.llm_model (RAGEngine.config self))
                   (RAGEngine.build_prompt q context conv) in
      match result (RAGEngine._generate_answer env q context conv self1) with
      | inl e => mkOutcome (inr (RAGEngine.ask_failed e)) self1 [emb; gen]
      | inr answer =>
          let sources := RAGEngine.format_sources env relevant_chunks in
          mkOutcome
            (inr (mkAnswer answer sources
                           (RAGEngine.distinct_documents sources) None))
            (final (RAGEngine._add_to_history now q answer self1))
            [emb; gen]
      end
  end.
Proof.
  intros Hdocs. destruct self as [cfg vs h0 st]. cbn [RAGEngine.vector_store
    RAGEngine.config] in *. cbv zeta.
  unfold RAGEngine.ask_question.
  rewrite (bind_run get _ _ _ _ [] eq_refl).
  cbn [RAGEngine.vector_store RAGEngine.config].
  destruct (Z.eqb_spec (VectorStore.document_count vs) 0) as [|_]; [done|].
  cbn [result final calls app].
  set (self := RAGEngine.mk cfg vs h0 st).
  assert (RAGEngine.on_store
            (VectorStore.query env q (Config.top_k_results cfg) document_filter)
            self
          = mkOutcome (result (VectorStore.query env q
                                 (Config.top_k_results cfg) document_filter vs))
              self
              [PostEmbeddings (VectorStore.ollama_base_url vs)
                              (VectorStore.embedding_model vs) q]) as Hquery.
  { unfold RAGEngine.on_store, zoom. subst self.
    cbn [RAGEngine.vector_store]. by rewrite query_run. }
  destruct (result (VectorStore.query _ _ _ _ _)) as [e|[|hit hits]].
  - rewrite (catch_raise _ _ _ _ _ _ (bind_raise _ _ _ _ _ _ Hquery)). done.
  - erewrite catch_ok; cycle 1.
    { rewrite (bind_run _ _ _ _ _ _ Hquery). cbn [result final calls app].
      done. }
    done.
  - pose proof (_generate_answer_run q
        (RAGEngine.build_context (hit :: hits))
        (if use_memory && Config.include_conversation_context cfg
         then RAGEngine._build_conversation_context
                (counted (length (hit :: hits)) self)
         else "")
        (counted (length (hit :: hits)) self)) as Hgen.
    destruct (result (RAGEngine._generate_answer _ _ _ _ _))
      as [e|answer].
    + erewrite catch_raise; cycle 1.
      { rewrite (bind_run _ _ _ _ _ _ Hquery). cbn [result final calls app].
        rewrite (bind_run (modify _) _ _ _ _ [] eq_refl).
        cbn [result final calls app].
        rewrite (bind_run get _ _ _ _ [] eq_refl).
        cbn [result final calls app].
        rewrite (bind_raise _ _ _ _ _ _ Hgen). done. }
      done.
    + erewrite catch_ok; cycle 1.
      { rewrite (bind_run _ _ _ _ _ _ Hquery). cbn [result final calls app].
        rewrite (bind_run (modify _) _ _ _ _ [] eq_refl).
        cbn [result final calls app].
        rewrite (bind_run get _ _ _ _ [] eq_refl).
        cbn [result final calls app].
        rewrite (bind_run _ _ _ _ _ _ Hgen). cbn [result final calls app].
        unfold bind. rewrite _add_to_history_run. done. }
      by rewrite _add_to_history_run.
Qed.


(** ** A generation call that times out *)

(** C2 (amended). If [ask_question] made a generation call and that
    call timed out (a [Timeout] that is not a [ConnectionError]), then
    the generation backend was called exactly once: there is no retry.
    [ask_question] returns the fixed timed-out text as its answer with
    [error = None], and, as for any other answer, one complete entry is
    appended to the conversation history: the question with the
    timed-out text, followed by the usual eviction. *)
Theorem ask_question_generation_timeout now q document_filter use_memory self :
  let r := RAGEngine.ask_question env now q document_filter use_memory self in
  (∃ url model prompt kind msg,
     PostGenerate url model prompt ∈ calls r
     ∧ api_generate env url model prompt = Raises kind msg
     ∧ is_Timeout kind = true ∧ is_ConnectionError kind = false) →
  length (filter (fun c => is_generate c = true) (calls r)) = 1
  ∧ (∃ ans, result r = inr ans
            ∧ ans_answer ans = RAGEngine.MSG_TIMED_OUT
            ∧ ans_error ans = None)
  ∧ RAGEngine._conversation_history (final r)
    = history_with (Config.max_conversation_history (RAGEngine.config self))
        (RAGEngine._conversation_history self)
        (mkExchange q RAGEngine.MSG_TIMED_OUT now).
Proof.
  cbv zeta.
  destruct (decide (VectorStore.document_count (RAGEngine.vector_store self)
                    = 0%Z)) as [Hzero|Hdocs].
  { unfold RAGEngine.ask_question, bind, get. cbn. rewrite Hzero. cbn.
    by intros (? & ? & ? & ? & ? & ?%elem_of_nil & _). }
  rewrite (ask_question_run now q document_filter use_memory self Hdocs).
  cbv zeta.
  destruct (result (VectorStore.query _ _ _ _ _)) as [e|[|hit hits]];
    cbn [calls].
  - intros (? & ? & ? & ? & ? & Hin & _).
    by apply list_elem_of_singleton in Hin.
  - intros (? & ? & ? & ? & ? & Hin & _).
    by apply list_elem_of_singleton in Hin.
  - intros (url & model & prompt & kind & msg & Hin & Hreply & Htime & Hconn).
    assert (Hin' : PostGenerate url model prompt ∈
      [PostEmbeddings
         (VectorStore.ollama_base_url (RAGEngine.vector_store self))
         (VectorStore.embedding_model (RAGEngine.vector_store self)) q;
       PostGenerate (Config.ollama_base_url (RAGEngine.config self))
         (Config.llm_model (RAGEngine.config self))
         (RAGEngine.build_prompt q (RAGEngine.build_context (hit :: hits))
            (if use_memory
                && Config.include_conversation_context (RAGEngine.config self)
             then RAGEngine._build_conversation_context
                    (counted (length (hit :: hits)) self)
             else ""))]).
    { by destruct (result (RAGEngine._generate_answer _ _ _ _ _)). }
    clear Hin.
    apply elem_of_cons in Hin' as [[=]|Hin].
    apply list_elem_of_singleton in Hin as [= -> -> ->].
    rewrite (_generate_answer_timeout _ _ _ (counted _ self) _ _
               Hreply Hconn Htime).
    cbn [result final calls]. rewrite _add_to_history_run.
    cbn [final]. split_and!; [done|eauto|done].
Qed.

End Asking.

(* ===================================================================== *)
(** * The chunker: shape of the chunks *)
(* ===================================================================== *)

Section ChunkShape.
Import DocumentProcessor.

(** ** Stripping *)

Lemma rstrip_cons_nonspace (c : ascii) (s : string) :
  Py.isspace c = false → ∃ r, Py.rstrip (String c s) = String c r.
Proof.
  intros Hc. simpl. destruct (Py.rstrip s); [rewrite Hc|]; eauto.
Qed.

Lemma lstrip_nonspace (s : string) :
  Py.lstrip s = "" ∨ ∃ c r, Py.lstrip s = String c r ∧ Py.isspace c = false.
Proof.
  induction s as [|c s IH]; simpl; [by left|].
  destruct (Py.isspace c) eqn:Hc; [done|]. right. eauto.
Qed.

Lemma rstrip_idemp (s : string) : Py.rstrip (Py.rstrip s) = Py.rstrip s.
Proof.
  induction s as [|c s IH]; simpl; [done|].
  destruct (Py.rstrip s) as [|c' r] eqn:Hr.
  - destruct (Py.isspace c) eqn:Hc; simpl; [done|]. by rewrite Hc.
  - change (Py.rstrip (String c (String c' r)))
      with (match Py.rstrip (String c' r) with
            | "" => if Py.isspace c then "" else String c ""
            | r' => String c r'
            end).
    rewrite IH. done.
Qed.

Lemma strip_idemp (s : string) : Py.strip (Py.strip s) = Py.strip s.
Proof.
  unfold Py.strip.
  destruct (lstrip_nonspace s) as [->|(c & r & -> & Hc)]; [done|].
  destruct (rstrip_cons_nonspace c r Hc) as [r' Hr]. rewrite Hr.
  cbn [Py.lstrip]. rewrite Hc, <- Hr. apply rstrip_idemp.
Qed.

(** ** Every chunk is a flushed buffer *)

Lemma flush_stripped current page document c :
  c ∈ flush current page document →
  chunk_text c ≠ "" ∧ Py.strip (chunk_text c) = chunk_text c
  ∧ chunk_page c = page ∧ chunk_document c = document.
Proof.
  unfold flush. destruct (Py.truthy _) eqn:Htruthy; [|by intros ?%elem_of_nil].
  intros ->%list_elem_of_singleton. cbn [chunk_text chunk_page chunk_document].
  split_and!; [|apply strip_idemp|done..].
  intros Hempty. by rewrite Hempty in Htruthy.
Qed.

Lemma _split_long_paragraph_flushed paragraph page document S O c :
  c ∈ _split_long_paragraph paragraph page document S O →
  ∃ current, c ∈ flush current page document.
Proof.
  unfold _split_long_paragraph.
  assert (∀ sentences st,
    (∀ c, c ∈ st.1 → ∃ current, c ∈ flush current page document) →
    ∀ c, c ∈ (fold_left (split_step page document S O) sentences st).1 →
         ∃ current, c ∈ flush current page document) as Hloop.
  { induction sentences as [|s sentences IH]; intros [cs cur] Hst; [done|].
    simpl. apply IH. unfold split_step.
    destruct (_ <=? _)%Z; simpl; [done|].
    intros c' [?|?]%elem_of_app; eauto. }
  specialize (Hloop (Py.re_split_sentences false false paragraph) ([], "")).
  destruct (fold_left _ _ _) as [cs cur]. simpl in Hloop.
  intros [?|?]%elem_of_app; [|eauto].
  apply Hloop; [|done]. by intros ? ?%elem_of_nil.
Qed.

Lemma chunk_step_page_inv document paragraphs S O st para :
  para ∈ paragraphs →
  page_inv document paragraphs st →
  page_inv document paragraphs (chunk_step document S O st para).
Proof.
  intros Hpara [Hpg Hcpg Hcs]. unfold chunk_step.
  assert (announced_page paragraphs
            (match Py.match_page_marker para with
             | Some (digits, _) =>
                 (Py.int_of_digits 0 digits, Py.re_sub_page_markers 0 para)
             | None => (current_page st, para)
             end).1) as Hnew.
  { destruct (Py.match_page_marker para) as [[digits rest]|] eqn:Hm; [|done].
    right. by exists para, digits, rest. }
  destruct (match Py.match_page_marker para with
            | Some (digits, _) => _ | None => _ end) as [pg para'].
  cbn [fst] in Hnew.
  destruct (negb _); [by split|]. destruct (_ <=? _)%Z.
  { by destruct (Py.truthy _); split. }
  assert (∀ o c, (o, c) ∈ chunks st ++
      (pair ParagraphBuffer
         <$> flush (current_chunk st) (current_chunk_page st) document) →
      ∃ current page, announced_page paragraphs page
                      ∧ c ∈ flush current page document) as Hflushed.
  { intros o c [Hin|Hin]%elem_of_app; [by eapply Hcs|].
    apply list_elem_of_fmap in Hin as (c' & [= -> ->] & Hin). eauto. }
  destruct (_ >? _)%Z; split; cbn [current_page current_chunk_page chunks];
    try done.
  intros o c [Hin|Hin]%elem_of_app; [by eapply Hflushed|].
  apply list_elem_of_fmap in Hin as (c' & [= -> ->] & Hin).
  apply _split_long_paragraph_flushed in Hin as [current Hin]. eauto.
Qed.

Lemma smart_chunk_text_flushed text page_map document S O c :
  c ∈ smart_chunk_text text page_map document S O →
  ∃ current page,
    announced_page (Py.re_split_blank_lines false text) page
    ∧ c ∈ flush current page document.
Proof.
  unfold smart_chunk_text, smart_chunk_trace.
  intros ([o c'] & -> & Hin)%list_elem_of_fmap. simpl. revert Hin.
  destruct (_ || _); [by intros ?%elem_of_nil|].
  set (all := Py.re_split_blank_lines false text).
  assert (∀ paragraphs st,
    (∀ p, p ∈ paragraphs → p ∈ all) →
    page_inv document all st →
    page_inv document all
      (fold_left (chunk_step document S O) paragraphs st)) as Hloop.
  { induction paragraphs as [|p paragraphs IH]; intros st Hsub Hst; [done|].
    simpl. apply IH.
    - intros p' Hp'. apply Hsub. by right.
    - apply chunk_step_page_inv; [|done]. apply Hsub. by left. }
  specialize (Hloop all (mkLoop [] 1 "" 1) (fun _ H => H)).
  destruct Hloop as [Hpg Hcpg Hcs].
  { split; cbn; [by left|by left|by intros ? ? ?%elem_of_nil]. }
  intros [Hin|Hin]%elem_of_app; [by eapply Hcs|].
  apply list_elem_of_fmap in Hin as (c'' & [= -> ->] & Hin). eauto.
Qed.

(** X1. For every text, page map, document name, chunk size and
    overlap, every chunk that [smart_chunk_text] returns has a text that
    is not empty and has no whitespace at either end, carries the name
    of the document, and carries a page number that is 1 or the number
    written in the page marker that opens one of the paragraphs of the
    text. *)
Theorem smart_chunk_text_chunks text page_map document S O :
  Forall (fun c =>
            chunk_text c ≠ ""
            ∧ Py.strip (chunk_text c) = chunk_text c
            ∧ chunk_document c = document
            ∧ announced_page (Py.re_split_blank_lines false text)
                             (chunk_page c))
         (smart_chunk_text text page_map document S O).
Proof.
  apply Forall_forall. intros c Hc.
  apply smart_chunk_text_flushed in Hc as (current & page & Hpage & Hc).
  apply flush_stripped in Hc as (? & ? & -> & ?). done.
Qed.

(** ** A text of one short paragraph *)

Lemma re_split_blank_lines_single (text : string) :
  Py.contains (Py.NL +:+ Py.NL) text = false →
  Py.re_split_blank_lines false text = [text].
Proof.
  induction text as [|c s IH]; [done|].
  cbn [Py.contains]. intros [Hpre Hrest]%orb_false_elim.
  specialize (IH Hrest). cbn [Py.re_split_blank_lines].
  destruct (Py.is_newline c) eqn:Hc; [|by rewrite IH].
  destruct s as [|c' s']; [done|].
  destruct (Py.is_newline c') eqn:Hc'; [|by rewrite IH].
  exfalso. unfold Py.is_newline in Hc, Hc'.
  apply N.eqb_eq in Hc, Hc'.
  assert (c = ascii_of_N 10) as -> by by rewrite <- Hc, ascii_N_embedding.
  assert (c' = ascii_of_N 10) as -> by by rewrite <- Hc', ascii_N_embedding.
  destruct s'; by vm_compute in Hpre.
Qed.

(** X2. A text without a blank line that does not open with a page
    marker, whose stripped text is not empty and holds at most
    [chunk_size] characters, is returned as exactly one chunk: the
    stripped text, on page 1, for any overlap. *)
Theorem smart_chunk_text_single_paragraph text page_map document S O :
  Py.contains (Py.NL +:+ Py.NL) text = false →
  Py.match_page_marker text = None →
  Py.strip text ≠ "" →
  (Py.len (Py.strip text) <= S)%Z →
  smart_chunk_text text page_map document S O
  = [mkChunk (Py.strip text) 1 document].
Proof.
  intros Hblank Hmarker Hne Hfit.
  assert (Py.truthy (Py.strip text) = true) as Htruthy.
  { by destruct (Py.strip text). }
  assert (Py.truthy text = true) as Htext.
  { destruct text; [done|done]. }
  unfold smart_chunk_text, smart_chunk_trace.
  rewrite Htext, Htruthy. cbn [negb orb].
  rewrite re_split_blank_lines_single by done.
  cbn [fold_left]. unfold chunk_step. rewrite Hmarker.
  cbn [current_page current_chunk current_chunk_page chunks].
  rewrite Htruthy. cbn [negb].
  change (Py.len "") with 0%Z. cbn [Py.truthy andb].
  assert (flush (Py.strip text) 1 document
          = [mkChunk (Py.strip text) 1 document]) as Hflush.
  { unfold flush. by rewrite strip_idemp, Htruthy. }
  destruct (Z.leb_spec (0 + Py.len (Py.strip text) + 1) S).
  - cbn [current_page current_chunk current_chunk_page chunks app].
    by rewrite Hflush.
  - destruct (Z.gtb_spec (Py.len (Py.strip text)) S); [lia|].
    cbn [current_page current_chunk current_chunk_page chunks app].
    change (flush "" 1 document) with (@nil Chunk).
    cbn [fmap list_fmap app]. by rewrite Hflush.
Qed.

(** ** The overlap *)

Lemma take_drop_string (n : nat) (s : string) :
  Py.take n s +:+ Py.drop n s = s.
Proof.
  revert s. induction n as [|n IH]; intros [|c s]; simpl; try done.
  change (String c (Py.take n s +:+ Py.drop n s) = String c s). by rewrite IH.
Qed.

Lemma app_assoc_string (a b c : string) : (a +:+ b) +:+ c = a +:+ (b +:+ c).
Proof.
  induction a as [|x a IH]; [done|].
  change (String x ((a +:+ b) +:+ c) = String x (a +:+ (b +:+ c))).
  by rewrite IH.
Qed.

Lemma slice_from_suffix (i : Z) (s : string) :
  ∃ pre, s = pre +:+ Py.slice_from i s.
Proof.
  unfold Py.slice_from. eexists. symmetry. apply take_drop_string.
Qed.

Lemma find_space_spec (s : string) :
  (Py.find_space s < 0)%Z
  ∨ ∃ word rest,
      s = word +:+ String " " rest ∧ char_free " " word
      ∧ Py.find_space s = Py.len word.
Proof.
  induction s as [|c s IH]; [by left|]. cbn [Py.find_space].
  destruct (Ascii.eqb_spec c " ") as [->|Hc].
  { right. by exists "", s. }
  destruct IH as [Hneg|(word & rest & -> & Hfree & Hidx)].
  - left. destruct (Z.ltb_spec (Py.find_space s) 0); lia.
  - right. exists (String c word), rest. split_and!; [done|done|].
    rewrite Hidx. destruct (Z.ltb_spec (Py.len word) 0).
    + pose proof (len_nonneg word). lia.
    + unfold Py.len. cbn [String.length]. lia.
Qed.

Lemma drop_app_string (word rest : string) :
  Py.drop (String.length word) (word +:+ rest) = rest.
Proof. induction word as [|c word IH]; [by destruct rest|apply IH]. Qed.

(** X3. The overlap that [_get_overlap_text] cuts is a suffix of
    the text: the whole text when it holds at most [overlap_chars]
    characters, and at most [overlap_chars] characters for a positive
    [overlap_chars]. When the text is longer, the overlap is the tail
    [text[-overlap_chars:]], or that tail without its first word and
    the space after it: a first word that is not empty and holds no
    space. *)
Theorem _get_overlap_text_suffix (text : string) (overlap_chars : Z) :
  let overlap := _get_overlap_text text overlap_chars in
  let tail := Py.slice_from (- overlap_chars) text in
  (∃ before, text = before +:+ overlap)
  ∧ ((Py.len text <= overlap_chars)%Z → overlap = text)
  ∧ ((0 < overlap_chars)%Z → (Py.len overlap <= overlap_chars)%Z)
  ∧ ((overlap_chars < Py.len text)%Z →
     overlap = tail
     ∨ ∃ word, tail = word +:+ " " +:+ overlap
               ∧ word ≠ "" ∧ char_free " " word).
Proof.
  cbv zeta. split_and!.
  - unfold _get_overlap_text.
    destruct (_ <=? _)%Z; [by exists ""|].
    destruct (slice_from_suffix (- overlap_chars) text) as [pre Hpre].
    destruct (_ >? _)%Z; [|by exists pre].
    destruct (slice_from_suffix
                (Py.find_space (Py.slice_from (- overlap_chars) text) + 1)
                (Py.slice_from (- overlap_chars) text)) as [pre' Hpre'].
    exists (pre +:+ pre'). rewrite app_assoc_string, <- Hpre'. done.
  - apply get_overlap_text_short.
  - apply len_get_overlap_text.
  - intros Hlong. unfold _get_overlap_text.
    destruct (Z.leb_spec (Py.len text) overlap_chars); [lia|].
    set (tail := Py.slice_from (- overlap_chars) text).
    destruct (Z.gtb_spec (Py.find_space tail) 0) as [Hpos|]; [|by left].
    right.
    destruct (find_space_spec tail) as [?|(word & rest & Htail & Hfree & Hidx)];
      [lia|].
    exists word. rewrite Hidx in *. split_and!; [|by intros ->|done].
    rewrite Htail at 1. do 2 f_equal.
    unfold Py.slice_from.
    destruct (Z.ltb_spec (Py.len word + 1) 0);
      [pose proof (len_nonneg word); lia|].
    rewrite Htail.
    replace (Z.to_nat (Py.len word + 1)) with (String.length (word +:+ " "))
      by (rewrite length_app_string; unfold Py.len; simpl; lia).
    change (String " " rest) with (" " +:+ rest).
    by rewrite <- app_assoc_string, drop_app_string.
Qed.

(** ** Sentence splitting *)

Lemma longest_elem_of (pieces : list string) (p : string) :
  p ∈ pieces → (Py.len p <= longest pieces)%Z.
Proof.
  induction pieces as [|q pieces IH]; [by intros ?%elem_of_nil|].
  cbn [longest foldr]. fold (longest pieces).
  intros [->|Hin]%elem_of_cons; [lia|]. specialize (IH Hin). lia.
Qed.

Lemma longest_nonneg (pieces : list string) : (0 <= longest pieces)%Z.
Proof.
  destruct pieces as [|p pieces]; cbn [longest foldr]; [lia|].
  pose proof (len_nonneg p). lia.
Qed.

(** X4. Every chunk that [_split_long_paragraph] returns carries
    the page and the document it was given, and its text holds at most
    [max(chunk_size, max(0, overlap) + 1 + L)] characters, where [L] is
    the length of the longest sentence of the paragraph; so when no
    sentence is longer than [chunk_size - max(0, overlap) - 1], no chunk
    is longer than [chunk_size]. *)
Theorem _split_long_paragraph_length_bound (paragraph : string) (page : N)
    (document : string) (S O : Z) :
  let sentences := Py.re_split_sentences false false paragraph in
  let bound := Z.max S (Z.max 0 O + 1 + longest sentences) in
  Forall (fun c => (Py.len (chunk_text c) <= bound)%Z
                   ∧ chunk_page c = page ∧ chunk_document c = document)
         (_split_long_paragraph paragraph page document S O)
  ∧ ((longest sentences <= S - Z.max 0 O - 1)%Z →
     Forall (fun c => (Py.len (chunk_text c) <= S)%Z)
            (_split_long_paragraph paragraph page document S O)).
Proof.
  cbv zeta.
  set (sentences := Py.re_split_sentences false false paragraph).
  set (B := Z.max S (Z.max 0 O + 1 + longest sentences)).
  assert (Forall (fun c => (Py.len (chunk_text c) <= B)%Z
                           ∧ chunk_page c = page ∧ chunk_document c = document)
                 (_split_long_paragraph paragraph page document S O)) as Hall.
  { unfold _split_long_paragraph. fold sentences.
    assert (∀ ss st,
      (∀ s, s ∈ ss → s ∈ sentences) →
      (Py.len st.2 <= B)%Z →
      Forall (fun c => (Py.len (chunk_text c) <= B)%Z
                       ∧ chunk_page c = page ∧ chunk_document c = document)
             st.1 →
      let st' := fold_left (split_step page document S O) ss st in
      (Py.len st'.2 <= B)%Z
      ∧ Forall (fun c => (Py.len (chunk_text c) <= B)%Z
                         ∧ chunk_page c = page ∧ chunk_document c = document)
               st'.1) as Hloop.
    { induction ss as [|s ss IH]; intros [cs cur] Hsub Hcur Hcs; [done|].
      cbn [fold_left]. apply IH.
      - intros s' Hs'. apply Hsub. by right.
      - unfold split_step.
        pose proof (longest_elem_of sentences s (Hsub s (list_elem_of_here _ _)))
          as Hs.
        destruct (Z.leb_spec (Py.len cur + Py.len s + 1) S) as [Hfit|Hover];
          cbn [fst snd].
        + destruct (Py.truthy cur).
          * rewrite !len_app. change (Py.len " ") with 1%Z. lia.
          * lia.
        + destruct (Py.truthy cur); cbn [andb]; [|lia].
          destruct (Z.gtb_spec O 0) as [Hpos|]; [|lia].
          rewrite !len_app. change (Py.len " ") with 1%Z.
          pose proof (len_get_overlap_text cur O Hpos). lia.
      - unfold split_step.
        destruct (_ <=? _)%Z; cbn [fst snd]; [done|].
        apply Forall_app. split; [done|].
        apply Forall_forall. intros c Hc.
        pose proof (flush_text _ _ _ _ Hc).
        apply flush_stripped in Hc as (_ & _ & ? & ?). cbn [snd] in Hcur.
        split_and!; [lia|done..]. }
    specialize (Hloop sentences ([], "") (fun _ H => H)).
    cbv zeta in Hloop.
    destruct (fold_left _ _ _) as [cs cur]. cbn [fst snd] in Hloop.
    destruct Hloop as [Hcur Hcs].
    { change (Py.len "") with 0%Z. pose proof (longest_nonneg sentences). lia. }
    { constructor. }
    apply Forall_app. split; [done|].
    apply Forall_forall. intros c Hc.
    pose proof (flush_text _ _ _ _ Hc).
    apply flush_stripped in Hc as (_ & _ & ? & ?).
    split_and!; [lia|done..]. }
  split; [done|]. intros Hshort.
  eapply Forall_impl; [exact Hall|]. intros c (Hlen & _). subst B. lia.
Qed.

(** ** Page markers *)








End ChunkShape.

(* ===================================================================== *)
(** * Cleaning text and reading Word documents *)
(* ===================================================================== *)

Section CleanText.
Import DocumentProcessor.

Lemma char_free_lstrip c s : char_free c s → char_free c (Py.lstrip s).
Proof.
  induction s as [|c' s IH]; [done|]. intros [Hc Hs]. cbn [Py.lstrip].
  destruct (Py.isspace c'); [by apply IH|done].
Qed.

Lemma char_free_rstrip c s : char_free c s → char_free c (Py.rstrip s).
Proof.
  induction s as [|c' s IH]; [done|]. intros [Hc Hs]. cbn [Py.rstrip].
  specialize (IH Hs). destruct (Py.rstrip s); [|done].
  by destruct (Py.isspace c').
Qed.

Lemma char_free_re_sub_control c s :
  Py.is_control c = true → char_free c (Py.re_sub_control s).
Proof.
  intros Hc. induction s as [|c' s IH]; [done|]. cbn [Py.re_sub_control].
  destruct (Py.is_control c') eqn:Hc'; [done|]. split; [|done].
  intros ->. congruence.
Qed.

Lemma length_re_sub_control s :
  String.length (Py.re_sub_control s) ≤ String.length s.
Proof.
  induction s as [|c s IH]; [done|]. cbn [Py.re_sub_control].
  destruct (Py.is_control c); simpl; lia.
Qed.

Lemma length_re_sub_space_runs b s :
  String.length (Py.re_sub_space_runs b s) ≤ String.length s.
Proof.
  revert b. induction s as [|c s IH]; intros b; [done|].
  cbn [Py.re_sub_space_runs].
  destruct (Ascii.eqb c " "); [destruct b|]; simpl;
    match goal with |- context [Py.re_sub_space_runs ?b' s] =>
      specialize (IH b') end; lia.
Qed.

Lemma length_re_sub_newline_runs n s :
  String.length (Py.re_sub_newline_runs n s) ≤ String.length s.
Proof.
  revert n. induction s as [|c s IH]; intros n; [done|].
  cbn [Py.re_sub_newline_runs].
  destruct (Py.is_newline c); [destruct n as [|[|n]]|]; simpl;
    match goal with |- context [Py.re_sub_newline_runs ?n' s] =>
      specialize (IH n') end; lia.
Qed.

(** X6. The text that [clean_text] returns holds none of the
    control characters that it deletes, has no whitespace at either end,
    and is not longer than the text it was given. *)
Theorem clean_text_clean (text : string) :
  let cleaned := clean_text text in
  (∀ c, Py.is_control c = true → char_free c cleaned)
  ∧ Py.strip cleaned = cleaned
  ∧ (Py.len cleaned <= Py.len text)%Z.
Proof.
  cbv zeta. unfold clean_text. split_and!.
  - intros c Hc. unfold Py.strip.
    by apply char_free_rstrip, char_free_lstrip, char_free_re_sub_control.
  - apply strip_idemp.
  - etrans; [apply len_strip|]. unfold Py.len.
    pose proof (length_re_sub_control
                  (Py.re_sub_space_runs false (Py.re_sub_newline_runs 0 text))).
    pose proof (length_re_sub_space_runs false
                  (Py.re_sub_newline_runs 0 text)).
    pose proof (length_re_sub_newline_runs 0 text). lia.
Qed.

End CleanText.

Section WordDocuments.

Lemma chars_app (a b : list string) : chars (a ++ b) = (chars a + chars b)%Z.
Proof. induction a as [|p a IH]; simpl; [done|]. unfold chars in *. simpl. lia. Qed.

Lemma chars_nonneg (a : list string) : (0 <= chars a)%Z.
Proof.
  induction a as [|p a IH]; [done|]. unfold chars in *. simpl.
  pose proof (len_nonneg p). lia.
Qed.

Lemma close_page_run (st : Docx.Loop) (runs : list (list string)) :
  Docx.current_page st = N.of_nat (S (length runs)) →
  (∀ k, Docx.page_map st !! k = pages_of runs k) →
  Docx.text_parts st = imap page_part runs →
  let closed := Docx.close_page st in
  Docx.text_parts closed
  = imap page_part (runs ++ [Docx.current_page_text st])
  ∧ ∀ k, Docx.page_map closed !! k
         = pages_of (runs ++ [Docx.current_page_text st]) k.
Proof.
  intros Hpage Hmap Hparts. cbv zeta.
  unfold Docx.close_page. cbn [Docx.text_parts Docx.page_map]. split.
  - rewrite imap_app, Hparts. cbn [imap]. rewrite Nat.add_0_r.
    unfold page_part, page_text. by rewrite Hpage.
  - intros k. rewrite Hpage. unfold pages_of.
    destruct (decide (k = N.of_nat (S (length runs)))) as [->|Hk].
    + rewrite lookup_insert_eq.
      destruct (N.eqb_spec (N.of_nat (S (length runs))) 0); [lia|].
      replace (N.to_nat (N.of_nat (S (length runs))) - 1) with (length runs)
        by lia.
      by rewrite list_lookup_middle.
    + rewrite lookup_insert_ne by done. rewrite Hmap. unfold pages_of.
      destruct (N.eqb_spec k 0); [done|].
      destruct (decide (N.to_nat k - 1 < length runs)) as [Hlt|Hge].
      * by rewrite lookup_app_l.
      * rewrite !(lookup_ge_None_2); [done|..].
        -- rewrite length_app. simpl. lia.
        -- lia.
Qed.

Lemma page_step_paged st done runs para :
  paged st done runs →
  ∃ runs', paged (Docx.page_step st para) (done ++ [para]) runs'.
Proof.
  intros [Hdone Hruns Hpage Hchars Hopen Hmap Hparts].
  unfold Docx.page_step. cbn [Docx.current_chars Docx.page_map Docx.text_parts
    Docx.current_page Docx.current_page_text].
  assert (chars (Docx.current_page_text st ++ [para])
          = (Docx.current_chars st + Py.len para)%Z) as Hsum.
  { rewrite chars_app, Hchars. unfold chars. simpl. lia. }
  destruct (Z.geb_spec (Docx.current_chars st + Py.len para) 3000)
    as [Hfull|Hroom].
  - exists (runs ++ [Docx.current_page_text st ++ [para]]).
    destruct (close_page_run
                (Docx.mkLoop (Docx.page_map st) (Docx.text_parts st)
                   (Docx.current_page st)
                   (Docx.current_chars st + Py.len para)
                   (Docx.current_page_text st ++ [para]))
                runs Hpage Hmap Hparts) as [Hparts' Hmap'].
    split; cbn [Docx.current_chars Docx.page_map Docx.text_parts
                Docx.current_page Docx.current_page_text]; try done.
    + rewrite concat_app. simpl. rewrite !app_nil_r, <- Hdone.
      by rewrite app_assoc.
    + apply Forall_app. split; [done|]. apply Forall_singleton.
      split_and!; [by destruct (Docx.current_page_text st)|lia|].
      intros front last [<- _]%app_inj_tail. lia.
    + rewrite Hpage, length_app. simpl. lia.
  - exists runs. split; cbn [Docx.current_chars Docx.page_map Docx.text_parts
                Docx.current_page Docx.current_page_text]; try done.
    + by rewrite app_assoc, Hdone.
    + lia.
Qed.

Lemma fold_page_step_paged paragraphs st done runs :
  paged st done runs →
  ∃ runs', paged (fold_left Docx.page_step paragraphs st) (done ++ paragraphs)
                 runs'.
Proof.
  revert st done runs.
  induction paragraphs as [|para paragraphs IH]; intros st done runs Hst.
  { exists runs. by rewrite app_nil_r. }
  destruct (page_step_paged st done runs para Hst) as [runs' Hst'].
  destruct (IH _ _ _ Hst') as [runs'' Hfinal].
  exists runs''. cbn [fold_left]. by rewrite <- app_assoc in Hfinal.
Qed.

Lemma kept_paragraphs_stripped (texts : list string) :
  Forall (fun p => p ≠ "" ∧ Py.strip p = p) (Docx.kept_paragraphs texts).
Proof.
  apply Forall_forall. intros p [Htruthy Hin]%list_elem_of_filter.
  apply list_elem_of_fmap in Hin as (t & -> & _).
  split; [|apply strip_idemp]. intros Hempty. by rewrite Hempty in Htruthy.
Qed.

(** X7. [extract_text_from_docx_file] on a document that
    [python-docx] could read: the paragraphs kept are stripped and not
    empty; when none is kept it raises a [ValueError]; otherwise the
    kept paragraphs are cut, in order and without loss, into pages
    numbered from 1. No page is empty, a page is closed by the
    paragraph that brings it to 3000 characters and not before, so
    every page but the last holds at least 3000 characters; the page
    map holds exactly these pages, and the text is the pages, each
    under its marker, joined by newlines. *)
Theorem extract_text_from_docx_file_pages (texts : list string) :
  let paragraphs := Docx.kept_paragraphs texts in
  Forall (fun p => p ≠ "" ∧ Py.strip p = p) paragraphs
  ∧ match Docx.extract_text_from_docx_file (DocxParagraphs texts) with
    | inl e => exn_class e = ValueError ∧ paragraphs = []
    | inr (text, page_map) =>
        ∃ runs : list (list string),
          runs ≠ [] ∧ concat runs = paragraphs
          ∧ Forall (fun run =>
                      run ≠ []
                      ∧ ∀ front last, run = front ++ [last] →
                                      (chars front < 3000)%Z) runs
          ∧ (∀ i run, runs !! i = Some run → S i < length runs →
                      (3000 <= chars run)%Z)
          ∧ (∀ k, page_map !! k = pages_of runs k)
          ∧ text = Py.join Py.NL (imap page_part runs)
    end.
Proof.
  cbv zeta. split; [apply kept_paragraphs_stripped|].
  unfold Docx.extract_text_from_docx_file.
  destruct (Docx.kept_paragraphs texts) as [|p ps] eqn:Hkept; [done|].
  set (paragraphs := p :: ps). unfold Docx.paginate.
  destruct (fold_page_step_paged paragraphs (Docx.mkLoop ∅ [] 1 0 []) [] [])
    as [runs Hst].
  { split; cbn; try done.
    intros k. unfold pages_of. by destruct (k =? 0)%N. }
  destruct Hst as [Hdone Hruns Hpage Hchars Hopen Hmap Hparts].
  cbn [app] in Hdone.
  set (st := fold_left Docx.page_step paragraphs _) in *.
  destruct (Docx.current_page_text st) as [|q qs] eqn:Hcpt.
  - exists runs. rewrite app_nil_r in Hdone.
    split_and!; [by intros ->|done| | |done|by rewrite Hparts].
    + eapply Forall_impl; [done|]. by intros run (? & _ & ?).
    + intros i run Hrun _.
      by destruct (proj1 (Forall_forall _ _) Hruns run
                     (list_elem_of_lookup_2 _ _ _ Hrun)) as (_ & ? & _).
  - destruct (close_page_run st runs Hpage Hmap Hparts) as [Hparts' Hmap'].
    rewrite Hcpt in Hparts', Hmap'.
    exists (runs ++ [q :: qs]).
    split_and!.
    + by destruct runs.
    + rewrite concat_app. simpl. by rewrite app_nil_r.
    + apply Forall_app. split.
      * eapply Forall_impl; [done|]. by intros run (? & _ & ?).
      * apply Forall_singleton. split; [done|].
        intros front last Hrun. rewrite Hrun, chars_app in Hopen.
        pose proof (chars_nonneg [last]). lia.
    + intros i run Hrun Hlt. rewrite length_app in Hlt. simpl in Hlt.
      rewrite lookup_app_l in Hrun by lia.
      by destruct (proj1 (Forall_forall _ _) Hruns run
                     (list_elem_of_lookup_2 _ _ _ Hrun)) as (_ & ? & _).
    + done.
    + by rewrite Hparts'.
Qed.

End WordDocuments.

(* ===================================================================== *)
(** * The vector store: ids, counts, calls and results *)
(* ===================================================================== *)

Section StoreMore.
Context {Vec Dist : Type} (env : Env Vec Dist).
Implicit Types (vs : VectorStore.t Vec) (name : string) (chunks : list Chunk).

(** X8. Chunk ids are unique: two ids are equal exactly when they
    were made from the same document name and the same position. *)
Theorem chunk_id_unique (n n' : string) (i j : nat) :
  VectorStore.chunk_id n i = VectorStore.chunk_id n' j ↔ n = n' ∧ i = j.
Proof.
  split; [apply chunk_id_inj|]. by intros [-> ->].
Qed.

(** X9. [remove_document] returns [True] exactly when the name is
    registered, and leaves the store as it is when it is not; after it,
    the name is not registered, so a second [remove_document] of the
    same name returns [False] and changes nothing. Neither call reaches
    the backend. *)
Theorem remove_document_twice name vs :
  let first := VectorStore.remove_document name vs in
  let second := VectorStore.remove_document name (final first) in
  (result first = inr true ↔ is_Some (VectorStore._documents vs !! name))
  ∧ (VectorStore._documents vs !! name = None → final first = vs)
  ∧ VectorStore._documents (final first) !! name = None
  ∧ result second = inr false
  ∧ final second = final first
  ∧ calls first = [] ∧ calls second = [].
Proof.
  cbv zeta. rewrite !remove_document_run. cbn [result final calls].
  assert (VectorStore._documents (removed name vs) !! name = None) as Hgone.
  { rewrite removed_documents. apply lookup_delete_eq. }
  split_and!; try done.
  - split.
    + intros [= Hb]. by apply bool_decide_eq_true in Hb.
    + intros Hreg. by rewrite bool_decide_eq_true_2.
  - apply removed_unregistered.
  - rewrite bool_decide_eq_false_2; [done|]. rewrite Hgone. by intros [? ?].
  - by apply removed_unregistered.
Qed.

(** ** The registry accounts for every chunk *)

Lemma registered_chunks_removed name vs info :
  VectorStore._documents vs !! name = Some info →
  registered_chunks vs = chunk_count info + registered_chunks (removed name vs).
Proof.
  intros Hreg. unfold registered_chunks. rewrite removed_documents.
  rewrite <- (insert_delete_id (VectorStore._documents vs) name info) at 1
    by done.
  rewrite map_fold_insert_L; [done| |apply lookup_delete_eq].
  intros ? ? ? ? ? _ _ _. lia.
Qed.

Lemma wf_chunk_count_aux (n : nat) : ∀ vs,
  size (VectorStore._documents vs) = n → wf vs →
  size (VectorStore.collection vs) = registered_chunks vs.
Proof.
  induction n as [|n IH]; intros vs Hsize Hwf.
  - apply map_size_empty_inv in Hsize.
    unfold registered_chunks. rewrite Hsize, map_fold_empty.
    apply map_size_empty_iff, map_empty. intros id.
    destruct (VectorStore.collection vs !! id) as [e|] eqn:He; [|done].
    destruct (wf_owned _ Hwf _ _ He) as (info & i & Hreg & _).
    by rewrite Hsize, lookup_empty in Hreg.
  - destruct (map_choose (VectorStore._documents vs)) as (name & info & Hreg).
    { intros Hempty. by rewrite Hempty, map_size_empty in Hsize. }
    destruct (removed_counts name vs info Hwf Hreg) as [Hdocs Hchunks].
    unfold VectorStore.document_count, VectorStore.chunk_count, Chroma.count
      in Hdocs, Hchunks.
    rewrite (registered_chunks_removed name vs info Hreg).
    rewrite <- (IH (removed name vs)); [lia|lia|by apply removed_wf].
Qed.

(** X10. In a store that satisfies the invariant, [chunk_count]
    (the size of the index) is the sum of the [chunk_count] entries of
    the registry, and [document_count] is the number of names that
    [get_documents] lists. *)
Theorem chunk_count_registered vs :
  wf vs →
  VectorStore.chunk_count vs = Z.of_nat (registered_chunks vs)
  ∧ VectorStore.document_count vs
    = Z.of_nat (length (VectorStore.get_documents vs)).
Proof.
  intros Hwf. split.
  - unfold VectorStore.chunk_count, Chroma.count.
    by rewrite (wf_chunk_count_aux _ vs eq_refl Hwf).
  - unfold VectorStore.document_count, VectorStore.get_documents.
    by rewrite length_fmap, length_map_to_list.
Qed.

(** ** The embedding calls of an upload *)

Lemma _get_embedding_calls text vs :
  calls (VectorStore._get_embedding env text vs)
  = [PostEmbeddings (VectorStore.ollama_base_url vs)
                    (VectorStore.embedding_model vs) text].
Proof.
  unfold VectorStore._get_embedding, bind, get, log. simpl.
  destruct (api_embeddings _ _ _ _) as [status body [e|v]|kind msg]; simpl;
    [destruct (negb _); done..|done].
Qed.

Lemma _get_embedding_run text vs :
  VectorStore._get_embedding env text vs
  = mkOutcome (result (VectorStore._get_embedding env text vs)) vs
      [PostEmbeddings (VectorStore.ollama_base_url vs)
                      (VectorStore.embedding_model vs) text].
Proof.
  pose proof (_get_embedding_final env text vs).
  pose proof (_get_embedding_calls text vs).
  destruct (VectorStore._get_embedding env text vs); simpl in *. congruence.
Qed.

Lemma _get_embeddings_batch_calls texts vs :
  let sent := calls (VectorStore._get_embeddings_batch env texts vs) in
  let all := PostEmbeddings (VectorStore.ollama_base_url vs)
                            (VectorStore.embedding_model vs) <$> texts in
  match result (VectorStore._get_embeddings_batch env texts vs) with
  | inl _ => sent `prefix_of` all ∧ sent ≠ []
  | inr _ => sent = all
  end.
Proof.
  cbv zeta. unfold VectorStore._get_embeddings_batch.
  induction texts as [|text texts IH]; [done|].
  cbn [for_each fmap list_fmap].
  pose proof (_get_embedding_run text vs) as Hrun.
  destruct (result (VectorStore._get_embedding env text vs)) as [e|v].
  - rewrite (bind_raise _ _ _ _ _ _ Hrun). cbn [result calls].
    split; [|done]. apply prefix_cons, prefix_nil.
  - rewrite (bind_run _ _ _ _ _ _ Hrun). cbn [result calls].
    pose proof (_get_embeddings_batch_final env texts vs) as Hfin.
    unfold VectorStore._get_embeddings_batch in Hfin.
    unfold bind.
    destruct (for_each _ texts vs) as [[e|vs'] s cl'];
      cbn [result final calls app] in *.
    + destruct IH as [IH _]. split; [|done]. by apply prefix_cons.
    + rewrite app_nil_r. by f_equal.
Qed.

Lemma add_document_log name chunks vs :
  let r := VectorStore.add_document env name chunks vs in
  let all := PostEmbeddings (VectorStore.ollama_base_url vs)
                            (VectorStore.embedding_model vs)
             <$> (chunk_text <$> chunks) in
  match result r with
  | inl _ => calls r `prefix_of` all ∧ calls r ≠ []
  | inr _ => calls r = all
  end.
Proof.
  cbv zeta. destruct chunks as [|c chunks]; [done|].
  set (cs := c :: chunks).
  unfold VectorStore.add_document. fold cs.
  change (match cs with [] => _ | _ :: _ => ?k end) with k.
  clearbody cs.
  assert (Hfirst : ∃ b,
    (if bool_decide (is_Some (VectorStore._documents vs !! name))
     then VectorStore.remove_document name else ret false) vs
    = mkOutcome (inr b) (removed name vs) []).
  { case_bool_decide as Hreg.
    - rewrite remove_document_run. eauto.
    - exists false. unfold removed.
      destruct (VectorStore._documents vs !! name); [|done].
      destruct Hreg; eauto. }
  destruct Hfirst as [b Hfirst].
  pose proof (_get_embeddings_batch_calls (chunk_text <$> cs) (removed name vs))
    as Hcalls.
  pose proof (_get_embeddings_batch_final env (chunk_text <$> cs)
                (removed name vs)) as Hfin.
  assert (VectorStore.ollama_base_url (removed name vs)
          = VectorStore.ollama_base_url vs
          ∧ VectorStore.embedding_model (removed name vs)
            = VectorStore.embedding_model vs) as [Hurl Hmodel].
  { unfold removed. by destruct (VectorStore._documents vs !! name). }
  rewrite Hurl, Hmodel in Hcalls. cbv zeta in Hcalls.
  unfold bind, get. simpl. rewrite Hfirst. simpl.
  destruct (VectorStore._get_embeddings_batch env (chunk_text <$> cs)
              (removed name vs)) as [[e|embeddings] s cl];
    simpl in *; subst s.
  - done.
  - rewrite !app_nil_r. by subst cl.
Qed.

(** X11. [add_document] calls the embedding endpoint once per
    chunk, in the order of the chunks, with the text of the chunk, and
    stops at the first call that fails: its calls are the embedding
    calls for a prefix of the chunks, never a generation call. When it
    returns, it returns the number of chunks and made one call for each;
    when it raises, it made at least one call. *)
Theorem add_document_calls name chunks vs :
  let r := VectorStore.add_document env name chunks vs in
  let sent := length (calls r) in
  sent ≤ length chunks
  ∧ calls r = PostEmbeddings (VectorStore.ollama_base_url vs)
                             (VectorStore.embedding_model vs)
              <$> take sent (chunk_text <$> chunks)
  ∧ Forall (fun c => is_generate c = false) (calls r)
  ∧ match result r with
    | inl _ => 1 ≤ sent
    | inr n => n = length chunks ∧ sent = length chunks
    end.
Proof.
  cbv zeta.
  pose proof (add_document_log name chunks vs) as Hlog. cbv zeta in Hlog.
  assert (calls (VectorStore.add_document env name chunks vs)
          `prefix_of` PostEmbeddings (VectorStore.ollama_base_url vs)
                        (VectorStore.embedding_model vs)
                      <$> (chunk_text <$> chunks)) as Hpre.
  { destruct (result _); [by destruct Hlog|by rewrite Hlog]. }
  assert (∀ n, result (VectorStore.add_document env name chunks vs) = inr n →
               n = length chunks) as Hn.
  { intros n. destruct chunks as [|c cs]; [by intros [= <-]|].
    pose proof (add_document_run env name (c :: cs) vs) as Hrun.
    cbv zeta in Hrun. specialize (Hrun ltac:(done)).
    destruct (result (VectorStore._get_embeddings_batch _ _ _));
      destruct Hrun as [-> _]; [done|by intros [= <-]]. }
  split_and!.
  - apply prefix_length in Hpre. by rewrite !length_fmap in Hpre.
  - destruct Hpre as [rest Hall].
    rewrite fmap_take, Hall. by rewrite take_app_length.
  - destruct Hpre as [rest Hall].
    assert (Forall (fun c => is_generate c = false)
              (PostEmbeddings (VectorStore.ollama_base_url vs)
                 (VectorStore.embedding_model vs)
               <$> (chunk_text <$> chunks))) as Hemb.
    { apply Forall_fmap, Forall_forall. by intros. }
    rewrite Hall in Hemb. by apply Forall_app in Hemb as [? _].
  - destruct (result _) as [e|n] eqn:Hres.
    + destruct Hlog as [_ Hne].
      destruct (calls _); [done|simpl; lia].
    + split; [by apply Hn|]. by rewrite Hlog, !length_fmap.
Qed.

(** ** Where the results of a query come from *)

Lemma chroma_query_elem c (q : Vec) n w results e d :
  Chroma.query env c q n w = inr results → (e, d) ∈ results →
  (∃ id, c !! id = Some e) ∧ Chroma.passes w e = true
  ∧ d = distance_of env q (embedding e).
Proof.
  unfold Chroma.query. destruct (n <=? 0)%Z; [done|]. intros [= <-] Hin.
  apply elem_of_take in Hin as (i & Hin%list_elem_of_lookup_2 & _).
  rewrite merge_sort_Permutation in Hin.
  apply list_elem_of_fmap in Hin as (e' & [= -> ->] & Hin).
  apply list_elem_of_filter in Hin as [Hpass Hin].
  apply list_elem_of_fmap in Hin as ([id e''] & -> & Hin).
  apply elem_of_map_to_list in Hin. eauto.
Qed.

Lemma query_found question k document_filter vs hits :
  result (VectorStore.query env question k document_filter vs) = inr hits →
  ∃ v n w results,
    result (VectorStore._get_embedding env question vs) = inr v
    ∧ Chroma.query env (VectorStore.collection vs) v n w = inr results
    ∧ w = match document_filter with
          | Some d => if Py.truthy d then Some d else None
          | None => None
          end
    ∧ hits = (fun '(e, d) =>
                mkHit (entry_text e) (metadata e) d
                      (md_page (metadata e)) (md_document (metadata e)))
             <$> results.
Proof.
  unfold VectorStore.query.
  pose proof (_get_embedding_final env question vs) as Hfin.
  unfold bind at 1.
  destruct (VectorStore._get_embedding env question vs) as [[e0|v] s cl];
    cbn [result final calls] in *; [done|]. subst s.
  unfold bind, get. cbn [result final calls].
  destruct (Chroma.query env _ v _ _) as [e0|results] eqn:Hq;
    cbn [result]; [done|].
  intros [= <-]. by eexists v, _, _, results.
Qed.

(** X12. Every result that [query] returns is a record of the
    index: its content, metadata, page and document are those of the
    record, its distance is the distance between the embedding of the
    question and the embedding of the record, and under a document
    filter that is not empty its document is the one asked for. *)
Theorem query_hits question k document_filter vs hits hit :
  result (VectorStore.query env question k document_filter vs) = inr hits →
  hit ∈ hits →
  ∃ id e v,
    VectorStore.collection vs !! id = Some e
    ∧ result (VectorStore._get_embedding env question vs) = inr v
    ∧ hit = mkHit (entry_text e) (metadata e)
                  (distance_of env v (embedding e))
                  (md_page (metadata e)) (md_document (metadata e))
    ∧ (∀ d, document_filter = Some d → d ≠ "" → hit_document hit = d).
Proof.
  unfold VectorStore.query.
  pose proof (_get_embedding_final env question vs) as Hfin.
  unfold bind at 1.
  destruct (VectorStore._get_embedding env question vs) as [[e0|v] s cl];
    cbn [result final calls] in *; [done|]. subst s.
  unfold bind, get. cbn [result final calls].
  destruct (Chroma.query env _ v _ _) as [e0|results] eqn:Hq;
    cbn [result]; [done|].
  intros [= <-] Hin.
  apply list_elem_of_fmap in Hin as ([e d] & -> & Hin).
  destruct (chroma_query_elem _ _ _ _ _ _ _ Hq Hin) as ((id & He) & Hpass & ->).
  exists id, e, v. split_and!; [done..|].
  intros d' -> Hne. cbn [hit_document].
  destruct d' as [|c d']; [done|]. cbn [Py.truthy] in Hpass.
  unfold Chroma.passes in Hpass. by apply bool_decide_eq_true in Hpass.
Qed.

Lemma query_hit_registered question k document_filter vs hits hit :
  wf vs →
  result (VectorStore.query env question k document_filter vs) = inr hits →
  hit ∈ hits →
  hit_document hit ∈ VectorStore.get_documents vs.
Proof.
  intros Hwf (v & n & w & results & _ & Hq & _ & ->)%query_found Hin.
  apply list_elem_of_fmap in Hin as ([e d] & -> & Hin).
  destruct (chroma_query_elem _ _ _ _ _ _ _ Hq Hin) as ((id & He) & _).
  destruct (wf_owned _ Hwf _ _ He) as (info & i & Hreg & _).
  cbn [hit_document]. unfold VectorStore.get_documents.
  apply list_elem_of_fmap. exists (md_document (metadata e), info).
  split; [done|]. by apply elem_of_map_to_list.
Qed.

End StoreMore.

(* ===================================================================== *)
(** * The engine: answers, sources and statistics *)
(* ===================================================================== *)

Section AskMore.
Context {Vec Dist : Type} (env : Env Vec Dist).
Implicit Types (self : RAGEngine.t Vec) (vs : VectorStore.t Vec).

Lemma ask_question_no_documents now q document_filter use_memory self :
  VectorStore.document_count (RAGEngine.vector_store self) = 0%Z →
  RAGEngine.ask_question env now q document_filter use_memory self
  = mkOutcome (inr (mkAnswer RAGEngine.MSG_UPLOAD_FIRST [] [] None)) self [].
Proof.
  intros Hzero. unfold RAGEngine.ask_question.
  rewrite (bind_run get _ _ _ _ [] eq_refl). rewrite Hzero. done.
Qed.

Lemma ask_failed_error (e : Exn) :
  ans_error (@RAGEngine.ask_failed Dist e) = Some "connection_error"
  ∨ ans_error (@RAGEngine.ask_failed Dist e) = Some "unknown_error".
Proof. unfold RAGEngine.ask_failed. destruct (Py.contains _ _); auto. Qed.

Lemma ask_failed_sources (e : Exn) :
  ans_sources (@RAGEngine.ask_failed Dist e) = []
  ∧ ans_documents_searched (@RAGEngine.ask_failed Dist e) = [].
Proof. unfold RAGEngine.ask_failed. by destruct (Py.contains _ _). Qed.

Lemma ask_question_result now q document_filter use_memory self :
  ∃ ans,
    result (RAGEngine.ask_question env now q document_filter use_memory self)
    = inr ans
    ∧ (ans_error ans = None ∨ ∃ e, ans = RAGEngine.ask_failed e).
Proof.
  destruct (decide (VectorStore.document_count (RAGEngine.vector_store self)
                    = 0%Z)) as [Hzero|Hdocs].
  { rewrite ask_question_no_documents by done. eexists. split; [done|].
    by left. }
  rewrite (ask_question_run env now q document_filter use_memory self Hdocs).
  cbv zeta.
  destruct (result (VectorStore.query _ _ _ _ _)) as [e|[|hit hits]].
  - eexists. split; [done|]. eauto.
  - eexists. split; [done|]. by left.
  - destruct (result (RAGEngine._generate_answer _ _ _ _ _)) as [e|answer].
    + eexists. split; [done|]. eauto.
    + eexists. split; [done|]. by left.
Qed.

(** X13. [ask_question] never raises: it returns an answer, and
    the [error] of the answer is [None], or [connection_error] with the
    fixed cannot-connect text, or [unknown_error] with a text that
    opens with the error prefix; an answer with an error has no sources
    and no searched documents. *)
Theorem ask_question_never_raises now q document_filter use_memory self :
  ∃ ans,
    result (RAGEngine.ask_question env now q document_filter use_memory self)
    = inr ans
    ∧ (ans_error ans = None
       ∨ (ans_error ans = Some "connection_error"
          ∧ ans_answer ans = RAGEngine.MSG_CANNOT_CONNECT
          ∧ ans_sources ans = [] ∧ ans_documents_searched ans = [])
       ∨ (ans_error ans = Some "unknown_error"
          ∧ (∃ msg, ans_answer ans = RAGEngine.MSG_ERROR_PREFIX +:+ msg)
          ∧ ans_sources ans = [] ∧ ans_documents_searched ans = [])).
Proof.
  destruct (ask_question_result now q document_filter use_memory self)
    as (ans & Hres & [Hnone|[e ->]]).
  { exists ans. split; [done|]. by left. }
  eexists. split; [done|]. unfold RAGEngine.ask_failed.
  destruct (Py.contains _ _); [right; left|right; right]; [done|].
  split_and!; [done|by eexists|done..].
Qed.

(** X14. [ask_question] leaves the vector store and the
    configuration as they are; the backend calls it makes are a prefix
    of: one embedding call for the question, then one generation call;
    and the conversation history is left as it is or extended by one
    exchange for this question, followed by the usual eviction. *)
Theorem ask_question_frame now q document_filter use_memory self :
  let r := RAGEngine.ask_question env now q document_filter use_memory self in
  RAGEngine.vector_store (final r) = RAGEngine.vector_store self
  ∧ RAGEngine.config (final r) = RAGEngine.config self
  ∧ (∃ prompt,
       calls r `prefix_of`
         [PostEmbeddings
            (VectorStore.ollama_base_url (RAGEngine.vector_store self))
            (VectorStore.embedding_model (RAGEngine.vector_store self)) q;
          PostGenerate (Config.ollama_base_url (RAGEngine.config self))
            (Config.llm_model (RAGEngine.config self)) prompt])
  ∧ (RAGEngine._conversation_history (final r)
     = RAGEngine._conversation_history self
     ∨ ∃ answer,
         RAGEngine._conversation_history (final r)
         = history_with
             (Config.max_conversation_history (RAGEngine.config self))
             (RAGEngine._conversation_history self)
             (mkExchange q answer now)).
Proof.
  cbv zeta.
  destruct (decide (VectorStore.document_count (RAGEngine.vector_store self)
                    = 0%Z)) as [Hzero|Hdocs].
  { rewrite ask_question_no_documents by done. cbn [final calls].
    split_and!; [done..| |by left]. exists "". apply prefix_nil. }
  rewrite (ask_question_run env now q document_filter use_memory self Hdocs).
  cbv zeta.
  destruct (result (VectorStore.query _ _ _ _ _)) as [e|[|hit hits]];
    cbn [final calls].
  - split_and!; [done..| |by left]. exists "". by apply prefix_cons, prefix_nil.
  - split_and!; [done..| |by left]. exists "". by apply prefix_cons, prefix_nil.
  - destruct (result (RAGEngine._generate_answer _ _ _ _ _)) as [e|answer];
      cbn [final calls].
    + split_and!; [done..| |by left]. by eexists.
    + rewrite _add_to_history_run. cbn [final].
      split_and!; [done..| |]; [by eexists|]. right. by exists answer.
Qed.

(** ** Source cards *)

Lemma length_take_string (n : nat) (s : string) :
  String.length (Py.take n s) ≤ n.
Proof.
  revert s. induction n as [|n IH]; intros [|c s]; simpl; try lia.
  specialize (IH s). lia.
Qed.

Lemma format_sources_content (hits : list (Hit Dist)) :
  Forall (fun s => (Py.len (src_content s) <= 253)%Z)
         (RAGEngine.format_sources env hits).
Proof.
  unfold RAGEngine.format_sources. apply Forall_fmap, Forall_forall.
  intros hit _. unfold compose. cbn [src_content].
  destruct (Z.gtb_spec (Py.len (hit_content hit)) 250); [|lia].
  rewrite len_app. pose proof (length_take_string 250 (hit_content hit)).
  change (Py.len "...") with 3%Z. unfold Py.len. lia.
Qed.

Lemma elem_of_distinct_documents (sources : list (Source Dist)) d :
  d ∈ RAGEngine.distinct_documents sources ↔ d ∈ src_document <$> sources.
Proof.
  unfold RAGEngine.distinct_documents.
  by rewrite elem_of_elements, elem_of_list_to_set.
Qed.

(** X15. In every answer of [ask_question], the content of a
    source card holds at most 253 characters (250 and the ellipsis),
    the searched documents are listed without repetition, every source
    card names one of them, and when there are source cards every
    searched document is named by one. *)
Theorem ask_question_source_cards now q document_filter use_memory self :
  ∃ ans,
    result (RAGEngine.ask_question env now q document_filter use_memory self)
    = inr ans
    ∧ Forall (fun s => (Py.len (src_content s) <= 253)%Z) (ans_sources ans)
    ∧ NoDup (ans_documents_searched ans)
    ∧ (∀ s, s ∈ ans_sources ans →
            src_document s ∈ ans_documents_searched ans)
    ∧ (ans_sources ans ≠ [] →
       ∀ d, d ∈ ans_documents_searched ans →
            ∃ s, s ∈ ans_sources ans ∧ src_document s = d).
Proof.
  assert (∀ e, ∃ ans : Answer Dist,
    inr (RAGEngine.ask_failed e) = (inr ans : Exn + Answer Dist)
    ∧ Forall (fun s => (Py.len (src_content s) <= 253)%Z) (ans_sources ans)
    ∧ NoDup (ans_documents_searched ans)
    ∧ (∀ s, s ∈ ans_sources ans →
            src_document s ∈ ans_documents_searched ans)
    ∧ (ans_sources ans ≠ [] →
       ∀ d, d ∈ ans_documents_searched ans →
            ∃ s, s ∈ ans_sources ans ∧ src_document s = d)) as Hfailed.
  { intros e. eexists. split; [done|].
    destruct (ask_failed_sources e) as [-> ->].
    split_and!; [constructor|constructor|by intros ? ?%elem_of_nil|done]. }
  destruct (decide (VectorStore.document_count (RAGEngine.vector_store self)
                    = 0%Z)) as [Hzero|Hdocs].
  { rewrite ask_question_no_documents by done. eexists. split; [done|].
    cbn. split_and!; [constructor|constructor|by intros ? ?%elem_of_nil|done]. }
  rewrite (ask_question_run env now q document_filter use_memory self Hdocs).
  cbv zeta.
  destruct (result (VectorStore.query _ _ _ _ _)) as [e|[|hit hits]].
  - apply Hfailed.
  - eexists. split; [done|]. cbn [ans_sources ans_documents_searched].
    split_and!; [constructor| |by intros ? ?%elem_of_nil|done].
    apply NoDup_fst_map_to_list.
  - destruct (result (RAGEngine._generate_answer _ _ _ _ _)) as [e|answer];
      [apply Hfailed|].
    eexists. split; [done|]. cbn [ans_sources ans_documents_searched].
    split_and!.
    + apply format_sources_content.
    + apply NoDup_elements.
    + intros s Hs. apply elem_of_distinct_documents, list_elem_of_fmap. eauto.
    + intros _ d (s & -> & Hs)%elem_of_distinct_documents%list_elem_of_fmap.
      eauto.
Qed.

(** X16. On a store that satisfies the invariant, every searched
    document and every document named by a source card of an answer of
    [ask_question] is a registered document. *)
Theorem ask_question_documents_registered now q document_filter use_memory
    self :
  wf (RAGEngine.vector_store self) →
  ∃ ans,
    result (RAGEngine.ask_question env now q document_filter use_memory self)
    = inr ans
    ∧ (∀ d, d ∈ ans_documents_searched ans → d ∈ RAGEngine.get_documents self)
    ∧ (∀ s, s ∈ ans_sources ans →
            src_document s ∈ RAGEngine.get_documents self).
Proof.
  intros Hwf.
  assert (∀ e, ∃ ans : Answer Dist,
    inr (RAGEngine.ask_failed e) = (inr ans : Exn + Answer Dist)
    ∧ (∀ d, d ∈ ans_documents_searched ans → d ∈ RAGEngine.get_documents self)
    ∧ (∀ s, s ∈ ans_sources ans →
            src_document s ∈ RAGEngine.get_documents self)) as Hfailed.
  { intros e. eexists. split; [done|].
    destruct (ask_failed_sources e) as [-> ->].
    split; by intros ? ?%elem_of_nil. }
  destruct (decide (VectorStore.document_count (RAGEngine.vector_store self)
                    = 0%Z)) as [Hzero|Hdocs].
  { rewrite ask_question_no_documents by done. eexists. split; [done|].
    cbn. split; by intros ? ?%elem_of_nil. }
  rewrite (ask_question_run env now q document_filter use_memory self Hdocs).
  cbv zeta.
  destruct (result (VectorStore.query _ _ _ _ _)) as [e|[|hit hits]] eqn:Hq.
  - apply Hfailed.
  - eexists. split; [done|]. cbn [ans_sources ans_documents_searched].
    split; [done|by intros ? ?%elem_of_nil].
  - destruct (result (RAGEngine._generate_answer _ _ _ _ _)) as [e|answer];
      [apply Hfailed|].
    eexists. split; [done|]. cbn [ans_sources ans_documents_searched].
    assert (∀ s, s ∈ RAGEngine.format_sources env (hit :: hits) →
                 src_document s ∈ RAGEngine.get_documents self) as Hsrc.
    { intros s (h & -> & Hh)%list_elem_of_fmap. cbn [src_document].
      by eapply query_hit_registered. }
    split; [|done].
    intros d (s & -> & Hs)%elem_of_distinct_documents%list_elem_of_fmap.
    by apply Hsrc.
Qed.

(** ** What a question counts *)

(** X17. [ask_question] never changes [documents_processed] or
    [session_start]. With no document loaded it changes no statistic.
    With documents loaded, an answer without error counts one question
    and as many retrieved chunks as it has source cards; an answer with
    an error leaves the statistics as they are, or counts the question
    and the retrieved chunks after a generation call was made; and when
    the history changed, the question was counted and the answer has no
    error. *)
Theorem ask_question_counts now q document_filter use_memory self :
  let r := RAGEngine.ask_question env now q document_filter use_memory self in
  let before := RAGEngine._session_stats self in
  let after := RAGEngine._session_stats (final r) in
  ∃ ans,
    result r = inr ans
    ∧ documents_processed after = documents_processed before
    ∧ session_start after = session_start before
    ∧ (VectorStore.document_count (RAGEngine.vector_store self) = 0%Z →
       after = before)
    ∧ (VectorStore.document_count (RAGEngine.vector_store self) ≠ 0%Z →
       ans_error ans = None →
       questions_asked after = questions_asked before + 1
       ∧ chunks_retrieved after
         = chunks_retrieved before + length (ans_sources ans))
    ∧ (ans_error ans ≠ None →
       after = before
       ∨ (questions_asked after = questions_asked before + 1
          ∧ chunks_retrieved before < chunks_retrieved after
          ∧ calls r ≠ [] ∧ existsb is_generate (calls r) = true))
    ∧ (RAGEngine._conversation_history (final r)
       ≠ RAGEngine._conversation_history self →
       questions_asked after = questions_asked before + 1
       ∧ ans_error ans = None).
Proof.
  cbv zeta.
  destruct (decide (VectorStore.document_count (RAGEngine.vector_store self)
                    = 0%Z)) as [Hzero|Hdocs].
  { rewrite ask_question_no_documents by done. eexists. split; [done|].
    cbn [final ans_error]. split_and!; try done. }
  rewrite (ask_question_run env now q document_filter use_memory self Hdocs).
  cbv zeta.
  destruct (result (VectorStore.query _ _ _ _ _)) as [e|[|hit hits]].
  - eexists. split; [done|]. cbn [final].
    split_and!; try done.
    + intros _ Hnone. by destruct (ask_failed_error e) as [H|H];
        rewrite H in Hnone.
    + by left.
  - eexists. split; [done|]. cbn [final ans_error ans_sources length].
    split_and!; done.
  - destruct (result (RAGEngine._generate_answer _ _ _ _ _)) as [e|answer].
    + eexists. split; [done|]. cbn [final calls].
      split_and!; try done.
      * intros _ Hnone. by destruct (ask_failed_error e) as [H|H];
          rewrite H in Hnone.
      * intros _. right. cbn. split_and!; [done|lia|done|done].
    + eexists. split; [done|]. rewrite _add_to_history_run.
      cbn [final ans_error ans_sources].
      unfold RAGEngine.format_sources. rewrite length_fmap.
      split_and!; try done.
Qed.

Lemma _generate_answer_unreachable q context conv self kind msg :
  api_generate env (Config.ollama_base_url (RAGEngine.config self))
               (Config.llm_model (RAGEngine.config self))
               (RAGEngine.build_prompt q context conv)
  = Raises kind msg →
  is_ConnectionError kind = true →
  result (RAGEngine._generate_answer env q context conv self)
  = inl (mkExn ConnectionError "Cannot connect to Ollama").
Proof.
  intros Hreply Hconn.
  unfold RAGEngine._generate_answer, bind, get, log. cbn [result final calls].
  by rewrite Hreply, Hconn.
Qed.

(** X18. If a generation call of [ask_question] finds the backend
    unreachable (it raises a [ConnectionError] of [requests]), the
    answer is the error prefix followed by [Cannot connect to Ollama]
    with [error = unknown_error]: the handler looks for the word
    [connection] in the message and does not find it. The history is
    left as it is and the question is counted. *)
Theorem ask_question_generation_unreachable now q document_filter use_memory
    self :
  let r := RAGEngine.ask_question env now q document_filter use_memory self in
  (∃ url model prompt kind msg,
     PostGenerate url model prompt ∈ calls r
     ∧ api_generate env url model prompt = Raises kind msg
     ∧ is_ConnectionError kind = true) →
  result r
  = inr (mkAnswer (RAGEngine.MSG_ERROR_PREFIX +:+ "Cannot connect to Ollama")
                  [] [] (Some "unknown_error"))
  ∧ RAGEngine._conversation_history (final r)
    = RAGEngine._conversation_history self
  ∧ questions_asked (RAGEngine._session_stats (final r))
    = questions_asked (RAGEngine._session_stats self) + 1.
Proof.
  cbv zeta.
  destruct (decide (VectorStore.document_count (RAGEngine.vector_store self)
                    = 0%Z)) as [Hzero|Hdocs].
  { rewrite ask_question_no_documents by done. cbn [calls].
    by intros (? & ? & ? & ? & ? & ?%elem_of_nil & _). }
  rewrite (ask_question_run env now q document_filter use_memory self Hdocs).
  cbv zeta.
  destruct (result (VectorStore.query _ _ _ _ _)) as [e|[|hit hits]];
    cbn [calls].
  - intros (? & ? & ? & ? & ? & Hin & _).
    by apply list_elem_of_singleton in Hin.
  - intros (? & ? & ? & ? & ? & Hin & _).
    by apply list_elem_of_singleton in Hin.
  - intros (url & model & prompt & kind & msg & Hin & Hreply & Hconn).
    assert (Hin' : PostGenerate url model prompt ∈
      [PostEmbeddings
         (VectorStore.ollama_base_url (RAGEngine.vector_store self))
         (VectorStore.embedding_model (RAGEngine.vector_store self)) q;
       PostGenerate (Config.ollama_base_url (RAGEngine.config self))
         (Config.llm_model (RAGEngine.config self))
         (RAGEngine.build_prompt q (RAGEngine.build_context (hit :: hits))
            (if use_memory
                && Config.include_conversation_context (RAGEngine.config self)
             then RAGEngine._build_conversation_context
                    (counted (length (hit :: hits)) self)
             else ""))]).
    { by destruct (result (RAGEngine._generate_answer _ _ _ _ _)). }
    clear Hin.
    apply elem_of_cons in Hin' as [[=]|Hin].
    apply list_elem_of_singleton in Hin as [= -> -> ->].
    rewrite (_generate_answer_unreachable _ _ _ (counted _ self) _ _
               Hreply Hconn).
    cbn [result final]. split_and!; [|done|done].
    by vm_compute.
Qed.

(** X19. After [clear_all] the index and the registry are empty,
    the engine is not ready, the history is empty, the statistics are
    those of a fresh session and the configuration is kept; a question
    asked then gets the upload-a-document-first answer without any
    backend call. *)
Theorem clear_all_fresh now now' q document_filter use_memory self :
  let cleared := final (RAGEngine.clear_all now self) in
  VectorStore.collection (RAGEngine.vector_store cleared) = ∅
  ∧ VectorStore._documents (RAGEngine.vector_store cleared) = ∅
  ∧ RAGEngine.is_ready cleared = false
  ∧ RAGEngine.chunk_count cleared = 0%Z
  ∧ RAGEngine._conversation_history cleared = []
  ∧ RAGEngine._session_stats cleared = RAGEngine.fresh_stats now
  ∧ RAGEngine.config cleared = RAGEngine.config self
  ∧ RAGEngine.ask_question env now' q document_filter use_memory cleared
    = mkOutcome (inr (mkAnswer RAGEngine.MSG_UPLOAD_FIRST [] [] None))
                cleared [].
Proof.
  cbv zeta. split_and!; [done..|]. by apply ask_question_no_documents.
Qed.

End AskMore.

Section ProcessMore.
Context {Vec Dist : Type} (env : Env Vec Dist).
Implicit Types (self : RAGEngine.t Vec) (vs : VectorStore.t Vec).

Lemma as_ValueError_class name e : exn_class (as_ValueError name e) = ValueError.
Proof.
  unfold as_ValueError, RAGEngine.is_ValueError.
  destruct e as [[] msg]; done.
Qed.

Lemma process_document_run (f : UploadedFile) self :
  RAGEngine.process_document env f self =
  match upload_extracted f with
  | inl e => mkOutcome (inl (as_ValueError (upload_name f) e)) self []
  | inr (text, page_map, file_type) =>
      let chunks :=
        DocumentProcessor.smart_chunk_text text page_map (upload_name f)
          (Config.chunk_size (RAGEngine.config self))
          (Config.chunk_overlap (RAGEngine.config self)) in
      match chunks with
      | [] =>
          mkOutcome
            (inl (mkExn ValueError "No text could be extracted from the file"))
            self []
      | _ :: _ =>
          let r := VectorStore.add_document env (upload_name f) chunks
                     (RAGEngine.vector_store self) in
          let self1 := RAGEngine.set_vector_store (final r) self in
          match result r with
          | inl e =>
              mkOutcome (inl (as_ValueError (upload_name f) e)) self1 (calls r)
          | inr _ =>
              mkOutcome
                (inr (mkProcessed true (upload_name f) file_type (Py.len text)
                        (length chunks) (size page_map)
                        (VectorStore.document_count (final r))))
                (processed self1) (calls r)
          end
      end
  end.
Proof.
  unfold RAGEngine.process_document.
  destruct (upload_extracted f) as [e|[[text page_map] file_type]].
  { rewrite (catch_raise _ _ self self e [] eq_refl). unfold as_ValueError.
    by destruct (RAGEngine.is_ValueError e). }
  cbv zeta.
  destruct (DocumentProcessor.smart_chunk_text _ _ _ _ _) as [|c cs] eqn:Hcs.
  { erewrite catch_raise; cycle 1.
    { rewrite (bind_run get _ _ _ _ [] eq_refl). rewrite Hcs. done. }
    done. }
  set (r := VectorStore.add_document env (upload_name f) (c :: cs)
              (RAGEngine.vector_store self)).
  assert (RAGEngine.on_store
            (VectorStore.add_document env (upload_name f) (c :: cs)) self
          = mkOutcome (result r) (RAGEngine.set_vector_store (final r) self)
                      (calls r)) as Hadd by done.
  destruct (result r) as [e|n].
  - erewrite catch_raise; cycle 1.
    { rewrite (bind_run get _ _ _ _ [] eq_refl). rewrite Hcs.
      cbn [result final calls app].
      rewrite (bind_raise _ _ _ _ _ _ Hadd). done. }
    unfold as_ValueError. destruct (RAGEngine.is_ValueError e);
      cbn [result final calls raise]; by rewrite app_nil_r.
  - erewrite catch_ok; cycle 1.
    { rewrite (bind_run get _ _ _ _ [] eq_refl). rewrite Hcs.
      cbn [result final calls app].
      rewrite (bind_run _ _ _ _ _ _ Hadd). cbn [result final calls app].
      rewrite (bind_run (modify _) _ _ _ _ [] eq_refl).
      cbn [result final calls app].
      rewrite (bind_run get _ _ _ _ [] eq_refl).
      cbn [result final calls app ret]. rewrite app_nil_r. done. }
    done.
Qed.

(** X20. [process_document] keeps the configuration and the
    history. When it raises, it raises a [ValueError], the statistics
    are as before, and the vector store is as before or as
    [remove_document] of the uploaded name leaves it. When it returns,
    the result reports success under the uploaded name with at least
    one chunk, the name is registered with that number of chunks under
    the ids of its positions, [total_documents] is the document count
    after the upload, the engine is ready, [documents_processed] grew by
    one, and one embedding call was made per chunk. *)
Theorem process_document_outcome (f : UploadedFile) self :
  let r := RAGEngine.process_document env f self in
  let name := upload_name f in
  RAGEngine.config (final r) = RAGEngine.config self
  ∧ RAGEngine._conversation_history (final r)
    = RAGEngine._conversation_history self
  ∧ match result r with
    | inl e =>
        exn_class e = ValueError
        ∧ RAGEngine._session_stats (final r) = RAGEngine._session_stats self
        ∧ (RAGEngine.vector_store (final r) = RAGEngine.vector_store self
           ∨ RAGEngine.vector_store (final r)
             = removed name (RAGEngine.vector_store self))
    | inr p =>
        pr_success p = true ∧ pr_document_name p = name
        ∧ 0 < pr_num_chunks p
        ∧ VectorStore._documents (RAGEngine.vector_store (final r)) !! name
          = Some (mkDocInfo (pr_num_chunks p) (ids_for name (pr_num_chunks p)))
        ∧ pr_total_documents p
          = VectorStore.document_count (RAGEngine.vector_store (final r))
        ∧ RAGEngine.is_ready (final r) = true
        ∧ documents_processed (RAGEngine._session_stats (final r))
          = documents_processed (RAGEngine._session_stats self) + 1
        ∧ length (calls r) = pr_num_chunks p
    end.
Proof.
  cbv zeta. rewrite process_document_run.
  destruct (upload_extracted f) as [e|[[text page_map] file_type]].
  { cbn [result final]. split_and!; [done..|apply as_ValueError_class|done|].
    by left. }
  cbv zeta.
  destruct (DocumentProcessor.smart_chunk_text _ _ _ _ _) as [|c cs] eqn:Hcs.
  { cbn [result final]. split_and!; [done..|]. by left. }
  assert (c :: cs ≠ []) as Hne by done.
  pose proof (add_document_run env (upload_name f) (c :: cs)
                (RAGEngine.vector_store self) Hne) as Hrun.
  cbv zeta in Hrun.
  pose proof (_get_embeddings_batch_length env (chunk_text <$> c :: cs)
                (removed (upload_name f) (RAGEngine.vector_store self)))
    as Hlen.
  set (r := VectorStore.add_document env (upload_name f) (c :: cs)
              (RAGEngine.vector_store self)) in *.
  destruct (result (VectorStore._get_embeddings_batch _ _ _))
    as [e|embeddings]; destruct Hrun as [Hres Hfin]; rewrite Hres;
    cbn [result final].
  - split_and!; [done..|apply as_ValueError_class|done|].
    right. by destruct self.
  - pose proof (add_document_log env (upload_name f) (c :: cs)
                  (RAGEngine.vector_store self)) as Hlog.
    cbv zeta in Hlog. fold r in Hlog. rewrite Hres in Hlog.
    cbn [pr_success pr_document_name pr_num_chunks pr_total_documents].
    assert (VectorStore._documents (final r) !! upload_name f
            = Some (mkDocInfo (length (c :: cs))
                      (ids_for (upload_name f) (length (c :: cs))))) as Hreg.
    { rewrite Hfin, stored_documents. apply lookup_insert_eq. }
    split_and!; [done..|simpl; lia|by destruct self|done| |by destruct self|].
    + unfold RAGEngine.is_ready, processed, RAGEngine.set_stats,
        RAGEngine.set_vector_store, VectorStore.document_count.
      cbn [RAGEngine.vector_store].
      pose proof (map_size_ne_0_lookup_2 _ _ (mk_is_Some _ _ Hreg)).
      destruct (Z.gtb_spec (Z.of_nat (size (VectorStore._documents (final r))))
                           0); [done|lia].
    + cbn [calls]. by rewrite Hlog, !length_fmap.
Qed.

End ProcessMore.

Section MarkdownExport.
Context {Vec : Type}.
Implicit Types (self : RAGEngine.t Vec).




End MarkdownExport.

(* ===================================================================== *)
(** * States reached through the public operations *)
(* ===================================================================== *)

Section Reachable.
Context {Vec Dist : Type} (env : Env Vec Dist).
Implicit Types (self : RAGEngine.t Vec) (vs : VectorStore.t Vec).

Lemma run_ops_snoc ops op self :
  run_ops env (ops ++ [op]) self
  = RAGEngine.after env op (run_ops env ops self).
Proof. unfold run_ops. by rewrite foldl_app. Qed.

Lemma removed_populated name vs :
  populated vs → populated (removed name vs).
Proof.
  intros Hpop d info. rewrite removed_documents.
  intros [_ Hd]%lookup_delete_Some. by eapply Hpop.
Qed.

Lemma remove_document_populated name vs :
  populated vs → populated (final (VectorStore.remove_document name vs)).
Proof. rewrite remove_document_run. apply removed_populated. Qed.

Lemma add_document_populated name chunks vs :
  populated vs → populated (final (VectorStore.add_document env name chunks vs)).
Proof.
  intros Hpop. destruct (decide (chunks = [])) as [->|Hne]; [done|].
  pose proof (add_document_run env name chunks vs Hne) as Hrun. simpl in Hrun.
  destruct (result (VectorStore._get_embeddings_batch _ _ _))
    as [e|embeddings]; destruct Hrun as [_ ->].
  - by apply removed_populated.
  - intros d info. rewrite stored_documents.
    intros [[<- <-]|[_ Hd]]%lookup_insert_Some.
    + simpl. destruct chunks; [done|simpl; lia].
    + by eapply removed_populated.
Qed.

Lemma after_populated (op : RAGEngine.Op) self :
  populated (RAGEngine.vector_store self) →
  populated (RAGEngine.vector_store (RAGEngine.after env op self)).
Proof.
  set (P := fun s : RAGEngine.t Vec => populated (RAGEngine.vector_store s)).
  intros Hself. change (P self) in Hself.
  assert (∀ {A} (m : M (VectorStore.t Vec) A),
    keeps populated m → keeps P (RAGEngine.on_store m)) as Hstore.
  { intros A m Hm s Hs. apply Hm, Hs. }
  destruct op as [f|name|now q flt mem| |now]; simpl.
  - cut (keeps P (RAGEngine.process_document env f));
      [by intros Hk; apply (Hk self)|].
    unfold RAGEngine.process_document.
    apply keeps_catch; [|intros e; destruct (RAGEngine.is_ValueError _);
                         apply keeps_raise].
    destruct (upload_extracted f) as [e|[[text pm] ft]]; [apply keeps_raise|].
    apply keeps_bind; [apply keeps_get|intros s0].
    destruct (DocumentProcessor.smart_chunk_text _ _ _ _ _) as [|c cs];
      [apply keeps_raise|].
    apply keeps_bind; [|intros _].
    + apply Hstore. intros vs Hvs. by apply add_document_populated.
    + apply keeps_bind; [by apply keeps_modify|intros _].
      apply keeps_bind; [apply keeps_get|intros ?; apply keeps_ret].
  - apply (remove_document_populated name _ Hself).
  - cut (keeps P (RAGEngine.ask_question env now q flt mem));
      [by intros Hk; apply (Hk self)|].
    unfold RAGEngine.ask_question.
    apply keeps_bind; [apply keeps_get|intros s0].
    destruct (_ =? _)%Z; [apply keeps_ret|].
    apply keeps_catch; [|intros e; apply keeps_ret].
    apply keeps_bind; [|intros relevant_chunks].
    { apply Hstore. intros vs Hvs. by rewrite query_run. }
    apply keeps_bind; [by apply keeps_modify|intros _].
    destruct relevant_chunks as [|h hs].
    { apply keeps_bind; [apply keeps_get|intros ?; apply keeps_ret]. }
    apply keeps_bind; [apply keeps_get|intros s1].
    apply keeps_bind; [apply keeps__generate_answer|intros answer].
    apply keeps_bind; [|intros _; apply keeps_ret].
    intros s Hs. by rewrite _add_to_history_run.
  - done.
  - unfold P. simpl. intros d info Hd.
    cbn [VectorStore._documents VectorStore.set_documents] in Hd.
    by apply lookup_empty_Some in Hd.
Qed.

Lemma run_ops_wf ops self :
  wf (RAGEngine.vector_store self) →
  wf (RAGEngine.vector_store (run_ops env ops self)).
Proof.
  intros Hwf. induction ops as [|op ops IH] using rev_ind; [done|].
  rewrite run_ops_snoc. by apply after_wf.
Qed.

Lemma run_ops_populated ops self :
  populated (RAGEngine.vector_store self) →
  populated (RAGEngine.vector_store (run_ops env ops self)).
Proof.
  intros Hpop. induction ops as [|op ops IH] using rev_ind; [done|].
  rewrite run_ops_snoc. by apply after_populated.
Qed.

(** X22. In every state that an engine reaches from an empty
    vector store through any sequence of [process_document],
    [remove_document], [ask_question], [clear_conversation] and
    [clear_all], whether the calls return or raise, the store satisfies
    its invariant, the size of the index is the sum of the
    [chunk_count] entries of the registry, and the engine is not ready
    exactly when the index is empty. *)
Theorem reachable_store_wf (ops : list RAGEngine.Op) (cfg : Config.t)
    (collection_name embedding_model ollama_base_url persist_directory : string)
    (history : list Exchange) (stats : SessionStats) :
  let fresh :=
    RAGEngine.mk cfg
      (VectorStore.mk collection_name embedding_model ollama_base_url
                      persist_directory ∅ ∅ : VectorStore.t Vec)
      history stats in
  let vs := RAGEngine.vector_store (run_ops env ops fresh) in
  wf vs
  ∧ VectorStore.chunk_count vs = Z.of_nat (registered_chunks vs)
  ∧ (RAGEngine.is_ready (run_ops env ops fresh) = false ↔
     VectorStore.chunk_count vs = 0%Z).
Proof.
  cbv zeta.
  set (fresh := RAGEngine.mk _ _ _ _).
  assert (wf (RAGEngine.vector_store (run_ops env ops fresh))) as Hwf
    by apply run_ops_wf, wf_empty.
  assert (populated (RAGEngine.vector_store (run_ops env ops fresh))) as Hpop.
  { apply run_ops_populated. intros d info Hd. cbn in Hd.
    by apply lookup_empty_Some in Hd. }
  split; [done|].
  set (vs := RAGEngine.vector_store _) in *.
  assert (size (VectorStore.collection vs) = registered_chunks vs) as Hcount
    by by apply (wf_chunk_count_aux _ vs eq_refl).
  split.
  { unfold VectorStore.chunk_count, Chroma.count. by rewrite Hcount. }
  unfold RAGEngine.is_ready, VectorStore.document_count,
    VectorStore.chunk_count, Chroma.count. fold vs.
  split.
  - intros Hready.
    assert (size (VectorStore._documents vs) = 0) as Hdocs.
    { destruct (Z.gtb_spec (Z.of_nat (size (VectorStore._documents vs))) 0);
        [done|lia]. }
    apply map_size_empty_inv in Hdocs.
    rewrite Hcount. unfold registered_chunks. by rewrite Hdocs, map_fold_empty.
  - intros Hzero.
    destruct (Z.gtb_spec (Z.of_nat (size (VectorStore._documents vs))) 0)
      as [Hpos|]; [|done].
    destruct (map_choose (VectorStore._documents vs)) as (name & info & Hreg).
    { intros Hempty. rewrite Hempty, map_size_empty in Hpos. lia. }
    pose proof (Hpop name info Hreg) as Hsome.
    rewrite Hcount, (registered_chunks_removed name vs info Hreg) in Hzero.
    lia.
Qed.

Lemma after_history_bounded (op : RAGEngine.Op) (cfg : Config.t) self :
  (1 <= Config.max_conversation_history cfg)%Z →
  RAGEngine.config self = cfg
  ∧ (Z.of_nat (length (RAGEngine._conversation_history self))
     <= 2 * Config.max_conversation_history cfg)%Z →
  RAGEngine.config (RAGEngine.after env op self) = cfg
  ∧ (Z.of_nat (length (RAGEngine._conversation_history
                         (RAGEngine.after env op self)))
     <= 2 * Config.max_conversation_history cfg)%Z.
Proof.
  intros Hmax.
  set (P := fun s : RAGEngine.t Vec =>
    RAGEngine.config s = cfg
    ∧ (Z.of_nat (length (RAGEngine._conversation_history s))
       <= 2 * Config.max_conversation_history cfg)%Z).
  intros Hself. change (P self) in Hself.
  change (P (RAGEngine.after env op self)).
  assert (∀ vs s, P s → P (RAGEngine.set_vector_store vs s)) as Hvs by done.
  assert (∀ st s, P s → P (RAGEngine.set_stats st s)) as Hst by done.
  destruct op as [f|name|now q flt mem| |now]; simpl.
  - cut (keeps P (RAGEngine.process_document env f));
      [by intros Hk; apply (Hk self)|].
    unfold RAGEngine.process_document.
    apply keeps_catch; [|intros e; destruct (RAGEngine.is_ValueError _);
                         apply keeps_raise].
    destruct (upload_extracted f) as [e|[[text pm] ft]]; [apply keeps_raise|].
    apply keeps_bind; [apply keeps_get|intros s0].
    destruct (DocumentProcessor.smart_chunk_text _ _ _ _ _) as [|c cs];
      [apply keeps_raise|].
    apply keeps_bind; [by apply keeps_on_store|intros _].
    apply keeps_bind; [apply keeps_modify; intros s; apply Hst|intros _].
    apply keeps_bind; [apply keeps_get|intros ?; apply keeps_ret].
  - cut (keeps P (RAGEngine.remove_document name));
      [by intros Hk; apply (Hk self)|].
    by apply keeps_on_store.
  - cut (keeps P (RAGEngine.ask_question env now q flt mem));
      [by intros Hk; apply (Hk self)|].
    unfold RAGEngine.ask_question.
    apply keeps_bind; [apply keeps_get|intros s0].
    destruct (_ =? _)%Z; [apply keeps_ret|].
    apply keeps_catch; [|intros e; apply keeps_ret].
    apply keeps_bind; [by apply keeps_on_store|intros relevant_chunks].
    apply keeps_bind; [apply keeps_modify; intros s; apply Hst|intros _].
    destruct relevant_chunks as [|h hs].
    { apply keeps_bind; [apply keeps_get|intros ?; apply keeps_ret]. }
    apply keeps_bind; [apply keeps_get|intros s1].
    apply keeps_bind; [apply keeps__generate_answer|intros answer].
    apply keeps_bind; [|intros _; apply keeps_ret].
    intros s [Hcfg Hlen]. split.
    + by rewrite _add_to_history_config.
    + rewrite <- Hcfg in Hmax |- *.
      by destruct (_add_to_history_bounded now q answer s Hmax) as (? & _).
  - destruct Hself as [Hcfg _]. split; [done|]. simpl. lia.
  - destruct Hself as [Hcfg _]. split; [done|]. simpl. lia.
Qed.

(** X23. For a positive [max_conversation_history], from an
    engine whose history holds at most [2 * max_conversation_history]
    entries, after any sequence of public operations the configuration
    is the same, the history still holds at most
    [2 * max_conversation_history] entries, and the window read into a
    prompt holds at most [max_conversation_history] of them. *)
Theorem reachable_history_bounded (ops : list RAGEngine.Op) self :
  (1 <= Config.max_conversation_history (RAGEngine.config self))%Z →
  (Z.of_nat (length (RAGEngine._conversation_history self))
   <= 2 * Config.max_conversation_history (RAGEngine.config self))%Z →
  let reached := run_ops env ops self in
  RAGEngine.config reached = RAGEngine.config self
  ∧ (Z.of_nat (length (RAGEngine._conversation_history reached))
     <= 2 * Config.max_conversation_history (RAGEngine.config self))%Z
  ∧ (Z.of_nat (length (RAGEngine.recent_window
                         (Config.max_conversation_history
                            (RAGEngine.config reached))
                         (RAGEngine._conversation_history reached)))
     <= Config.max_conversation_history (RAGEngine.config self))%Z.
Proof.
  intros Hmax Hlen. cbv zeta.
  assert (RAGEngine.config (run_ops env ops self) = RAGEngine.config self
          ∧ (Z.of_nat (length (RAGEngine._conversation_history
                                 (run_ops env ops self)))
             <= 2 * Config.max_conversation_history (RAGEngine.config self))%Z)
    as [Hcfg Hbound].
  { induction ops as [|op ops IH] using rev_ind; [done|].
    rewrite run_ops_snoc. by apply after_history_bounded. }
  split_and!; [done..|]. rewrite Hcfg.
  by destruct (recent_window_suffix _
                 (RAGEngine._conversation_history (run_ops env ops self)) Hmax).
Qed.

End Reachable.

(* ===================================================================== *)
(** * Properties of the endpoints *)
(* ===================================================================== *)

Section ApiMore.
Context {Vec Dist : Type} (env : Env Vec Dist).
Implicit Types (self : RAGEngine.t Vec) (vs : VectorStore.t Vec).

Lemma after_last_dot_free (s : string) :
  char_free "." s → Py.after_last_dot s = None.
Proof.
  induction s as [|c s IH]; [done|]. intros [Hc Hs]. cbn [Py.after_last_dot].
  rewrite (IH Hs). by destruct (Ascii.eqb_spec c ".").
Qed.

Lemma after_last_dot_app (stem ext : string) :
  char_free "." ext → Py.after_last_dot (stem +:+ "." +:+ ext) = Some ext.
Proof.
  intros Hfree. induction stem as [|c stem IH].
  - change ("" +:+ "." +:+ ext) with (String "." ext).
    cbn [Py.after_last_dot]. by rewrite after_last_dot_free.
  - change (String c stem +:+ "." +:+ ext)
      with (String c (stem +:+ "." +:+ ext)).
    cbn [Py.after_last_dot]. by rewrite IH.
Qed.

(** X24. The extension that [upload_document] checks is the
    lower-cased text after the last dot of the file name; for a file
    name without a dot it is the whole lower-cased name. *)
Theorem extension_after_last_dot (stem ext filename : string) :
  (char_free "." ext →
   Api.extension (stem +:+ "." +:+ ext) = Py.lower ext)
  ∧ (char_free "." filename → Api.extension filename = Py.lower filename).
Proof.
  split.
  - intros Hfree. unfold Api.extension, Py.last_dot_piece.
    rewrite after_last_dot_app by done.
    by destruct stem.
  - intros Hfree. unfold Api.extension, Py.last_dot_piece.
    rewrite after_last_dot_free by done. by destruct filename.
Qed.

Lemma process_document_ValueError (f : UploadedFile) self e :
  result (RAGEngine.process_document env f self) = inl e →
  RAGEngine.is_ValueError e = true.
Proof.
  rewrite process_document_run.
  assert (∀ e', RAGEngine.is_ValueError (as_ValueError (upload_name f) e')
                = true) as Hwrap.
  { intros e'. unfold RAGEngine.is_ValueError.
    by rewrite as_ValueError_class. }
  destruct (upload_extracted f) as [e'|[[text page_map] file_type]].
  { intros [= <-]. apply Hwrap. }
  cbv zeta. destruct (DocumentProcessor.smart_chunk_text _ _ _ _ _).
  { by intros [= <-]. }
  destruct (result (VectorStore.add_document _ _ _ _)); [|done].
  intros [= <-]. apply Hwrap.
Qed.

(** X25. Once the upload is read, [upload_document] answers the
    result of [process_document] or an HTTP error of status 400: the
    handler for status 500 is never reached, since [process_document]
    raises nothing but [ValueError]. A result is returned only for a
    supported extension, and an unsupported extension is refused
    without touching the engine or the backend. *)
Theorem upload_document_status (file : UploadedFile) self :
  let r := Api.upload_document env file self in
  let ext := Api.extension (upload_name file) in
  match result r with
  | inl _ => False
  | inr (HttpOk p) =>
      ext ∈ ["pdf"; "txt"; "docx"; "md"]
      ∧ result (RAGEngine.process_document env file self) = inr p
  | inr (HTTPException status detail) =>
      status = 400%Z
      ∧ (ext ∉ ["pdf"; "txt"; "docx"; "md"] → final r = self ∧ calls r = [])
  end.
Proof.
  cbv zeta. unfold Api.upload_document.
  change (DocumentProcessor.get_supported_formats.*1)
    with ["pdf"; "txt"; "docx"; "md"].
  case_bool_decide as Hext; cbn [negb].
  - pose proof (process_document_ValueError file self) as Hval.
    destruct (RAGEngine.process_document env file self) as [[e|p] s cl] eqn:Hrun.
    + rewrite (catch_raise _ _ _ _ _ _ (bind_raise _ _ _ _ _ _ Hrun)).
      rewrite (Hval e eq_refl). cbn [result]. done.
    + erewrite catch_ok; cycle 1.
      { rewrite (bind_run _ _ _ _ _ _ Hrun). cbn [result final calls ret].
        done. }
      cbn [result]. done.
  - cbn [result ret]. done.
Qed.

(** X26. The endpoint [remove_document] makes no backend call;
    it answers status 404 exactly when the name is not registered, and
    then leaves the engine as it is; when it answers with success the
    name was registered and no longer is. *)
Theorem api_remove_document_status (document_name : string) self :
  let r := Api.remove_document document_name self in
  calls r = []
  ∧ match result r with
    | inl _ => False
    | inr (HttpOk _) =>
        is_Some (VectorStore._documents (RAGEngine.vector_store self)
                   !! document_name)
        ∧ VectorStore._documents (RAGEngine.vector_store (final r))
            !! document_name = None
    | inr (HTTPException status detail) =>
        status = 404%Z
        ∧ VectorStore._documents (RAGEngine.vector_store self)
            !! document_name = None
        ∧ final r = self
    end.
Proof.
  cbv zeta. unfold Api.remove_document.
  assert (RAGEngine.remove_document document_name self
          = mkOutcome
              (inr (bool_decide
                      (is_Some (VectorStore._documents
                                  (RAGEngine.vector_store self)
                                !! document_name))))
              (RAGEngine.set_vector_store
                 (removed document_name (RAGEngine.vector_store self)) self)
              []) as Hrun.
  { unfold RAGEngine.remove_document, RAGEngine.on_store, zoom.
    by rewrite remove_document_run. }
  rewrite (bind_run _ _ _ _ _ _ Hrun).
  case_bool_decide as Hreg; cbn [negb result final calls ret app].
  - split; [done|]. split; [done|].
    cbn [RAGEngine.vector_store RAGEngine.set_vector_store].
    rewrite removed_documents. apply lookup_delete_eq.
  - split; [done|]. split; [done|].
    assert (VectorStore._documents (RAGEngine.vector_store self)
              !! document_name = None) as Hnone.
    { destruct (_ !! _) eqn:?; [|done]. destruct Hreg; eauto. }
    split; [done|]. rewrite removed_unregistered by done. by destruct self.
Qed.

(** X27. The endpoint [ask_question] never raises. The [error]
    of its response is [no_documents] exactly when no document is
    loaded, and then the response is the fixed upload-first text, made
    without any backend call or change to the engine; otherwise the
    response is the answer of the engine's [ask_question], with an
    [error] that is [None], [connection_error] or [unknown_error]. *)
Theorem api_ask_question_errors now q document_filter self :
  let r := Api.ask_question env now q document_filter self in
  ∃ ans,
    result r = inr ans
    ∧ (ans_error ans = Some "no_documents"
       ↔ VectorStore.document_count (RAGEngine.vector_store self) = 0%Z)
    ∧ (ans_error ans = Some "no_documents" →
       ans_answer ans = "Please upload a document first."
       ∧ final r = self ∧ calls r = [])
    ∧ (ans_error ans ≠ Some "no_documents" →
       RAGEngine.ask_question env now q document_filter true self
       = mkOutcome (inr ans) (final r) (calls r))
    ∧ ans_error ans ∈ [None; Some "no_documents"; Some "connection_error";
                       Some "unknown_error"].
Proof.
  cbv zeta. unfold Api.ask_question.
  rewrite (bind_run get _ _ _ _ [] eq_refl). unfold RAGEngine.is_ready.
  assert (0 <= VectorStore.document_count (RAGEngine.vector_store self))%Z
    as Hnn by (unfold VectorStore.document_count; lia).
  destruct (Z.gtb_spec (VectorStore.document_count
                          (RAGEngine.vector_store self)) 0) as [Hpos|Hzero];
    cbn [negb result final calls ret app].
  - destruct (ask_question_result env now q document_filter true self)
      as (ans & Hres & Herr).
    assert (ans_error ans = None ∨ ans_error ans = Some "connection_error"
            ∨ ans_error ans = Some "unknown_error") as Htag.
    { destruct Herr as [?|[e ->]]; [by left|right].
      apply ask_failed_error. }
    clear Herr.
    destruct (RAGEngine.ask_question env now q document_filter true self)
      as [res s cl] eqn:Hrun. cbn [result] in Hres. subst res.
    rewrite (bind_run _ _ _ _ _ _ Hrun). cbn [result final calls ret].
    rewrite app_nil_r. destruct ans as [a srcs docs err].
    cbn [ans_answer ans_sources ans_documents_searched ans_error] in *.
    eexists. split; [done|].
    cbn [ans_answer ans_sources ans_documents_searched ans_error].
    assert (err ≠ Some "no_documents") as Hne.
    { destruct Htag as [->|[->| ->]]; done. }
    split_and!; [split; [done|lia]|done|done|].
    destruct Htag as [->|[->| ->]]; set_solver.
  - eexists. split; [done|].
    cbn [ans_answer ans_sources ans_documents_searched ans_error].
    split_and!; [split; [lia|done]|done|done|set_solver].
Qed.

End ApiMore.


(* ===================================================================== *)
(** * The properties on the sample states *)
(* ===================================================================== *)

Lemma sample_store_a_wf : wf Sample.store_a.
Proof.
  apply add_document_wf; [apply wf_empty|].
  intros c Hc. unfold Sample.notes in Hc.
  repeat (apply elem_of_cons in Hc as [->|Hc]; [done|]).
  by apply elem_of_nil in Hc.
Qed.

Lemma sample_store_ab_wf : wf Sample.store_ab.
Proof.
  apply add_document_wf; [apply sample_store_a_wf|].
  intros c Hc. unfold Sample.book in Hc.
  repeat (apply elem_of_cons in Hc as [->|Hc]; [done|]).
  by apply elem_of_nil in Hc.
Qed.

Lemma Z_leb_total (a b : Z) : (a <=? b)%Z = true ∨ (b <=? a)%Z = true.
Proof. destruct (Z.leb_spec a b); [by left|right; apply Z.leb_le; lia]. Qed.

(** ** The chunker *)

Lemma smart_chunk_text_length_bound_witness :
  (0 <= 3 < 10)%Z
  ∧ ∃ o,
      (o, Sample.overlapped_chunk)
        ∈ DocumentProcessor.smart_chunk_trace Sample.two_paragraphs ∅
            "notes.txt" 10 3
      ∧ ((o = ParagraphBuffer
          ∧ (Py.len (chunk_text Sample.overlapped_chunk) <= 10 + 3 + 2)%Z)
         ∨ (o = SentenceSplit
            ∧ ∃ p pg, (10 < Py.len p)%Z
                ∧ Sample.overlapped_chunk
                    ∈ DocumentProcessor._split_long_paragraph
                        p pg "notes.txt" 10 3)).
Proof.
  split; [lia|].
  apply (smart_chunk_text_length_bound Sample.two_paragraphs ∅ "notes.txt"
           10 3); [lia|].
  replace (DocumentProcessor.smart_chunk_text Sample.two_paragraphs ∅
             "notes.txt" 10 3)
    with [mkChunk "aaaaaaaa" 1 "notes.txt"; Sample.overlapped_chunk]
    by (vm_compute; reflexivity).
  apply list_elem_of_further, list_elem_of_here.
Defined.

(** C1, as stated, fails. With [chunk_size = 10] and [chunk_overlap = 3]
    the text of two paragraphs of eight characters gives a second chunk
    of thirteen characters, flushed from the paragraph buffer: no
    paragraph is longer than ten and no sentence was split. *)
Lemma smart_chunk_text_exceeds_chunk_size :
  (3 < 10)%Z
  ∧ Sample.overlapped_chunk
      ∈ DocumentProcessor.smart_chunk_text Sample.two_paragraphs ∅
          "notes.txt" 10 3
  ∧ DocumentProcessor.smart_chunk_trace Sample.two_paragraphs ∅
      "notes.txt" 10 3
    = [(ParagraphBuffer, mkChunk "aaaaaaaa" 1 "notes.txt");
       (ParagraphBuffer, Sample.overlapped_chunk)]
  ∧ Py.len (chunk_text Sample.overlapped_chunk) = 13%Z
  ∧ ¬ (Py.len (chunk_text Sample.overlapped_chunk) <= 10)%Z.
Proof.
  split_and!; [lia| |by vm_compute|by vm_compute|by vm_compute].
  replace (DocumentProcessor.smart_chunk_text Sample.two_paragraphs ∅
             "notes.txt" 10 3)
    with [mkChunk "aaaaaaaa" 1 "notes.txt"; Sample.overlapped_chunk]
    by (vm_compute; reflexivity).
  apply list_elem_of_further, list_elem_of_here.
Qed.

(** The bound [S + O + 2] is attained: two paragraphs of ten characters
    with [chunk_size = 10] and [chunk_overlap = 3] give chunks of ten
    and of fifteen characters. *)
Example smart_chunk_text_bound_attained :
  Py.len ∘ chunk_text
    <$> DocumentProcessor.smart_chunk_text Sample.two_full_paragraphs ∅
          "notes.txt" 10 3
  = [10%Z; 15%Z].
Proof. by vm_compute. Qed.

(** Without any overlap a chunk can still hold [S + 1] characters: the
    test that a paragraph fits counts one character for the separator,
    and the separator has two. *)
Example smart_chunk_text_separator_counted_once :
  DocumentProcessor.smart_chunk_text Sample.short_paragraphs ∅
    "notes.txt" 10 0
  = [mkChunk Sample.short_paragraphs 1 "notes.txt"]
  ∧ Py.len Sample.short_paragraphs = 11%Z.
Proof. split; by vm_compute. Qed.

(** ** The vector store *)

Lemma add_document_failure_state_witness :
  let e := mkExn (Requests ReqConnectionError)
             "HTTPConnectionPool(host='localhost', port=11434): Max retries exceeded" in
  let r := VectorStore.add_document Sample.env "a.txt" Sample.notes_bad
             Sample.store_a in
  result r = inl e
  ∧ final r = final (VectorStore.remove_document "a.txt" Sample.store_a)
  ∧ VectorStore._documents (final r)
    = delete "a.txt" (VectorStore._documents Sample.store_a)
  ∧ VectorStore.collection (final r) ⊆ VectorStore.collection Sample.store_a
  ∧ (VectorStore._documents Sample.store_a !! "a.txt" = None →
     final r = Sample.store_a).
Proof.
  cbv zeta. split; [by vm_compute|].
  apply (add_document_failure_state Sample.env "a.txt" Sample.notes_bad
           Sample.store_a
           (mkExn (Requests ReqConnectionError)
              "HTTPConnectionPool(host='localhost', port=11434): Max retries exceeded")).
  by vm_compute.
Defined.

(** C3, as stated, fails. [a.txt] is registered with two chunks; a
    second upload of [a.txt] fails on its second chunk; after the
    failure [a.txt] is not registered any more and its two chunks are
    gone from the index. *)
Lemma add_document_failure_loses_previous_version :
  let r := VectorStore.add_document Sample.env "a.txt" Sample.notes_bad
             Sample.store_a in
  (∃ e, result r = inl e)
  ∧ VectorStore._documents Sample.store_a !! "a.txt"
    = Some (mkDocInfo 2 ["doc_a.txt_0"; "doc_a.txt_1"])
  ∧ VectorStore.chunk_count Sample.store_a = 2%Z
  ∧ VectorStore._documents (final r) !! "a.txt" = None
  ∧ VectorStore.chunk_count (final r) = 0%Z
  ∧ final r ≠ Sample.store_a.
Proof.
  cbv zeta.
  split_and!; [eexists; by vm_compute|by vm_compute..|].
  intros Heq.
  assert (VectorStore.chunk_count
            (final (VectorStore.add_document Sample.env "a.txt"
                      Sample.notes_bad Sample.store_a))
          = VectorStore.chunk_count Sample.store_a) as Hcount
    by by rewrite Heq.
  by vm_compute in Hcount.
Qed.

Lemma add_then_remove_witness :
  let r := VectorStore.remove_document "a.txt"
             (final (VectorStore.add_document Sample.env "a.txt"
                       Sample.notes_v2 Sample.store_a)) in
  wf Sample.store_a ∧ Sample.notes_v2 ≠ []
  ∧ result (VectorStore.add_document Sample.env "a.txt" Sample.notes_v2
              Sample.store_a) = inr 1
  ∧ result r = inr true
  ∧ final r = final (VectorStore.remove_document "a.txt" Sample.store_a)
  ∧ (VectorStore._documents Sample.store_a !! "a.txt" = None →
     final r = Sample.store_a)
  ∧ (∀ info, VectorStore._documents Sample.store_a !! "a.txt" = Some info →
       VectorStore.document_count (final r)
       = (VectorStore.document_count Sample.store_a - 1)%Z
       ∧ VectorStore.chunk_count (final r)
         = (VectorStore.chunk_count Sample.store_a
            - Z.of_nat (chunk_count info))%Z).
Proof.
  cbv zeta. split; [apply sample_store_a_wf|]. split; [done|].
  split; [by vm_compute|].
  apply (add_then_remove Sample.env "a.txt" Sample.notes_v2 Sample.store_a 1);
    [apply sample_store_a_wf|done|by vm_compute].
Defined.

(** C4, as stated, fails. [a.txt] is registered with two chunks; adding
    a new version of [a.txt] and removing it at once leaves no document
    and no chunk, where there were one document and two chunks before
    the add. *)
Lemma add_then_remove_loses_previous_version :
  let added := VectorStore.add_document Sample.env "a.txt" Sample.notes_v2
                 Sample.store_a in
  let r := VectorStore.remove_document "a.txt" (final added) in
  wf Sample.store_a
  ∧ result added = inr 1 ∧ result r = inr true
  ∧ VectorStore.document_count Sample.store_a = 1%Z
  ∧ VectorStore.chunk_count Sample.store_a = 2%Z
  ∧ VectorStore.document_count (final r) = 0%Z
  ∧ VectorStore.chunk_count (final r) = 0%Z.
Proof.
  cbv zeta. split; [apply sample_store_a_wf|]. split_and!; by vm_compute.
Qed.

Lemma readd_replaces_witness :
  let vs' := final (VectorStore.add_document Sample.env "a.txt"
                      Sample.notes_v2 Sample.store_a) in
  wf Sample.store_a
  ∧ VectorStore._documents Sample.store_a !! "a.txt"
    = Some (mkDocInfo 2 ["doc_a.txt_0"; "doc_a.txt_1"])
  ∧ Sample.notes_v2 ≠ []
  ∧ result (VectorStore.add_document Sample.env "a.txt" Sample.notes_v2
              Sample.store_a) = inr 1
  ∧ 1 = length Sample.notes_v2
  ∧ VectorStore._documents vs'
    = <["a.txt" := mkDocInfo (length Sample.notes_v2)
                     (VectorStore.chunk_id "a.txt"
                        <$> seq 0 (length Sample.notes_v2))]>
        (VectorStore._documents Sample.store_a)
  ∧ VectorStore.document_count vs' = VectorStore.document_count Sample.store_a
  ∧ VectorStore.chunk_count vs'
    = (VectorStore.chunk_count Sample.store_a - Z.of_nat 2
       + Z.of_nat (length Sample.notes_v2))%Z
  ∧ (∀ i, match Sample.notes_v2 !! i with
          | Some c =>
              ∃ v, VectorStore.collection vs' !! VectorStore.chunk_id "a.txt" i
                   = Some (mkEntry v (chunk_text c)
                             (mkMetadata (chunk_document c) (chunk_page c) i))
          | None =>
              VectorStore.collection vs' !! VectorStore.chunk_id "a.txt" i
              = None
          end).
Proof.
  cbv zeta. split; [apply sample_store_a_wf|]. split; [by vm_compute|].
  split; [done|]. split; [by vm_compute|].
  apply (readd_replaces Sample.env "a.txt" Sample.notes_v2 Sample.store_a
           (mkDocInfo 2 ["doc_a.txt_0"; "doc_a.txt_1"]) 1);
    [apply sample_store_a_wf|by vm_compute|done|by vm_compute].
Defined.

(** C5, as stated, fails in its last part. [a.txt] is registered with
    the ids [doc_a.txt_0] and [doc_a.txt_1]; after a second upload of
    [a.txt] with one chunk, the id [doc_a.txt_0] of the old version is
    in the index: it now names the new chunk. *)
Lemma readd_reuses_chunk_ids :
  let vs' := final (VectorStore.add_document Sample.env "a.txt"
                      Sample.notes_v2 Sample.store_a) in
  wf Sample.store_a
  ∧ result (VectorStore.add_document Sample.env "a.txt" Sample.notes_v2
              Sample.store_a) = inr 1
  ∧ VectorStore._documents Sample.store_a !! "a.txt"
    = Some (mkDocInfo 2 ["doc_a.txt_0"; "doc_a.txt_1"])
  ∧ VectorStore.collection vs' !! "doc_a.txt_0"
    = Some (mkEntry 5%Z "gamma" (mkMetadata "a.txt" 1 0))
  ∧ ¬ (∀ id, id ∈ ["doc_a.txt_0"; "doc_a.txt_1"] →
             VectorStore.collection vs' !! id = None).
Proof.
  cbv zeta. split; [apply sample_store_a_wf|].
  split_and!; [by vm_compute..|].
  intros Hgone. specialize (Hgone "doc_a.txt_0" (list_elem_of_here _ _)).
  by vm_compute in Hgone.
Qed.

Lemma remove_document_frame_witness :
  let r := VectorStore.remove_document "a.txt" Sample.store_ab in
  let info_a := mkDocInfo 2 ["doc_a.txt_0"; "doc_a.txt_1"] in
  let info_b := mkDocInfo 1 ["doc_b.txt_0"] in
  wf Sample.store_ab ∧ "a.txt" ≠ "b.txt"
  ∧ VectorStore._documents Sample.store_ab !! "a.txt" = Some info_a
  ∧ VectorStore._documents Sample.store_ab !! "b.txt" = Some info_b
  ∧ result r = inr true
  ∧ VectorStore._documents (final r)
    = delete "a.txt" (VectorStore._documents Sample.store_ab)
  ∧ VectorStore._documents (final r) !! "b.txt" = Some info_b
  ∧ (∀ id, VectorStore.collection (final r) !! id
           = if decide (id ∈ chunk_ids info_a) then None
             else VectorStore.collection Sample.store_ab !! id)
  ∧ (∀ id, id ∈ chunk_ids info_b →
           VectorStore.collection (final r) !! id
           = VectorStore.collection Sample.store_ab !! id)
  ∧ (∀ id e, VectorStore.collection Sample.store_ab !! id = Some e →
             md_document (metadata e) = "b.txt" →
             VectorStore.collection (final r) !! id = Some e).
Proof.
  cbv zeta. split; [apply sample_store_ab_wf|]. split; [done|].
  split; [by vm_compute|]. split; [by vm_compute|].
  apply (remove_document_frame Sample.store_ab "a.txt" "b.txt"
           (mkDocInfo 2 ["doc_a.txt_0"; "doc_a.txt_1"])
           (mkDocInfo 1 ["doc_b.txt_0"]));
    [apply sample_store_ab_wf|done|by vm_compute|by vm_compute].
Defined.

Lemma query_results_witness :
  let r := VectorStore.query Sample.env "alphabet" 5 None Sample.store_a in
  api_embeddings Sample.env (VectorStore.ollama_base_url Sample.store_a)
    (VectorStore.embedding_model Sample.store_a) "alphabet"
  = Response 200 "" (inr 8%Z)
  ∧ (∀ a b, dist_leb Sample.env a b = true ∨ dist_leb Sample.env b a = true)
  ∧ final r = Sample.store_a
  ∧ (VectorStore.chunk_count Sample.store_a = 0%Z → result r = inr [])
  ∧ ((1 <= 5)%Z →
     ∃ hits, result r = inr hits
       ∧ (Z.of_nat (length hits)
          <= Z.min 5 (VectorStore.chunk_count Sample.store_a))%Z
       ∧ ascending Sample.env hits).
Proof.
  cbv zeta. split; [by vm_compute|]. split; [apply Z_leb_total|].
  apply (query_results Sample.env "alphabet" 5 None Sample.store_a "" 8%Z);
    [by vm_compute|apply Z_leb_total].
Defined.

(** C6, as stated, fails in its last part. The index is empty and the
    embedding backend is down: [query] raises the failure of the
    embedding call; it does not return the empty sequence. *)
Lemma query_raises_on_empty_index :
  VectorStore.chunk_count Sample.empty_store = 0%Z
  ∧ result (VectorStore.query Sample.env "is the backend unreachable?" 5 None
              Sample.empty_store)
    = inl (mkExn (Requests ReqConnectionError)
             "HTTPConnectionPool(host='localhost', port=11434): Max retries exceeded").
Proof. split; by vm_compute. Qed.

(** ** The engine *)

(** The handler of [ask_question] looks for the word [connection] in the
    message: the [ConnectionError] that [_generate_answer] raises, whose
    message is [Cannot connect to Ollama], is reported as
    [unknown_error]. *)
Example ask_failed_cannot_connect :
  @RAGEngine.ask_failed Z (mkExn ConnectionError "Cannot connect to Ollama")
  = mkAnswer "An error occurred: Cannot connect to Ollama" [] []
             (Some "unknown_error").
Proof. by vm_compute. Qed.

Lemma ask_question_empty_index_witness :
  let self := Sample.engine_of Config.default Sample.empty_store in
  VectorStore.document_count (RAGEngine.vector_store self) = 0%Z
  ∧ RAGEngine.ask_question Sample.env "2024-01-01T09:05:00" "what is alpha?"
      None true self
    = mkOutcome (inr (mkAnswer RAGEngine.MSG_UPLOAD_FIRST [] [] None)) self [].
Proof.
  cbv zeta. split; [done|].
  by apply (ask_question_empty_index Sample.env "2024-01-01T09:05:00"
              "what is alpha?" None true
              (Sample.engine_of Config.default Sample.empty_store)).
Defined.

Lemma ask_question_generation_timeout_witness :
  let self := Sample.engine_of Config.default Sample.store_a in
  let r := RAGEngine.ask_question Sample.slow_env "2024-01-01T09:05:00"
             "what is alpha?" None true self in
  existsb is_generate (calls r) = true
  ∧ length (filter (fun c => is_generate c = true) (calls r)) = 1
  ∧ (∃ ans, result r = inr ans
            ∧ ans_answer ans = RAGEngine.MSG_TIMED_OUT
            ∧ ans_error ans = None)
  ∧ RAGEngine._conversation_history (final r)
    = history_with (Config.max_conversation_history (RAGEngine.config self))
        (RAGEngine._conversation_history self)
        (mkExchange "what is alpha?" RAGEngine.MSG_TIMED_OUT
                    "2024-01-01T09:05:00").
Proof.
  cbv zeta. split; [by vm_compute|].
  apply (ask_question_generation_timeout Sample.slow_env "2024-01-01T09:05:00"
           "what is alpha?" None true
           (Sample.engine_of Config.default Sample.store_a)).
  exists "http://localhost:11434", "llama3.2",
    (match calls (RAGEngine.ask_question Sample.slow_env "2024-01-01T09:05:00"
                    "what is alpha?" None true
                    (Sample.engine_of Config.default Sample.store_a)) with
     | [_; PostGenerate _ _ prompt] => prompt
     | _ => ""
     end),
    ReqReadTimeout, "Read timed out. (read timeout=180)".
  split; [|by vm_compute].
  vm_compute. apply list_elem_of_further, list_elem_of_here.
Defined.

(** C2, as stated, fails in its first part. The generation call of this
    question times out, every time it is made; the history is empty
    before the question and holds one entry after it: the question with
    the timed-out text. *)
Lemma ask_question_timeout_is_recorded :
  let self := Sample.engine_of Config.default Sample.store_a in
  let r := RAGEngine.ask_question Sample.slow_env "2024-01-01T09:05:00"
             "what is alpha?" None true self in
  (∀ url model prompt,
     api_generate Sample.slow_env url model prompt
     = Raises ReqReadTimeout "Read timed out. (read timeout=180)")
  ∧ existsb is_generate (calls r) = true
  ∧ RAGEngine._conversation_history self = []
  ∧ RAGEngine._conversation_history (final r)
    = [mkExchange "what is alpha?" RAGEngine.MSG_TIMED_OUT
                  "2024-01-01T09:05:00"]
  ∧ RAGEngine._conversation_history (final r)
    ≠ RAGEngine._conversation_history self.
Proof. cbv zeta. split_and!; by vm_compute. Qed.

(** C7 fails on the code for [max_conversation_history = 0]. Three
    appends to an empty history leave three entries, more than
    [2 * 0], and the window read into a prompt is all three of them:
    [history[-0:]] is the whole list, so nothing is ever evicted. *)
Theorem history_unbounded_without_limit :
  let self := Sample.engine_of Sample.no_memory_config Sample.empty_store in
  let self' := appended [("09:01", "q1", "a1"); ("09:02", "q2", "a2");
                         ("09:03", "q3", "a3")] self in
  Config.max_conversation_history (RAGEngine.config self') = 0%Z
  ∧ length (RAGEngine._conversation_history self') = 3
  ∧ ¬ (Z.of_nat (length (RAGEngine._conversation_history self'))
       <= 2 * Config.max_conversation_history (RAGEngine.config self'))%Z
  ∧ RAGEngine.recent_window
      (Config.max_conversation_history (RAGEngine.config self'))
      (RAGEngine._conversation_history self')
    = RAGEngine._conversation_history self'.
Proof. cbv zeta. split_and!; by vm_compute. Qed.

(** ** Further properties *)

Lemma smart_chunk_text_single_paragraph_witness :
  let text := "  Photosynthesis turns light into sugar. " in
  Py.contains (Py.NL +:+ Py.NL) text = false
  ∧ Py.match_page_marker text = None
  ∧ Py.strip text ≠ ""
  ∧ (Py.len (Py.strip text) <= 400)%Z
  ∧ DocumentProcessor.smart_chunk_text text ∅ "biology.txt" 400 100
    = [mkChunk "Photosynthesis turns light into sugar." 1 "biology.txt"].
Proof.
  cbv zeta. split; [by vm_compute|]. split; [by vm_compute|].
  split; [by vm_compute|]. split; [by vm_compute|].
  apply (smart_chunk_text_single_paragraph
           "  Photosynthesis turns light into sugar. " ∅ "biology.txt" 400 100);
    by vm_compute.
Defined.

Lemma chunk_count_registered_witness :
  wf Sample.store_ab
  ∧ VectorStore.chunk_count Sample.store_ab
    = Z.of_nat (registered_chunks Sample.store_ab)
  ∧ VectorStore.document_count Sample.store_ab
    = Z.of_nat (length (VectorStore.get_documents Sample.store_ab)).
Proof.
  split; [apply sample_store_ab_wf|].
  apply (chunk_count_registered Sample.store_ab), sample_store_ab_wf.
Defined.

Lemma query_hits_witness :
  let hit := mkHit "alpha" (mkMetadata "a.txt" 1 0) 3%Z 1 "a.txt" in
  let hits := [mkHit "beta beta" (mkMetadata "a.txt" 2 1) 1%Z 2 "a.txt"; hit] in
  result (VectorStore.query Sample.env "alphabet" 5 (Some "a.txt")
            Sample.store_ab) = inr hits
  ∧ hit ∈ hits
  ∧ ∃ id e v,
      VectorStore.collection Sample.store_ab !! id = Some e
      ∧ result (VectorStore._get_embedding Sample.env "alphabet"
                  Sample.store_ab) = inr v
      ∧ hit = mkHit (entry_text e) (metadata e)
                    (distance_of Sample.env v (embedding e))
                    (md_page (metadata e)) (md_document (metadata e))
      ∧ (∀ d, Some "a.txt" = Some d → d ≠ "" → hit_document hit = d).
Proof.
  cbv zeta. split; [by vm_compute|].
  split; [apply list_elem_of_further, list_elem_of_here|].
  apply (query_hits Sample.env "alphabet" 5 (Some "a.txt") Sample.store_ab
           [mkHit "beta beta" (mkMetadata "a.txt" 2 1) 1%Z 2 "a.txt";
            mkHit "alpha" (mkMetadata "a.txt" 1 0) 3%Z 1 "a.txt"]);
    [by vm_compute|apply list_elem_of_further, list_elem_of_here].
Defined.

Lemma ask_question_documents_registered_witness :
  let self := Sample.engine_of Config.default Sample.store_ab in
  wf (RAGEngine.vector_store self)
  ∧ ∃ ans,
      result (RAGEngine.ask_question Sample.env "2024-01-01T09:05:00"
                "what is alpha?" None true self) = inr ans
      ∧ (∀ d, d ∈ ans_documents_searched ans →
              d ∈ RAGEngine.get_documents self)
      ∧ (∀ s, s ∈ ans_sources ans →
              src_document s ∈ RAGEngine.get_documents self).
Proof.
  cbv zeta. split; [apply sample_store_ab_wf|].
  apply (ask_question_documents_registered Sample.env "2024-01-01T09:05:00"
           "what is alpha?" None true
           (Sample.engine_of Config.default Sample.store_ab)).
  apply sample_store_ab_wf.
Defined.

Lemma ask_question_generation_unreachable_witness :
  let self := Sample.engine_of Config.default Sample.store_a in
  let r := RAGEngine.ask_question Sample.offline_env "2024-01-01T09:05:00"
             "what is alpha?" None true self in
  existsb is_generate (calls r) = true
  ∧ result r
    = inr (mkAnswer (RAGEngine.MSG_ERROR_PREFIX +:+ "Cannot connect to Ollama")
                    [] [] (Some "unknown_error"))
  ∧ RAGEngine._conversation_history (final r)
    = RAGEngine._conversation_history self
  ∧ questions_asked (RAGEngine._session_stats (final r))
    = questions_asked (RAGEngine._session_stats self) + 1.
Proof.
  cbv zeta. split; [by vm_compute|].
  apply (ask_question_generation_unreachable Sample.offline_env "2024-01-01T09:05:00"
           "what is alpha?" None true
           (Sample.engine_of Config.default Sample.store_a)).
  exists "http://localhost:11434", "llama3.2",
    (match calls (RAGEngine.ask_question Sample.offline_env "2024-01-01T09:05:00"
                    "what is alpha?" None true
                    (Sample.engine_of Config.default Sample.store_a)) with
     | [_; PostGenerate _ _ prompt] => prompt
     | _ => ""
     end),
    ReqConnectionError, "Connection refused".
  split; [|by vm_compute].
  vm_compute. apply list_elem_of_further, list_elem_of_here.
Defined.

Lemma reachable_history_bounded_witness :
  let self := Sample.engine_of Config.default Sample.store_a in
  let ops := [RAGEngine.AskQuestion "2024-01-01T09:05:00" "what is alpha?"
                None true;
              RAGEngine.RemoveDocument "b.txt";
              RAGEngine.AskQuestion "2024-01-01T09:06:00" "and beta?"
                (Some "a.txt") true] in
  let reached := run_ops Sample.env ops self in
  (1 <= Config.max_conversation_history (RAGEngine.config self))%Z
  ∧ (Z.of_nat (length (RAGEngine._conversation_history self))
     <= 2 * Config.max_conversation_history (RAGEngine.config self))%Z
  ∧ RAGEngine.config reached = RAGEngine.config self
  ∧ (Z.of_nat (length (RAGEngine._conversation_history reached))
     <= 2 * Config.max_conversation_history (RAGEngine.config self))%Z
  ∧ (Z.of_nat (length (RAGEngine.recent_window
                         (Config.max_conversation_history
                            (RAGEngine.config reached))
                         (RAGEngine._conversation_history reached)))
     <= Config.max_conversation_history (RAGEngine.config self))%Z.
Proof.
  cbv zeta. split; [by vm_compute|]. split; [by vm_compute|].
  apply (reachable_history_bounded Sample.env
           [RAGEngine.AskQuestion "2024-01-01T09:05:00" "what is alpha?"
              None true;
            RAGEngine.RemoveDocument "b.txt";
            RAGEngine.AskQuestion "2024-01-01T09:06:00" "and beta?"
              (Some "a.txt") true]
           (Sample.engine_of Config.default Sample.store_a));
    by vm_compute.
Defined.
